(** * DDW LeadMaster: the multi-session WhatsApp orchestration layer

    A shallow embedding of the session lifecycle (ConnectionManager over
    VenomBotAdapter), the pairing-code cache (QRCodeHandler), the outbound
    queue with rate limiting and retry (MessageSender) and the facade
    (WhatsAppService), followed by the properties of the design document
    that concern them.

    Conventions of the embedding.
    - A JavaScript string is the list of its UTF-16 code units.
    - A [Date] is its number of milliseconds since the epoch, a [Z].
    - A [Map] keyed by session id is a [gmap].
    - An [async] method is cut at its [await]s on a collaborator: the
      synchronous prefix is one function, the resumption another one that
      receives the outcome of the awaited call.  What the collaborator
      answers (the venom-bot client, the file system, the clock) is an
      argument of the function.
    - [this.emit] appends to an event log; calls handed to the venom-bot
      client are appended to a wire log. *)

From Stdlib Require Import ZArith NArith List Bool Lia.
From Stdlib Require Import Strings.String Strings.Ascii.
From stdpp Require Import base option list gmap.
Import ListNotations.

Local Open Scope Z_scope.

(* ===================================================================== *)
(** ** JavaScript strings and values                                      *)
(* ===================================================================== *)

Module Js.

(** A UTF-16 code unit. *)
Abbreviation code_unit := N.

Abbreviation jsstring := (list N).

(** Literals of the source are ASCII; [lit] reads one. *)
Definition lit (s : string) : jsstring :=
  List.map N_of_ascii (list_ascii_of_string s).

(** [s.length] *)
Definition jslength (s : jsstring) : Z := Z.of_nat (length s).

(** [\d] without the [u] flag: the ten ASCII digits. *)
Definition isDigit (c : code_unit) : bool :=
  (48 <=? c)%N && (c <=? 57)%N.

(** The character class [[a-zA-Z0-9_-]]. *)
Definition isIdChar (c : code_unit) : bool :=
  ((97 <=? c)%N && (c <=? 122)%N)
  || ((65 <=? c)%N && (c <=? 90)%N)
  || isDigit c
  || (c =? 95)%N
  || (c =? 45)%N.

(** [/^[a-zA-Z0-9_-]+$/.test(s)]: without the [m] flag [^] and [$] are
    the two ends of the input. *)
Definition test_id_regex (s : jsstring) : bool :=
  match s with
  | [] => false
  | _ => List.forallb isIdChar s
  end.

(** [s.replace(/[^\d]/g, '')] *)
Definition replace_non_digits (s : jsstring) : jsstring :=
  List.filter isDigit s.

(** [s.startsWith(p)] *)
Fixpoint startsWith (s p : jsstring) : bool :=
  match p, s with
  | [], _ => true
  | _ :: _, [] => false
  | b :: p', a :: s' => (a =? b)%N && startsWith s' p'
  end.

(** [s.includes(p)] *)
Fixpoint includes (s p : jsstring) : bool :=
  startsWith s p ||
  match s with
  | [] => false
  | _ :: s' => includes s' p
  end.

(** White space and line terminators, the code units [trim] strips. *)
Definition isWhiteSpace (c : code_unit) : bool :=
  ((9 <=? c)%N && (c <=? 13)%N)
  || (c =? 32)%N || (c =? 160)%N || (c =? 5760)%N
  || ((8192 <=? c)%N && (c <=? 8202)%N)
  || (c =? 8232)%N || (c =? 8233)%N || (c =? 8239)%N
  || (c =? 8287)%N || (c =? 12288)%N || (c =? 65279)%N.

Fixpoint trimStart (s : jsstring) : jsstring :=
  match s with
  | c :: s' => if isWhiteSpace c then trimStart s' else s
  | [] => []
  end.

(** [s.trim()] *)
Definition trim (s : jsstring) : jsstring :=
  rev (trimStart (rev (trimStart s))).

(** [s.toLowerCase()] on the ASCII range.  Code units outside it are
    kept; the only ones JavaScript lowers to an ASCII letter are U+212A
    (to k) and U+0130 (to i followed by U+0307), and the embedding only
    compares lowered strings with labels that have no k and that
    U+0130 cannot produce. *)
Definition lowerUnit (c : code_unit) : code_unit :=
  if (65 <=? c)%N && (c <=? 90)%N then (c + 32)%N else c.

Definition toLowerCase (s : jsstring) : jsstring := List.map lowerUnit s.

Definition eqb (s t : jsstring) : bool := bool_decide (s = t).

(** The values an untyped argument can take, as far as the validators
    of the source tell them apart. *)
Inductive value :=
| Undefined
| Null
| Bool (b : bool)
| Num (n : Z)
| NaN
| Str (s : jsstring)
| Obj.

(** [!v] is [negb (truthy v)]. *)
Definition truthy (v : value) : bool :=
  match v with
  | Undefined | Null | NaN => false
  | Bool b => b
  | Num n => negb (n =? 0)
  | Str s => match s with [] => false | _ => true end
  | Obj => true
  end.

(** [a || b] on numbers, the idiom of the configuration defaults. *)
Definition orNum (a : option Z) (b : Z) : Z :=
  match a with
  | Some n => if n =? 0 then b else n
  | None => b
  end.

(** [a || b] on strings. *)
Definition orStr (a : option jsstring) (b : jsstring) : jsstring :=
  match a with
  | Some (c :: s) => c :: s
  | _ => b
  end.

(** [a || b] on values. *)
Definition orVal (a b : value) : value := if truthy a then a else b.

(** [s.replace(p, '')] for a pattern [p] that is a string: the first
    occurrence of [p] is taken out. *)
Fixpoint remove_first (s p : jsstring) : jsstring :=
  if startsWith s p then skipn (length p) s
  else match s with
       | [] => []
       | c :: s' => c :: remove_first s' p
       end.

End Js.

Arguments Js.lit _%_string.

(** Session ids are JavaScript strings. *)
Abbreviation sid := (list N).

(** A date, in milliseconds since the epoch. *)
Abbreviation time := Z.

(* ===================================================================== *)
(** ** Errors and results                                                 *)
(* ===================================================================== *)

(** Every failure of the source is a plain [Error] told apart by its
    message; one constructor per message.  The design document's names
    are given with each. *)
Inductive error :=
| ErrNotInitialized              (* '... no está inicializado' *)
| ErrIdNotNonEmptyString         (* 'SessionId debe ser un string no vacío'  (InvalidIdentifierError) *)
| ErrIdTooLong                   (* 'SessionId no puede tener más de 50 caracteres'  (InvalidIdentifierError) *)
| ErrIdBadChars                  (* 'SessionId solo puede contener letras, ...'  (InvalidIdentifierError) *)
| ErrSessionLimit                (* 'Límite máximo de sesiones alcanzado'  (CapacityError) *)
| ErrSessionExists               (* 'Sesión ... ya existe'  (DuplicateSessionError) *)
| ErrSessionNotFound             (* 'Sesión ... no encontrada'  (SessionNotFoundError) *)
| ErrSessionNotConnected         (* 'Sesión ... no está conectada'  (SessionNotConnectedError) *)
| ErrMaxReconnect                (* 'Máximo de intentos de reconexión alcanzado'  (RetryExhaustedError) *)
| ErrInstanceUnavailable         (* 'Instancia ... no disponible' *)
| ErrInstanceNotConnected        (* 'Instancia ... no está conectada' *)
| ErrSessionIdRequired           (* 'SessionId es requerido y debe ser string' *)
| ErrRecipientRequired           (* 'Destinatario es requerido y debe ser string' *)
| ErrMessageRequired             (* 'Mensaje es requerido y debe ser string' *)
| ErrMessageTooLong              (* 'Mensaje muy largo (máximo 4096 caracteres)' *)
| ErrQueueFull                   (* 'Cola de mensajes llena'  (QueueFullError) *)
| ErrRateLimit                   (* 'Rate limit excedido' *)
| ErrTimeout                     (* 'Timeout enviando mensaje'  (TimeoutError) *)
| ErrUnsupportedFormat           (* 'Formato QR no soportado'  (UnsupportedFormatError) *)
| ErrNotAString                  (* TypeError: a string method called on a non-string *)
| ErrConfiguration               (* 'Configuración: ...'  (ConfigurationError) *)
| ErrQrDataMissing               (* 'QR data debe contener base64 o url' *)
| ErrInvalidFilter               (* 'Filtro de limpieza no válido' *)
| ErrNotRunning                  (* 'WhatsAppService no está ejecutándose' *)
| ErrExternal (code : Z).        (* raised by venom-bot or by the file system  (TransportError) *)

Global Instance error_eq_dec : EqDecision error.
Proof. solve_decision. Defined.

(** The outcome of a call: a returned value or a thrown error (for an
    [async] function, a resolved or a rejected promise). *)
Inductive result (A : Type) :=
| Return (a : A)
| Throw (e : error).

Arguments Return {A} a.
Arguments Throw {A} e.

Definition isThrow {A} (r : result A) : bool :=
  match r with Throw _ => true | Return _ => false end.

(** What the logger is given at the levels [warn] and [error]. *)
Inductive log_entry :=
| LogWarn (e : option error)
| LogError (e : error).

(* ===================================================================== *)
(** ** VenomBotAdapter                                                    *)
(* ===================================================================== *)

Module VenomBotAdapter.

(** The handle of a venom-bot client, as [create] resolves it. *)
Abbreviation client := N.

(** What [catchQR] is called with. *)
Record qrData := {
  qr_base64 : option Js.jsstring;
  qr_ascii : option Js.jsstring;
  qr_url : option Js.jsstring;
  qr_attempts : Z;
  qr_timestamp : time
}.

(** An entry of [this.instances]. *)
Record instance := {
  i_client : option client;
  i_status : Js.jsstring;
  i_qrCode : option qrData;
  i_lastActivity : time;
  i_attempts : Z
}.

(** The calls handed to venom-bot. *)
Inductive wire_call :=
| WCreate (s : sid)
| WClose (c : client)
| WSendText (c : client) (to body : Js.jsstring).

(** The events the adapter emits. *)
Inductive event :=
| InstanceConnected (s : sid)
| InstanceError (s : sid) (e : error)
| InstanceClosed (s : sid)
| QrCode (s : sid) (q : qrData)
| MessageReceived (s : sid)
| StateChange (s : sid) (state : Js.jsstring)
| StatusFind (s : sid) (state : Js.jsstring).

Record t := {
  instances : gmap sid instance;
  wire : list wire_call;
  log : list log_entry
}.

Definition empty : t := {| instances := ∅; wire := []; log := [] |}.

Definition with_instances (f : gmap sid instance -> gmap sid instance) (a : t) : t :=
  {| instances := f (instances a); wire := wire a; log := log a |}.

Definition call (w : wire_call) (a : t) : t :=
  {| instances := instances a; wire := wire a ++ [w]; log := log a |}.

Definition logged (l : log_entry) (a : t) : t :=
  {| instances := instances a; wire := wire a; log := log a ++ [l] |}.

Definition connected_str : Js.jsstring := Js.lit "connected".
Definition suffix_c_us : Js.jsstring := Js.lit "@c.us".

(** [createInstance], up to [await create(venomOptions)].  A session id
    already present throws inside the [try]; the [catch] then deletes
    the entry, emits [instanceError] and re-throws. *)
Definition createInstance_begin (a : t) (s : sid) (now : time)
  : t * list event * result unit :=
  match instances a !! s with
  | Some _ =>
      (logged (LogError ErrSessionExists) (with_instances (delete s) a),
       [InstanceError s ErrSessionExists], Throw ErrSessionExists)
  | None =>
      let i := {| i_client := None; i_status := Js.lit "initializing";
                  i_qrCode := None; i_lastActivity := now; i_attempts := 0 |} in
      (call (WCreate s) (with_instances (insert s i) a), [], Return tt)
  end.

(** [createInstance], from the outcome [r] of [create] on. *)
Definition createInstance_end (a : t) (s : sid) (now : time) (r : result client)
  : t * list event * result client :=
  match r with
  | Return c =>
      let set i := {| i_client := Some c; i_status := connected_str;
                      i_qrCode := i_qrCode i; i_lastActivity := now;
                      i_attempts := i_attempts i |} in
      (with_instances (alter set s) a, [InstanceConnected s], Return c)
  | Throw e =>
      (logged (LogError e) (with_instances (delete s) a),
       [InstanceError s e], Throw e)
  end.

Definition createInstance (a : t) (s : sid) (now : time) (r : result client)
  : t * list event * result client :=
  match createInstance_begin a s now with
  | (a1, evs, Throw e) => (a1, evs, Throw e)
  | (a1, evs, Return _) =>
      let '(a2, evs2, out) := createInstance_end a1 s now r in
      (a2, evs ++ evs2, out)
  end.

(** [closeInstance].  [rc] is the outcome of [instance.client.close()];
    its failure is caught on the spot and logged as a warning.  The
    outer [catch], which re-throws, guards only the logger and the
    listeners of [instanceClosed], of which the system registers none. *)
Definition closeInstance (a : t) (s : sid) (rc : result unit)
  : t * list event * result bool :=
  match instances a !! s with
  | None => (logged (LogWarn None) a, [], Return false)
  | Some i =>
      let a1 :=
        match i_client i with
        | Some c =>
            let a' := call (WClose c) a in
            match rc with
            | Return _ => a'
            | Throw e => logged (LogWarn (Some e)) a'
            end
        | None => a
        end in
      (with_instances (delete s) a1, [InstanceClosed s], Return true)
  end.

(** [sendMessage], up to [await instance.client.sendText(...)]. *)
Definition sendMessage_begin (a : t) (s : sid) (number message : Js.jsstring)
  : t * result unit :=
  match instances a !! s with
  | None => (logged (LogError ErrInstanceUnavailable) a, Throw ErrInstanceUnavailable)
  | Some i =>
      match i_client i with
      | None => (logged (LogError ErrInstanceUnavailable) a, Throw ErrInstanceUnavailable)
      | Some c =>
          if negb (Js.eqb (i_status i) connected_str)
          then (logged (LogError ErrInstanceNotConnected) a, Throw ErrInstanceNotConnected)
          else
            let formattedNumber :=
              if Js.includes number suffix_c_us then number
              else number ++ suffix_c_us in
            (call (WSendText c formattedNumber message) a, Return tt)
      end
  end.

(** [sendMessage], from the outcome [r] of [sendText] on. *)
Definition sendMessage_end (a : t) (s : sid) (now : time) (r : result unit)
  : t * result unit :=
  match r with
  | Return _ =>
      let touch i := {| i_client := i_client i; i_status := i_status i;
                        i_qrCode := i_qrCode i; i_lastActivity := now;
                        i_attempts := i_attempts i |} in
      (with_instances (alter touch s) a, Return tt)
  | Throw e => (logged (LogError e) a, Throw e)
  end.

(** [_updateInstanceStatus] *)
Definition updateInstanceStatus (a : t) (s : sid) (st : Js.jsstring) (now : time) : t :=
  let set i := {| i_client := i_client i; i_status := st;
                  i_qrCode := i_qrCode i; i_lastActivity := now;
                  i_attempts := i_attempts i |} in
  with_instances (alter set s) a.

(** [_handleQRCode], the [catchQR] callback. *)
Definition handleQRCode (a : t) (s : sid) (q : qrData) : t * list event :=
  let set i := {| i_client := i_client i; i_status := Js.lit "qr_ready";
                  i_qrCode := Some q; i_lastActivity := i_lastActivity i;
                  i_attempts := qr_attempts q |} in
  (with_instances (alter set s) a, [QrCode s q]).

(** [_handleStatusFind], the [statusFind] callback. *)
Definition handleStatusFind (a : t) (s : sid) (st : Js.jsstring) (now : time)
  : t * list event :=
  (updateInstanceStatus a s st now, [StatusFind s st]).

(** The [onStateChange] callback of a client. *)
Definition handleStateChange (a : t) (s : sid) (st : Js.jsstring) (now : time)
  : t * list event :=
  (updateInstanceStatus a s st now, [StateChange s st]).

(** The [onMessage] callback of a client. *)
Definition handleMessage (a : t) (s : sid) : t * list event :=
  (a, [MessageReceived s]).

End VenomBotAdapter.

(* ===================================================================== *)
(** ** ConnectionManager                                                  *)
(* ===================================================================== *)

Module ConnectionManager.

Import VenomBotAdapter.

(** The values [connection.status] is assigned. *)
Inductive status :=
| Creating | QrReady | Connected | Reconnecting | StError | Closing.

Global Instance status_eq_dec : EqDecision status.
Proof. solve_decision. Defined.

(** An entry of [this.connections].  The free-form [metadata] and the
    per-session [events] emitter are never read by the methods below and
    are left out. *)
Record connection := {
  c_status : status;
  c_createdAt : time;
  c_lastActivity : time;
  c_reconnectAttempts : Z;
  c_client : option client;
  c_qrCode : option qrData
}.

Record config := {
  maxSessions : Z;
  sessionTimeout : Z;
  reconnectAttempts : Z;
  reconnectDelay : Z;
  sessionsPath : Js.jsstring
}.

(** The events the manager emits. *)
Inductive event :=
| Initialized
| SessionCreated (s : sid)
| SessionError (v : Js.value) (e : error)
| SessionClosed (s : sid)
| MessageSent (s : sid) (to body : Js.jsstring)
| MessageError (s : sid) (to : Js.jsstring) (e : error)
| SessionReconnected (s : sid) (attempts : Z)
| SessionReconnectFailed (s : sid) (e : error) (attempts : Z)
| QrCodeEv (s : sid) (q : qrData)
| SessionConnected (s : sid)
| MessageReceivedEv (s : sid)
| StateChangeEv (s : sid) (state : Js.jsstring).

Record t := {
  adapter : VenomBotAdapter.t;
  connections : gmap sid connection;
  isInitialized : bool;
  cfg : config;
  events : list event;
  log : list log_entry
}.

Definition with_adapter (a : VenomBotAdapter.t) (m : t) : t :=
  {| adapter := a; connections := connections m; isInitialized := isInitialized m;
     cfg := cfg m; events := events m; log := log m |}.

Definition with_connections (f : gmap sid connection -> gmap sid connection) (m : t) : t :=
  {| adapter := adapter m; connections := f (connections m);
     isInitialized := isInitialized m; cfg := cfg m; events := events m; log := log m |}.

Definition emit (e : event) (m : t) : t :=
  {| adapter := adapter m; connections := connections m; isInitialized := isInitialized m;
     cfg := cfg m; events := events m ++ [e]; log := log m |}.

Definition logged (l : log_entry) (m : t) : t :=
  {| adapter := adapter m; connections := connections m; isInitialized := isInitialized m;
     cfg := cfg m; events := events m; log := log m ++ [l] |}.

Definition set_status (st : status) (c : connection) : connection :=
  {| c_status := st; c_createdAt := c_createdAt c; c_lastActivity := c_lastActivity c;
     c_reconnectAttempts := c_reconnectAttempts c; c_client := c_client c;
     c_qrCode := c_qrCode c |}.

Definition set_lastActivity (now : time) (c : connection) : connection :=
  {| c_status := c_status c; c_createdAt := c_createdAt c; c_lastActivity := now;
     c_reconnectAttempts := c_reconnectAttempts c; c_client := c_client c;
     c_qrCode := c_qrCode c |}.

Definition set_reconnectAttempts (n : Z) (c : connection) : connection :=
  {| c_status := c_status c; c_createdAt := c_createdAt c;
     c_lastActivity := c_lastActivity c; c_reconnectAttempts := n;
     c_client := c_client c; c_qrCode := c_qrCode c |}.

Definition set_client (cl : option client) (c : connection) : connection :=
  {| c_status := c_status c; c_createdAt := c_createdAt c;
     c_lastActivity := c_lastActivity c; c_reconnectAttempts := c_reconnectAttempts c;
     c_client := cl; c_qrCode := c_qrCode c |}.

Definition set_qrCode (q : option qrData) (c : connection) : connection :=
  {| c_status := c_status c; c_createdAt := c_createdAt c;
     c_lastActivity := c_lastActivity c; c_reconnectAttempts := c_reconnectAttempts c;
     c_client := c_client c; c_qrCode := q |}.

(** The manager as its constructor leaves it, for a given configuration. *)
Definition create (c : config) : t :=
  {| adapter := VenomBotAdapter.empty; connections := ∅; isInitialized := false;
     cfg := c; events := []; log := [] |}.

(** [_validateConfig] *)
Definition validateConfig (c : config) : bool :=
  match sessionsPath c with
  | [] => false
  | _ => negb (maxSessions c <=? 0)
  end.

(** [initialize] *)
Definition initialize (m : t) : t * result unit :=
  if isInitialized m then (logged (LogWarn None) m, Return tt)
  else if validateConfig (cfg m)
  then (emit Initialized
          {| adapter := adapter m; connections := connections m; isInitialized := true;
             cfg := cfg m; events := events m; log := log m |}, Return tt)
  else (logged (LogError ErrConfiguration) m, Throw ErrConfiguration).

(** The listeners of [_setupAdapterListeners]. *)
Definition handle (now : time) (m : t) (ev : VenomBotAdapter.event) : t :=
  match ev with
  | QrCode s q =>
      with_connections
        (alter (fun c => set_lastActivity now (set_status QrReady (set_qrCode (Some q) c))) s)
        (emit (QrCodeEv s q) m)
  | InstanceConnected s =>
      with_connections
        (alter (fun c => set_reconnectAttempts 0
                           (set_lastActivity now (set_status Connected c))) s)
        (emit (SessionConnected s) m)
  | InstanceError s e =>
      with_connections (alter (set_status StError) s)
        (emit (SessionError (Js.Str s) e) m)
  | MessageReceived s =>
      with_connections (alter (set_lastActivity now) s) (emit (MessageReceivedEv s) m)
  | StateChange s st =>
      with_connections (alter (set_lastActivity now) s) (emit (StateChangeEv s st) m)
  | InstanceClosed _ | StatusFind _ _ => m
  end.

Definition dispatch (now : time) (m : t) (evs : list VenomBotAdapter.event) : t :=
  fold_left (handle now) evs m.

(** [_validateSessionId].  For a value that is no string, [!sessionId]
    or the [typeof] test throws before [trim] is reached. *)
Definition validateSessionId (v : Js.value) : result sid :=
  match v with
  | Js.Str s =>
      if negb (Js.truthy v) || Js.eqb (Js.trim s) []
      then Throw ErrIdNotNonEmptyString
      else if Js.jslength s >? 50 then Throw ErrIdTooLong
      else if negb (Js.test_id_regex s) then Throw ErrIdBadChars
      else Return s
  | _ => Throw ErrIdNotNonEmptyString
  end.

(** [_checkSessionLimit] *)
Definition atSessionLimit (m : t) : bool :=
  Z.of_nat (size (connections m)) >=? maxSessions (cfg m).

(** The outer [catch] of [createSession]. *)
Definition createSession_catch (m : t) (v : Js.value) (e : error) : t * result sid :=
  (emit (SessionError v e) (logged (LogError e) m), Throw e).

(** [createSession], run to its end: nothing else runs while it waits
    for venom-bot and the clock is read once.  [r] is the outcome of
    venom-bot's [create].  [createSession_begin] and
    [createSession_end] below are the same method cut at its [await]. *)
Definition createSession (m : t) (v : Js.value) (now : time) (r : result client)
  : t * result sid :=
  if negb (isInitialized m) then createSession_catch m v ErrNotInitialized
  else
    match validateSessionId v with
    | Throw e => createSession_catch m v e
    | Return s =>
        if atSessionLimit m then createSession_catch m v ErrSessionLimit
        else
          match connections m !! s with
          | Some _ => createSession_catch m v ErrSessionExists
          | None =>
              let connectionData :=
                {| c_status := Creating; c_createdAt := now; c_lastActivity := now;
                   c_reconnectAttempts := 0; c_client := None; c_qrCode := None |} in
              let m1 := with_connections (insert s connectionData) m in
              let '(a2, evs, out) := createInstance (adapter m1) s now r in
              let m2 := dispatch now (with_adapter a2 m1) evs in
              match out with
              | Return cl =>
                  let m3 :=
                    with_connections
                      (alter (fun c => set_lastActivity now
                                         (set_status Connected (set_client (Some cl) c))) s)
                      m2 in
                  (emit (SessionCreated s) m3, Return s)
              | Throw e =>
                  createSession_catch (with_connections (delete s) m2) v e
              end
          end
    end.

(** [getSessionStatus]; [None] stands for ['not_found']. *)
Definition getSessionStatus (m : t) (s : sid) : option status :=
  c_status <$> connections m !! s.

(** [getSession] is [null] exactly when the id is not in the map. *)
Definition hasSession (m : t) (s : sid) : bool :=
  bool_decide (is_Some (connections m !! s)).

(** [closeSession], up to [await this.adapter.closeInstance(sessionId)];
    [None] when the id is unknown, in which case the method returns
    [false]. *)
Definition closeSession_begin (m : t) (s : sid) : option t :=
  match connections m !! s with
  | None => None
  | Some _ => Some (with_connections (alter (set_status Closing) s) m)
  end.

(** [closeSession], from the outcome [r] of [closeInstance] on.  The
    [catch] marks the session as in error and keeps it ("Marcar como
    error pero no eliminar por si se puede recuperar"). *)
Definition closeSession_resume (m : t) (s : sid) (r : result bool) : t * result bool :=
  match r with
  | Return _ => (emit (SessionClosed s) (with_connections (delete s) m), Return true)
  | Throw e =>
      (logged (LogError e) (with_connections (alter (set_status StError) s) m), Throw e)
  end.

(** [closeSession] over the adapter of the system; [rc] is the outcome
    of the venom-bot client's own [close]. *)
Definition closeSession (m : t) (s : sid) (now : time) (rc : result unit)
  : t * result bool :=
  match closeSession_begin m s with
  | None => (logged (LogWarn None) m, Return false)
  | Some m1 =>
      let '(a2, evs, out) := closeInstance (adapter m1) s rc in
      closeSession_resume (dispatch now (with_adapter a2 m1) evs) s out
  end.

(** The [catch] of [sendMessage]. *)
Definition sendMessage_catch (m : t) (s : sid) (number : Js.jsstring) (e : error)
  : t * result unit :=
  (emit (MessageError s number e) (logged (LogError e) m), Throw e).

(** [sendMessage], up to the [await] of the adapter. *)
Definition sendMessage_begin (m : t) (s : sid) (number message : Js.jsstring)
  (now : time) : t * result unit :=
  match connections m !! s with
  | None => sendMessage_catch m s number ErrSessionNotFound
  | Some c =>
      if negb (bool_decide (c_status c = Connected))
      then sendMessage_catch m s number ErrSessionNotConnected
      else
        let m1 := with_connections (alter (set_lastActivity now) s) m in
        let '(a2, out) := VenomBotAdapter.sendMessage_begin (adapter m1) s number message in
        match out with
        | Return _ => (with_adapter a2 m1, Return tt)
        | Throw e => sendMessage_catch (with_adapter a2 m1) s number e
        end
  end.

(** [sendMessage], from the outcome [r] of [sendText] on. *)
Definition sendMessage_end (m : t) (s : sid) (number message : Js.jsstring)
  (now : time) (r : result unit) : t * result unit :=
  let '(a2, out) := VenomBotAdapter.sendMessage_end (adapter m) s now r in
  match out with
  | Return _ => (emit (MessageSent s number message) (with_adapter a2 m), Return tt)
  | Throw e => sendMessage_catch (with_adapter a2 m) s number e
  end.

(** The guard of [reconnectSession]. *)
Definition reconnect_check (m : t) (s : sid) : result connection :=
  match connections m !! s with
  | None => Throw ErrSessionNotFound
  | Some c =>
      if c_reconnectAttempts c >=? reconnectAttempts (cfg m)
      then Throw ErrMaxReconnect
      else Return c
  end.

(** [reconnectSession], up to its first [await]: the guard, then
    [connection.reconnectAttempts++] and the status ['reconnecting']. *)
Definition reconnect_begin (m : t) (s : sid) : t * result unit :=
  match reconnect_check m s with
  | Throw e => (m, Throw e)
  | Return _ =>
      (with_connections
         (alter (fun c => set_status Reconnecting
                            (set_reconnectAttempts (c_reconnectAttempts c + 1) c)) s) m,
       Return tt)
  end.

(** The [catch] of [reconnectSession]. *)
Definition reconnect_catch (m : t) (s : sid) (e : error) : t * result bool :=
  let m1 := with_connections (alter (set_status StError) s) (logged (LogError e) m) in
  let attempts := Js.orNum (c_reconnectAttempts <$> connections m1 !! s) 0 in
  (emit (SessionReconnectFailed s e attempts) m1, Throw e).

(** [reconnectSession], run to its end with nothing else running while
    it waits; [rc] is the outcome of the old client's [close], [r] the
    one of venom-bot's [create], [now1] and [now2] the times at which
    they arrive.  [reconnect_until_wait] and [reconnect_after_wait]
    below are the same method cut at its wait. *)
Definition reconnectSession (m : t) (s : sid) (now1 now2 : time)
  (rc : result unit) (r : result client) : t * result bool :=
  match reconnect_begin m s with
  | (m1, Throw e) => reconnect_catch m1 s e
  | (m1, Return _) =>
      let '(a2, evs2, _) := closeInstance (adapter m1) s rc in
      let m2 := dispatch now1 (with_adapter a2 m1) evs2 in
      let '(a3, evs3, out) := createInstance (adapter m2) s now2 r in
      let m3 := dispatch now2 (with_adapter a3 m2) evs3 in
      match out with
      | Return cl =>
          let m4 :=
            with_connections
              (alter (fun c => set_lastActivity now2
                                 (set_status Connected (set_client (Some cl) c))) s)
              m3 in
          let attempts := default 0 (c_reconnectAttempts <$> connections m4 !! s) in
          (emit (SessionReconnected s attempts) m4, Return true)
      | Throw e => reconnect_catch m3 s e
      end
  end.

(** *** The methods cut at their [await]s

    [createSession] and [reconnectSession] above run a call to its end:
    nothing else runs while they wait and the clock does not move.  The
    halves below are the same code cut where it waits, for what happens
    in between. *)

(** [createSession], up to [await create(venomOptions)] inside the
    adapter's [createInstance]: the guards, the registration of the
    connection and of the instance.  [Return s] stands for a call that
    is suspended there; a call that throws before has run its [catch]
    blocks. *)
Definition createSession_begin (m : t) (v : Js.value) (now : time) : t * result sid :=
  if negb (isInitialized m) then createSession_catch m v ErrNotInitialized
  else
    match validateSessionId v with
    | Throw e => createSession_catch m v e
    | Return s =>
        if atSessionLimit m then createSession_catch m v ErrSessionLimit
        else
          match connections m !! s with
          | Some _ => createSession_catch m v ErrSessionExists
          | None =>
              let connectionData :=
                {| c_status := Creating; c_createdAt := now; c_lastActivity := now;
                   c_reconnectAttempts := 0; c_client := None; c_qrCode := None |} in
              let m1 := with_connections (insert s connectionData) m in
              let '(a2, evs, out) := createInstance_begin (adapter m1) s now in
              let m2 := dispatch now (with_adapter a2 m1) evs in
              match out with
              | Return _ => (m2, Return s)
              | Throw e => createSession_catch (with_connections (delete s) m2) v e
              end
          end
    end.

(** [createSession], from the outcome [r] of venom-bot's [create] on,
    at the time [now] of that outcome: the rest of the adapter's
    [createInstance], then the assignments to [connectionData], which
    is the entry of the map as long as the session was not removed
    meanwhile. *)
Definition createSession_end (m : t) (s : sid) (now : time) (r : result client)
  : t * result sid :=
  let '(a2, evs, out) := createInstance_end (adapter m) s now r in
  let m2 := dispatch now (with_adapter a2 m) evs in
  match out with
  | Return cl =>
      let m3 :=
        with_connections
          (alter (fun c => set_lastActivity now
                             (set_status Connected (set_client (Some cl) c))) s)
          m2 in
      (emit (SessionCreated s) m3, Return s)
  | Throw e =>
      createSession_catch (with_connections (delete s) m2) (Js.Str s) e
  end.

(** [reconnectSession], up to
    [await new Promise(resolve => setTimeout(resolve, reconnectDelay))]:
    the guard, the counter, the closing of the instance; [rc] is the
    outcome of the old client's [close].  A call that throws has run
    its [catch]. *)
Definition reconnect_until_wait (m : t) (s : sid) (now : time) (rc : result unit)
  : t * result unit :=
  match reconnect_begin m s with
  | (m1, Throw e) => (fst (reconnect_catch m1 s e), Throw e)
  | (m1, Return _) =>
      let '(a2, evs2, _) := closeInstance (adapter m1) s rc in
      (dispatch now (with_adapter a2 m1) evs2, Return tt)
  end.

(** [reconnectSession], from the end of its wait on; [r] is the outcome
    of venom-bot's [create].  The method goes on with the [connection]
    object it read at its start: the entry of the map when the session
    is still there, and otherwise [held], the object as it left the
    map, which no listener reaches any more. *)
Definition reconnect_after_wait (m : t) (s : sid) (held : connection) (now : time)
  (r : result client) : t * result bool :=
  let '(a3, evs3, out) := createInstance (adapter m) s now r in
  let m3 := dispatch now (with_adapter a3 m) evs3 in
  match out with
  | Return cl =>
      let m4 :=
        with_connections
          (alter (fun c => set_lastActivity now
                             (set_status Connected (set_client (Some cl) c))) s)
          m3 in
      let attempts := c_reconnectAttempts (default held (connections m4 !! s)) in
      (emit (SessionReconnected s attempts) m4, Return true)
  | Throw e => reconnect_catch m3 s e
  end.

End ConnectionManager.

(* ===================================================================== *)
(** ** QRCodeHandler                                                      *)
(* ===================================================================== *)

Module QRCodeHandler.

(** [qrData.original] *)
Record original := {
  o_base64 : option Js.jsstring;
  o_ascii : option Js.jsstring;
  o_url : option Js.jsstring
}.

(** [qrData.images].  The buffer is [Buffer.from(base64, 'base64')] and
    is kept as the text it decodes. *)
Record images := {
  dataURL : Js.jsstring;
  base64 : Js.jsstring;
  buffer : Js.jsstring
}.

(** An entry of [this.qrCache]. *)
Record qrRecord := {
  q_attempts : Z;
  q_timestamp : time;
  q_expiresAt : time;
  q_original : original;
  q_images : images;
  q_scanned : bool;
  q_scannedAt : option time
}.

(** What [getQRCode] returns in [data]. *)
Inductive payload :=
| DataText (s : Js.jsstring)
| DataOptText (s : option Js.jsstring)
| DataOriginal (o : original)
| DataAll (i : images) (o : original).

(** The object [getQRCode] returns. *)
Record answer := {
  a_format : Js.jsstring;
  a_data : payload;
  a_attempts : Z;
  a_timestamp : time;
  a_expiresAt : time
}.

Inductive event :=
| QrGenerated (s : sid) (attempts : Z)
| QrError (s : sid) (e : error)
| QrScanned (s : sid)
| QrCleared (s : sid)
| QrCleanup (n : Z).

Record t := {
  qrCache : gmap sid qrRecord;
  isInitialized : bool;
  qrTimeout : Z;
  events : list event;
  log : list log_entry
}.

Definition with_cache (f : gmap sid qrRecord -> gmap sid qrRecord) (h : t) : t :=
  {| qrCache := f (qrCache h); isInitialized := isInitialized h;
     qrTimeout := qrTimeout h; events := events h; log := log h |}.

Definition emit (e : event) (h : t) : t :=
  {| qrCache := qrCache h; isInitialized := isInitialized h;
     qrTimeout := qrTimeout h; events := events h ++ [e]; log := log h |}.

Definition logged (l : log_entry) (h : t) : t :=
  {| qrCache := qrCache h; isInitialized := isInitialized h;
     qrTimeout := qrTimeout h; events := events h; log := log h ++ [l] |}.

(** [dataURL.replace(/^data:image\/png;base64,/, '')] *)
Fixpoint stripPrefix (p s : Js.jsstring) : option Js.jsstring :=
  match p, s with
  | [], _ => Some s
  | b :: p', a :: s' => if (a =? b)%N then stripPrefix p' s' else None
  | _ :: _, [] => None
  end.

Definition png_prefix : Js.jsstring := Js.lit "data:image/png;base64,".

(** [_generateQRImages], from the data URL the [qrcode] library gives. *)
Definition generateQRImages (url : Js.jsstring) : images :=
  let b64 := default url (stripPrefix png_prefix url) in
  {| dataURL := url; base64 := b64; buffer := b64 |}.

(** [processQRCode]; [r] is the outcome of [QRCode.toDataURL]. *)
Definition processQRCode (h : t) (s : sid) (q : VenomBotAdapter.qrData) (now : time)
  (r : result Js.jsstring) : t * result qrRecord :=
  let fail e := (emit (QrError s e) (logged (LogError e) h), Throw e) in
  if negb (isInitialized h) then fail ErrNotInitialized
  else
    match Js.orStr (VenomBotAdapter.qr_url q) (Js.orStr (VenomBotAdapter.qr_base64 q) []) with
    | [] => fail ErrQrDataMissing
    | _ =>
        match r with
        | Throw e => fail e
        | Return url =>
            let processedQR :=
              {| q_attempts := VenomBotAdapter.qr_attempts q;
                 q_timestamp := now;
                 q_expiresAt := now + qrTimeout h;
                 q_original := {| o_base64 := VenomBotAdapter.qr_base64 q;
                                  o_ascii := VenomBotAdapter.qr_ascii q;
                                  o_url := VenomBotAdapter.qr_url q |};
                 q_images := generateQRImages url;
                 q_scanned := false;
                 q_scannedAt := None |} in
            (emit (QrGenerated s (VenomBotAdapter.qr_attempts q))
               (with_cache (insert s processedQR) h),
             Return processedQR)
        end
    end.

(** [format.toLowerCase()], with the default ['dataURL'] of the
    parameter. *)
Definition lowerFormat (format : Js.value) : result Js.jsstring :=
  match format with
  | Js.Undefined => Return (Js.toLowerCase (Js.lit "dataURL"))
  | Js.Str f => Return (Js.toLowerCase f)
  | _ => Throw ErrNotAString
  end.

(** The [switch] of [getQRCode]. *)
Definition select (q : qrRecord) (label : Js.jsstring) : result answer :=
  let mk f d := Return {| a_format := Js.lit f; a_data := d; a_attempts := q_attempts q;
                          a_timestamp := q_timestamp q; a_expiresAt := q_expiresAt q |} in
  if Js.eqb label (Js.lit "dataurl") || Js.eqb label (Js.lit "data-url")
  then mk "dataURL"%string (DataText (dataURL (q_images q)))
  else if Js.eqb label (Js.lit "buffer")
  then mk "buffer"%string (DataText (buffer (q_images q)))
  else if Js.eqb label (Js.lit "base64")
  then mk "base64"%string (DataText (base64 (q_images q)))
  else if Js.eqb label (Js.lit "ascii")
  then mk "ascii"%string (DataOptText (o_ascii (q_original q)))
  else if Js.eqb label (Js.lit "original")
  then mk "original"%string (DataOriginal (q_original q))
  else if Js.eqb label (Js.lit "all")
  then mk "all"%string (DataAll (q_images q) (q_original q))
  else Throw ErrUnsupportedFormat.

(** The [try] block of [getQRCode]; [Return None] is [return null]. *)
Definition getQRCode_try (h : t) (s : sid) (format : Js.value) (now : time)
  : t * result (option answer) :=
  if negb (isInitialized h) then (h, Throw ErrNotInitialized)
  else
    match qrCache h !! s with
    | None => (h, Return None)
    | Some q =>
        if now >? q_expiresAt q
        then (logged (LogWarn None) (with_cache (delete s) h), Return None)
        else
          match lowerFormat format with
          | Throw e => (h, Throw e)
          | Return label =>
              match select q label with
              | Return a => (h, Return (Some a))
              | Throw e => (h, Throw e)
              end
          end
    end.

(** [getQRCode]: whatever the [try] block throws is logged by the
    [catch], which returns [null]. *)
Definition getQRCode (h : t) (s : sid) (format : Js.value) (now : time)
  : t * result (option answer) :=
  match getQRCode_try h s format now with
  | (h1, Return a) => (h1, Return a)
  | (h1, Throw e) => (logged (LogError e) h1, Return None)
  end.

(** [clearQRCode] *)
Definition clearQRCode (h : t) (s : sid) : t * bool :=
  match qrCache h !! s with
  | Some _ => (emit (QrCleared s) (with_cache (delete s) h), true)
  | None => (h, false)
  end.

(** The formats the [switch] has a case for. *)
Definition supported (format : Js.value) : bool :=
  match lowerFormat format with
  | Return label =>
      bool_decide (label ∈ List.map Js.lit
        ["dataurl"; "data-url"; "buffer"; "base64"; "ascii"; "original"; "all"]%string)
  | Throw _ => false
  end.

(** [hasQRCode]: a record that has run out is dropped on the way. *)
Definition hasQRCode (h : t) (s : sid) (now : time) : t * bool :=
  match qrCache h !! s with
  | None => (h, false)
  | Some q =>
      if now >? q_expiresAt q then (with_cache (delete s) h, false) else (h, true)
  end.

(** [qrData.scanned = true; qrData.scannedAt = new Date()]; the field
    [status] goes from ['active'] to ['scanned'] with [scanned]. *)
Definition set_scanned (now : time) (q : qrRecord) : qrRecord :=
  {| q_attempts := q_attempts q; q_timestamp := q_timestamp q;
     q_expiresAt := q_expiresAt q; q_original := q_original q;
     q_images := q_images q; q_scanned := true; q_scannedAt := Some now |}.

(** [markQRScanned] *)
Definition markQRScanned (h : t) (s : sid) (now : time) : t * bool :=
  match qrCache h !! s with
  | None => (h, false)
  | Some _ => (emit (QrScanned s) (with_cache (alter (set_scanned now) s) h), true)
  end.

(** [now > qrData.expiresAt] *)
Definition expired (now : time) (q : qrRecord) : bool := now >? q_expiresAt q.

(** [cleanupExpiredQRs]: the ids of the records that have run out are
    collected first and deleted afterwards. *)
Definition cleanupExpiredQRs (h : t) (now : time) : t * Z :=
  let expiredSessions :=
    (map_to_list (filter (fun kq => expired now (snd kq) = true) (qrCache h))).*1 in
  let h1 := with_cache (fun c => foldr delete c expiredSessions) h in
  let cleaned := Z.of_nat (length expiredSessions) in
  (if cleaned >? 0 then emit (QrCleanup cleaned) h1 else h1, cleaned).

End QRCodeHandler.

(* ===================================================================== *)
(** ** MessageSender                                                      *)
(* ===================================================================== *)

Module MessageSender.

Module CM := ConnectionManager.

(** The values [message.status] is assigned. *)
Inductive msg_status := Queued | Sending | Sent | Failed | InError.

Global Instance msg_status_eq_dec : EqDecision msg_status.
Proof. solve_decision. Defined.

(** [msg_<timestamp>_<random>]: the two parts of a message id. *)
Definition msg_id : Type := time * Z.

(** A message object.  The time stamps that are written and never read
    ([sendingAt], [sentAt], [errorAt], [lastAttemptAt]), [result],
    [scheduledFor], [type] and [metadata] are left out. *)
Record message := {
  id : msg_id;
  sessionId : sid;
  to : Js.jsstring;
  originalTo : Js.jsstring;
  body : Js.jsstring;
  priority : Js.jsstring;
  attempts : Z;
  maxRetries : Z;
  status : msg_status;
  queuedAt : time;
  expiresAt : time;
  delay : Z;
  timeout : Z;
  skipRateLimit : bool;
  lastError : option error
}.

Definition set_status (st : msg_status) (m : message) : message :=
  {| id := id m; sessionId := sessionId m; to := to m; originalTo := originalTo m;
     body := body m; priority := priority m; attempts := attempts m;
     maxRetries := maxRetries m; status := st; queuedAt := queuedAt m;
     expiresAt := expiresAt m; delay := delay m; timeout := timeout m;
     skipRateLimit := skipRateLimit m; lastError := lastError m |}.

(** [message.attempts++; message.status = 'failed'; message.lastError = ...] *)
Definition record_failure (e : error) (m : message) : message :=
  {| id := id m; sessionId := sessionId m; to := to m; originalTo := originalTo m;
     body := body m; priority := priority m; attempts := attempts m + 1;
     maxRetries := maxRetries m; status := Failed; queuedAt := queuedAt m;
     expiresAt := expiresAt m; delay := delay m; timeout := timeout m;
     skipRateLimit := skipRateLimit m; lastError := Some e |}.

(** Message objects live in a store and the queues hold references to
    them: the drain loop keeps the object it took from the head of the
    queue across its [await]s, whatever happens to the array meanwhile. *)
Abbreviation ref := nat.

(** An entry of [this.rateLimiters]. *)
Record limiter := { count : Z; resetAt : time }.

(** Where the [_processQueue] coroutine of a session stands. *)
Inductive pc :=
| Idle                                        (* not running *)
| AwaitSend (r : ref) (settled : option error) (* in [await this._sendQueuedMessage(...)] *)
| AwaitTimer.                                 (* in one of the [await]ed waits *)

(** An entry of [this.processingStatus], with the coroutine's position. *)
Record processing := {
  active : bool;
  paused : bool;
  currentMessage : option ref;
  lastProcessedAt : option time;
  at_pc : pc
}.

Record config := {
  maxMessagesPerMinute : Z;
  messageDelay : Z;
  cfg_maxRetries : Z;
  maxQueueSize : Z;
  sendTimeout : Z;
  queueTimeout : Z
}.

(** The events the sender emits. *)
Inductive event :=
| MessageQueued (i : msg_id) (s : sid) (to : Js.jsstring) (queuePosition : Z)
| MessageError (s t : Js.value) (e : error)
| MessageSent (i : msg_id) (s : sid) (to : Js.jsstring) (attempts : Z)
| MessageSentImmediate (s : sid) (to body : Js.jsstring)
| MessageFailed (i : msg_id) (s : sid) (to : Js.jsstring) (attempts : Z) (e : error)
| SessionPaused (s : sid)
| SessionResumed (s : sid)
| QueueCleared (s : sid) (filter : Js.jsstring) (removed : Z)
| MessagesExpired (totalCleaned : Z).

(** What [_processQueue] and [_sendQueuedMessage] tell the logger. *)
Inductive trace_entry :=
| TExpired (r : ref) (now : time)          (* warn: 'Mensaje ... expirado, saltando' *)
| TRateLimited (now : time)                (* info: 'Rate limit alcanzado ..., esperando' *)
| TSending (r : ref) (now : time)          (* info: 'Enviando mensaje ...' *)
| TSent (r : ref)                          (* info: 'Mensaje ... enviado exitosamente' *)
| TError (r : ref) (e : error)             (* error: 'Error procesando mensaje ...' *)
| TGaveUp (r : ref) (n : Z)                (* error: '... falló definitivamente después de n intentos' *)
| TRetry (r : ref) (n : Z)                 (* info: 'Reintentando mensaje ...' *)
| TCompleted (now : time).                 (* info: 'Procesamiento completado ...' *)

Record t := {
  messageQueues : gmap sid (list ref);
  store : gmap ref message;
  next : ref;
  rateLimiters : gmap sid limiter;
  processingStatus : gmap sid processing;
  isInitialized : bool;
  cfg : config;
  events : list event;
  trace : list trace_entry;
  log : list log_entry
}.

Definition create (c : config) : t :=
  {| messageQueues := ∅; store := ∅; next := 0%nat; rateLimiters := ∅;
     processingStatus := ∅; isInitialized := false; cfg := c;
     events := []; trace := []; log := [] |}.

Definition initialize (st : t) : t :=
  {| messageQueues := messageQueues st; store := store st; next := next st;
     rateLimiters := rateLimiters st; processingStatus := processingStatus st;
     isInitialized := true; cfg := cfg st; events := events st;
     trace := trace st; log := log st |}.

Definition with_queues (f : gmap sid (list ref) -> gmap sid (list ref)) (st : t) : t :=
  {| messageQueues := f (messageQueues st); store := store st; next := next st;
     rateLimiters := rateLimiters st; processingStatus := processingStatus st;
     isInitialized := isInitialized st; cfg := cfg st; events := events st;
     trace := trace st; log := log st |}.

Definition with_store (f : gmap ref message -> gmap ref message) (st : t) : t :=
  {| messageQueues := messageQueues st; store := f (store st); next := next st;
     rateLimiters := rateLimiters st; processingStatus := processingStatus st;
     isInitialized := isInitialized st; cfg := cfg st; events := events st;
     trace := trace st; log := log st |}.

Definition with_limiters (f : gmap sid limiter -> gmap sid limiter) (st : t) : t :=
  {| messageQueues := messageQueues st; store := store st; next := next st;
     rateLimiters := f (rateLimiters st); processingStatus := processingStatus st;
     isInitialized := isInitialized st; cfg := cfg st; events := events st;
     trace := trace st; log := log st |}.

Definition with_processing (f : gmap sid processing -> gmap sid processing) (st : t) : t :=
  {| messageQueues := messageQueues st; store := store st; next := next st;
     rateLimiters := rateLimiters st; processingStatus := f (processingStatus st);
     isInitialized := isInitialized st; cfg := cfg st; events := events st;
     trace := trace st; log := log st |}.

Definition emit (e : event) (st : t) : t :=
  {| messageQueues := messageQueues st; store := store st; next := next st;
     rateLimiters := rateLimiters st; processingStatus := processingStatus st;
     isInitialized := isInitialized st; cfg := cfg st; events := events st ++ [e];
     trace := trace st; log := log st |}.

Definition traced (e : trace_entry) (st : t) : t :=
  {| messageQueues := messageQueues st; store := store st; next := next st;
     rateLimiters := rateLimiters st; processingStatus := processingStatus st;
     isInitialized := isInitialized st; cfg := cfg st; events := events st;
     trace := trace st ++ [e]; log := log st |}.

Definition logged (l : log_entry) (st : t) : t :=
  {| messageQueues := messageQueues st; store := store st; next := next st;
     rateLimiters := rateLimiters st; processingStatus := processingStatus st;
     isInitialized := isInitialized st; cfg := cfg st; events := events st;
     trace := trace st; log := log st ++ [l] |}.

(** Allocation of a message object. *)
Definition alloc (m : message) (st : t) : ref * t :=
  (next st,
   {| messageQueues := messageQueues st; store := <[next st := m]> (store st);
      next := S (next st); rateLimiters := rateLimiters st;
      processingStatus := processingStatus st; isInitialized := isInitialized st;
      cfg := cfg st; events := events st; trace := trace st; log := log st |}).

(** The array of a session; a session without one has no queue. *)
Definition queue (st : t) (s : sid) : list ref := default [] (messageQueues st !! s).

Definition set_queue (s : sid) (q : list ref) (st : t) : t :=
  with_queues (insert s q) st.

(** [queue.shift()], on whatever array the session has. *)
Definition shift (s : sid) (st : t) : t :=
  with_queues (alter (@tail ref) s) st.

(** [_validateInputs] *)
Definition validateInputs (sessionId to message : Js.value)
  : result (sid * Js.jsstring * Js.jsstring) :=
  match sessionId with
  | Js.Str (c :: s) =>
      match to with
      | Js.Str (d :: t) =>
          match message with
          | Js.Str (e :: m) =>
              if Js.jslength (e :: m) >? 4096 then Throw ErrMessageTooLong
              else Return (c :: s, d :: t, e :: m)
          | _ => Throw ErrMessageRequired
          end
      | _ => Throw ErrRecipientRequired
      end
  | _ => Throw ErrSessionIdRequired
  end.

(** [_formatPhoneNumber] *)
Definition formatPhoneNumber (number : Js.jsstring) : Js.jsstring :=
  let cleaned := Js.replace_non_digits number in
  let cleaned :=
    if negb (Js.startsWith cleaned (Js.lit "54")) && (Js.jslength cleaned =? 10)
    then Js.lit "54" ++ cleaned else cleaned in
  let cleaned :=
    if negb (Js.includes cleaned (Js.lit "@c.us"))
    then cleaned ++ Js.lit "@c.us" else cleaned in
  cleaned.

(** [_checkRateLimit]: the window is rolled over here, on the check. *)
Definition checkRateLimit (st : t) (s : sid) (now : time) : t * bool :=
  match rateLimiters st !! s with
  | None => (st, true)
  | Some l =>
      if now >=? resetAt l
      then (with_limiters (insert s {| count := 0; resetAt := now + 60000 |}) st, true)
      else (st, count l <? maxMessagesPerMinute (cfg st))
  end.

(** [_recordSentMessage] *)
Definition recordSentMessage (st : t) (s : sid) (now : time) : t :=
  let l := default {| count := 0; resetAt := now + 60000 |} (rateLimiters st !! s) in
  with_limiters (insert s {| count := count l + 1; resetAt := resetAt l |}) st.

(** [_estimateSendTime] *)
Definition estimateSendTime (st : t) (queuePosition : Z) (now : time) : time :=
  now + queuePosition * messageDelay (cfg st).

Definition fresh_processing : processing :=
  {| active := false; paused := false; currentMessage := None;
     lastProcessedAt := None; at_pc := Idle |}.

Definition set_active (b : bool) (p : processing) : processing :=
  {| active := b; paused := paused p; currentMessage := currentMessage p;
     lastProcessedAt := lastProcessedAt p; at_pc := at_pc p |}.

Definition set_paused (b : bool) (p : processing) : processing :=
  {| active := active p; paused := b; currentMessage := currentMessage p;
     lastProcessedAt := lastProcessedAt p; at_pc := at_pc p |}.

Definition set_current (r : option ref) (p : processing) : processing :=
  {| active := active p; paused := paused p; currentMessage := r;
     lastProcessedAt := lastProcessedAt p; at_pc := at_pc p |}.

Definition set_pc (c : pc) (p : processing) : processing :=
  {| active := active p; paused := paused p; currentMessage := currentMessage p;
     lastProcessedAt := lastProcessedAt p; at_pc := c |}.

(** The end of [_processQueue], after the [while]. *)
Definition finished (now : time) (p : processing) : processing :=
  {| active := false; paused := paused p; currentMessage := None;
     lastProcessedAt := Some now; at_pc := Idle |}.

Definition is_paused (st : t) (s : sid) : bool :=
  match processingStatus st !! s with
  | Some p => paused p
  | None => false
  end.

Definition pc_of (st : t) (s : sid) : pc :=
  match processingStatus st !! s with
  | Some p => at_pc p
  | None => Idle
  end.

Definition await_timer (s : sid) (st : t) : t :=
  with_processing (alter (set_pc AwaitTimer) s) st.

(** Leaving the [while] of [_processQueue]. *)
Definition leave (s : sid) (now : time) (st : t) : t :=
  traced (TCompleted now) (with_processing (alter (finished now) s) st).

(** [_sendQueuedMessage], up to its [await]: the call of
    [connectionManager.sendMessage] runs as far as the venom-bot client;
    when it throws before that, the promise raced against the timeout is
    already rejected. *)
Definition sendQueuedMessage_begin (cm : CM.t) (st : t) (s : sid) (r : ref)
  (m : message) (now : time) : CM.t * t :=
  let st1 := traced (TSending r now) (with_store (alter (set_status Sending) r) st) in
  let '(cm1, out) := CM.sendMessage_begin cm s (to m) (body m) now in
  let settled := match out with Throw e => Some e | Return _ => None end in
  (cm1, with_processing (alter (set_pc (AwaitSend r settled)) s) st1).

(** The [while] of [_processQueue] from its test to the next [await],
    on the array [q] of the session.  Time does not advance within a
    synchronous run.  (A reference in a queue is always allocated.) *)
Fixpoint drain (q : list ref) (cm : CM.t) (st : t) (s : sid) (now : time)
  : CM.t * t :=
  match q with
  | [] => (cm, leave s now st)
  | r :: q' =>
      if is_paused st s then (cm, leave s now st)
      else
        let st0 := with_processing (alter (set_current (Some r)) s) st in
        match store st0 !! r with
        | None => (cm, leave s now st0)
        | Some m =>
            if now >? expiresAt m
            then drain q' cm (shift s (traced (TExpired r now) st0)) s now
            else
              let '(st1, allowed) :=
                if skipRateLimit m then (st0, true) else checkRateLimit st0 s now in
              if negb allowed
              then (cm, await_timer s (traced (TRateLimited now) st1))
              else sendQueuedMessage_begin cm st1 s r m now
        end
  end.

(** [_processQueue], from its start to the first [await]. *)
Definition processQueue (cm : CM.t) (st : t) (s : sid) (now : time) : CM.t * t :=
  match messageQueues st !! s, processingStatus st !! s with
  | Some q, Some p =>
      if paused p then (cm, with_processing (alter (set_active false) s) st)
      else drain q cm st s now
  | _, _ => (cm, with_processing (alter (set_active false) s) st)
  end.

(** [_startProcessing] *)
Definition startProcessing (cm : CM.t) (st : t) (s : sid) (now : time) : CM.t * t :=
  let st1 :=
    match processingStatus st !! s with
    | Some _ => st
    | None => with_processing (insert s fresh_processing) st
    end in
  match processingStatus st1 !! s with
  | Some p =>
      if active p || paused p then (cm, st1)
      else processQueue cm (with_processing (alter (set_active true) s) st1) s now
  | None => (cm, st1)
  end.

(** How the race of [_sendQueuedMessage] is decided: by the answer of
    the transport or by the timer of [message.config.timeout]. *)
Inductive send_answer :=
| Answered (a : result unit)
| TimedOut.

(** [_processQueue] from the end of [await this._sendQueuedMessage(...)]
    to the next [await]. *)
Definition send_done (cm : CM.t) (st : t) (s : sid) (now : time) (ans : send_answer)
  : CM.t * t :=
  match pc_of st s with
  | AwaitSend r settled =>
      match store st !! r with
      | None => (cm, st)
      | Some m =>
          let '(cm1, out) :=
            match settled with
            | Some e => (cm, Throw e)
            | None =>
                match ans with
                | Answered a => CM.sendMessage_end cm s (to m) (body m) now a
                | TimedOut => (cm, Throw ErrTimeout)
                end
            end in
          match out with
          | Return _ =>
              (* the rest of [_sendQueuedMessage] *)
              let st1 := with_store (alter (set_status Sent) r) st in
              let st2 := if skipRateLimit m then st1 else recordSentMessage st1 s now in
              let st3 := emit (MessageSent (id m) (sessionId m) (to m) (attempts m + 1))
                           (traced (TSent r) st2) in
              (* [queue.shift()] and the wait between messages *)
              let st4 := shift s st3 in
              if delay m >? 0 then (cm1, await_timer s st4)
              else drain (queue st4 s) cm1 st4 s now
          | Throw e =>
              (* the [catch] of [_sendQueuedMessage], then the one of [_processQueue] *)
              let st1 := with_store (alter (set_status InError) r) st in
              let st2 := with_store (alter (record_failure e) r) (traced (TError r e) st1) in
              if attempts m + 1 >=? maxRetries m
              then
                let st3 := shift s (traced (TGaveUp r (attempts m + 1)) st2) in
                let st4 := emit (MessageFailed (id m) (sessionId m) (to m)
                                   (attempts m + 1) e) st3 in
                drain (queue st4 s) cm1 st4 s now
              else (cm1, await_timer s (traced (TRetry r (attempts m + 1)) st2))
          end
      end
  | _ => (cm, st)
  end.

(** [_processQueue] from the end of one of its waits on. *)
Definition timer_fired (cm : CM.t) (st : t) (s : sid) (now : time) : CM.t * t :=
  match pc_of st s with
  | AwaitTimer => drain (queue st s) cm st s now
  | _ => (cm, st)
  end.

(** The [options] argument of [sendMessage]. *)
Record options := {
  o_priority : option Js.jsstring;
  o_maxRetries : option Z;
  o_delay : option Z;
  o_timeout : option Z;
  o_skipRateLimit : bool
}.

Definition no_options : options :=
  {| o_priority := None; o_maxRetries := None; o_delay := None;
     o_timeout := None; o_skipRateLimit := false |}.

(** What [sendMessage] returns. *)
Record receipt := {
  messageId : msg_id;
  queuePosition : Z;
  estimatedSendTime : time
}.

Definition high : Js.jsstring := Js.lit "high".

(** The [catch] of [sendMessage]. *)
Definition sendMessage_catch (cm : CM.t) (st : t) (sessionId to : Js.value) (e : error)
  : CM.t * t * result receipt :=
  (cm, emit (MessageError sessionId to e) (logged (LogError e) st), Throw e).

(** [sendMessage]: the whole method is synchronous, the drain loop it
    may start included, up to that loop's first [await]. *)
Definition sendMessage (cm : CM.t) (st : t) (sessionId to message : Js.value)
  (o : options) (now : time) (rnd : Z) : CM.t * t * result receipt :=
  if negb (isInitialized st) then sendMessage_catch cm st sessionId to ErrNotInitialized
  else
    match validateInputs sessionId to message with
    | Throw e => sendMessage_catch cm st sessionId to e
    | Return (s, number, text) =>
        let formattedTo := formatPhoneNumber number in
        let messageObj :=
          {| id := (now, rnd); sessionId := s; to := formattedTo; originalTo := number;
             body := text; priority := Js.orStr (o_priority o) (Js.lit "normal");
             attempts := 0;
             maxRetries := Js.orNum (o_maxRetries o) (cfg_maxRetries (cfg st));
             status := Queued; queuedAt := now;
             expiresAt := now + queueTimeout (cfg st);
             delay := Js.orNum (o_delay o) (messageDelay (cfg st));
             timeout := Js.orNum (o_timeout o) (sendTimeout (cfg st));
             skipRateLimit := o_skipRateLimit o; lastError := None |} in
        if negb (CM.hasSession cm s)
        then sendMessage_catch cm st sessionId to ErrSessionNotFound
        else
          (* [_getOrCreateQueue] *)
          let st1 := set_queue s (queue st s) st in
          if Z.of_nat (length (queue st1 s)) >=? maxQueueSize (cfg st1)
          then sendMessage_catch cm st1 sessionId to ErrQueueFull
          else
            let '(r, st2) := alloc messageObj st1 in
            let st3 :=
              if Js.eqb (priority messageObj) high
              then set_queue s (r :: queue st2 s) st2       (* [queue.unshift] *)
              else set_queue s (queue st2 s ++ [r]) st2 in  (* [queue.push] *)
            let st4 := emit (MessageQueued (id messageObj) s formattedTo
                               (Z.of_nat (length (queue st3 s)))) st3 in
            let '(cm5, st5) :=
              match processingStatus st4 !! s with
              | Some p => if active p then (cm, st4) else startProcessing cm st4 s now
              | None => startProcessing cm st4 s now
              end in
            let position := Z.of_nat (length (queue st5 s)) in
            (cm5, st5,
             Return {| messageId := id messageObj; queuePosition := position;
                       estimatedSendTime := estimateSendTime st5 position now |})
    end.

(** What is in flight between the two halves of [sendImmediateMessage]. *)
Record immediate := {
  im_session : sid;
  im_to : Js.jsstring;
  im_body : Js.jsstring;
  im_skipRateLimit : bool;
  im_settled : option error
}.

(** [sendImmediateMessage], up to
    [await this.connectionManager.sendMessage(...)]. *)
Definition sendImmediateMessage_begin (cm : CM.t) (st : t)
  (sessionId to message : Js.value) (skip : bool) (now : time)
  : CM.t * t * result immediate :=
  if negb (isInitialized st)
  then (cm, logged (LogError ErrNotInitialized) st, Throw ErrNotInitialized)
  else
    match validateInputs sessionId to message with
    | Throw e => (cm, logged (LogError e) st, Throw e)
    | Return (s, number, text) =>
        let formattedTo := formatPhoneNumber number in
        let '(st1, allowed) := if skip then (st, true) else checkRateLimit st s now in
        if negb allowed
        then (cm, logged (LogError ErrRateLimit) st1, Throw ErrRateLimit)
        else
          let '(cm1, out) := CM.sendMessage_begin cm s formattedTo text now in
          (cm1, st1,
           Return {| im_session := s; im_to := formattedTo; im_body := text;
                     im_skipRateLimit := skip;
                     im_settled := match out with Throw e => Some e | Return _ => None end |})
    end.

(** [sendImmediateMessage], from the answer [a] of the transport on. *)
Definition sendImmediateMessage_end (cm : CM.t) (st : t) (i : immediate)
  (now : time) (a : result unit) : CM.t * t * result unit :=
  let '(cm1, out) :=
    match im_settled i with
    | Some e => (cm, Throw e)
    | None => CM.sendMessage_end cm (im_session i) (im_to i) (im_body i) now a
    end in
  match out with
  | Return _ =>
      let st1 := if im_skipRateLimit i then st else recordSentMessage st (im_session i) now in
      (cm1, emit (MessageSentImmediate (im_session i) (im_to i) (im_body i)) st1, Return tt)
  | Throw e => (cm1, logged (LogError e) st, Throw e)
  end.

(** [sendImmediateMessage] awaited by its caller before anything else
    runs. *)
Definition sendImmediateMessage (cm : CM.t) (st : t)
  (sessionId to message : Js.value) (skip : bool) (now : time) (a : result unit)
  : CM.t * t * result unit :=
  match sendImmediateMessage_begin cm st sessionId to message skip now with
  | (cm1, st1, Throw e) => (cm1, st1, Throw e)
  | (cm1, st1, Return i) => sendImmediateMessage_end cm1 st1 i now a
  end.

(** [pauseSession] *)
Definition pauseSession (st : t) (s : sid) : t * bool :=
  match processingStatus st !! s with
  | None => (st, false)
  | Some _ =>
      (emit (SessionPaused s) (with_processing (alter (set_paused true) s) st), true)
  end.

(** [resumeSession] *)
Definition resumeSession (cm : CM.t) (st : t) (s : sid) (now : time) : CM.t * t * bool :=
  match processingStatus st !! s with
  | None => (cm, st, false)
  | Some p =>
      let st1 := with_processing (alter (set_paused false) s) st in
      let '(cm2, st2) := if active p then (cm, st1) else startProcessing cm st1 s now in
      (cm2, emit (SessionResumed s) st2, true)
  end.

Definition has_status (st : t) (x : msg_status) (r : ref) : bool :=
  match store st !! r with
  | Some m => bool_decide (status m = x)
  | None => false
  end.

(** [clearQueue] *)
Definition clearQueue (st : t) (s : sid) (filter : Js.jsstring) : t * result Z :=
  match messageQueues st !! s with
  | None => (st, Return 0)
  | Some q =>
      let keep :=
        if Js.eqb filter (Js.lit "all") then Some []
        else if Js.eqb filter (Js.lit "failed")
        then Some (List.filter (fun r => negb (has_status st Failed r)) q)
        else if Js.eqb filter (Js.lit "pending")
        then Some (List.filter (fun r => negb (has_status st Queued r)) q)
        else None in
      match keep with
      | None => (logged (LogError ErrInvalidFilter) st, Throw ErrInvalidFilter)
      | Some q' =>
          let removed := Z.of_nat (length q) - Z.of_nat (length q') in
          (emit (QueueCleared s filter removed) (set_queue s q' st), Return removed)
      end
  end.

Definition not_expired (st : t) (now : time) (r : ref) : bool :=
  match store st !! r with
  | Some m => now <=? expiresAt m
  | None => false
  end.

(** [_cleanupExpiredMessages], the five-minute sweep. *)
Definition cleanupExpiredMessages (st : t) (now : time) : t :=
  let kept := List.filter (not_expired st now) <$> messageQueues st in
  let total (m : gmap sid (list ref)) :=
    map_fold (fun _ q acc => acc + Z.of_nat (length q)) 0 m in
  let totalCleaned := total (messageQueues st) - total kept in
  let st1 := with_queues (fun _ => kept) st in
  if totalCleaned >? 0 then emit (MessagesExpired totalCleaned) st1 else st1.

End MessageSender.

(* ===================================================================== *)
(** ** SessionStore                                                       *)
(* ===================================================================== *)

Module SessionStore.

(** The counters of [sessionData.stats]. *)
Record stats := {
  totalMessages : Z;
  totalMessagesSent : Z;
  totalMessagesReceived : Z
}.

(** An entry of [this.sessionsCache]; [metadata] and [paths] are left
    out. *)
Record sessionData := {
  sd_createdAt : time;
  sd_lastUsed : time;
  sd_status : Js.jsstring;
  sd_stats : stats
}.

Inductive event :=
| SessionCreated (s : sid)
| SessionUpdated (s : sid).

Record t := {
  sessionsCache : gmap sid sessionData;
  isInitialized : bool;
  events : list event;
  log : list log_entry
}.

Definition with_cache (f : gmap sid sessionData -> gmap sid sessionData) (x : t) : t :=
  {| sessionsCache := f (sessionsCache x); isInitialized := isInitialized x;
     events := events x; log := log x |}.

Definition emit (e : event) (x : t) : t :=
  {| sessionsCache := sessionsCache x; isInitialized := isInitialized x;
     events := events x ++ [e]; log := log x |}.

Definition logged (l : log_entry) (x : t) : t :=
  {| sessionsCache := sessionsCache x; isInitialized := isInitialized x;
     events := events x; log := log x ++ [l] |}.

(** [_validateSessionId]: no bound on the length here. *)
Definition validateSessionId (v : Js.value) : result sid :=
  match v with
  | Js.Str s =>
      if negb (Js.truthy v) || Js.eqb (Js.trim s) []
      then Throw ErrIdNotNonEmptyString
      else if negb (Js.test_id_regex s) then Throw ErrIdBadChars
      else Return s
  | _ => Throw ErrIdNotNonEmptyString
  end.

(** [createSession]; [io1] is the outcome of creating the directory and
    [io2] the one of writing the metadata file. *)
Definition createSession (x : t) (v : Js.value) (now : time) (io1 io2 : result unit)
  : t * result sid :=
  let fail e x' := (logged (LogError e) x', Throw e) in
  if negb (isInitialized x) then fail ErrNotInitialized x
  else
    match validateSessionId v with
    | Throw e => fail e x
    | Return s =>
        match sessionsCache x !! s with
        | Some _ => fail ErrSessionExists x
        | None =>
            match io1 with
            | Throw e => fail e x
            | Return _ =>
                let d := {| sd_createdAt := now; sd_lastUsed := now;
                            sd_status := Js.lit "created";
                            sd_stats := {| totalMessages := 0; totalMessagesSent := 0;
                                           totalMessagesReceived := 0 |} |} in
                let x1 := with_cache (insert s d) x in
                match io2 with
                | Throw e => fail e x1
                | Return _ => (emit (SessionCreated s) x1, Return s)
                end
            end
        end
    end.

(** [updateSession(sessionId, { status })]; [io] is the outcome of
    writing the metadata file. *)
Definition updateSession (x : t) (s : sid) (st : Js.jsstring) (now : time)
  (io : result unit) : t * result unit :=
  let fail e x' := (logged (LogError e) x', Throw e) in
  if negb (isInitialized x) then fail ErrNotInitialized x
  else
    match sessionsCache x !! s with
    | None => fail ErrSessionNotFound x
    | Some _ =>
        let set d := {| sd_createdAt := sd_createdAt d; sd_lastUsed := now;
                        sd_status := Js.orStr (Some st) (sd_status d);
                        sd_stats := sd_stats d |} in
        let x1 := with_cache (alter set s) x in
        match io with
        | Throw e => fail e x1
        | Return _ => (emit (SessionUpdated s) x1, Return tt)
        end
    end.

(** [hasSession] *)
Definition hasSession (x : t) (s : sid) : result bool :=
  if negb (isInitialized x) then Throw ErrNotInitialized
  else Return (bool_decide (is_Some (sessionsCache x !! s))).

(** The events of [deleteSession] and [recordActivity]; they are given
    with the result of the call. *)
Inductive notice :=
| SessionDeleted (s : sid) (deleteFiles : bool)
| ActivityRecorded (s : sid) (activityType : Js.jsstring).

(** [deleteSession]; [io] is the outcome of removing the directory and
    the metadata file of the session, which is asked for only with
    [deleteFiles] and whose failure is logged as a warning. *)
Definition deleteSession (x : t) (s : sid) (deleteFiles : bool) (io : result unit)
  : t * list notice * result bool :=
  if negb (isInitialized x)
  then (logged (LogError ErrNotInitialized) x, [], Throw ErrNotInitialized)
  else
    match sessionsCache x !! s with
    | None => (logged (LogWarn None) x, [], Return false)
    | Some _ =>
        let x1 := with_cache (delete s) x in
        let x2 :=
          if deleteFiles
          then match io with
               | Throw e => logged (LogWarn (Some e)) x1
               | Return _ => x1
               end
          else x1 in
        (x2, [SessionDeleted s deleteFiles], Return true)
    end.

Definition set_stats (st : stats) (d : sessionData) : sessionData :=
  {| sd_createdAt := sd_createdAt d; sd_lastUsed := sd_lastUsed d;
     sd_status := sd_status d; sd_stats := st |}.

Definition set_status (st : Js.jsstring) (d : sessionData) : sessionData :=
  {| sd_createdAt := sd_createdAt d; sd_lastUsed := sd_lastUsed d;
     sd_status := st; sd_stats := sd_stats d |}.

Definition set_lastUsed (now : time) (d : sessionData) : sessionData :=
  {| sd_createdAt := sd_createdAt d; sd_lastUsed := now;
     sd_status := sd_status d; sd_stats := sd_stats d |}.

(** The [switch] of [recordActivity].  The fields [lastMessageAt],
    [connectionAttempts] and [successfulConnections] of the statistics,
    which are written here and read by no method, are not part of
    [stats]. *)
Definition applyActivity (activityType : Js.jsstring) (d : sessionData) : sessionData :=
  let st := sd_stats d in
  if Js.eqb activityType (Js.lit "message_sent")
  then set_stats {| totalMessages := totalMessages st + 1;
                    totalMessagesSent := totalMessagesSent st + 1;
                    totalMessagesReceived := totalMessagesReceived st |} d
  else if Js.eqb activityType (Js.lit "message_received")
  then set_stats {| totalMessages := totalMessages st + 1;
                    totalMessagesSent := totalMessagesSent st;
                    totalMessagesReceived := totalMessagesReceived st + 1 |} d
  else if Js.eqb activityType (Js.lit "connection_attempt") then d
  else if Js.eqb activityType (Js.lit "connection_success")
  then set_status (Js.lit "connected") d
  else if Js.eqb activityType (Js.lit "disconnection")
  then set_status (Js.lit "disconnected") d
  else if Js.eqb activityType (Js.lit "error")
  then set_status (Js.lit "error") d
  else d.

(** [recordActivity]; [io] is the outcome of writing the metadata file,
    when it is written.  Whatever is thrown is caught and logged. *)
Definition recordActivity (x : t) (s : sid) (activityType : Js.jsstring) (now : time)
  (io : result unit) : t * list notice :=
  match sessionsCache x !! s with
  | None => (logged (LogWarn None) x, [])
  | Some _ =>
      let x1 := with_cache (alter (fun d => applyActivity activityType (set_lastUsed now d)) s)
                  x in
      let total := default 0 (totalMessages <$> (sd_stats <$> sessionsCache x1 !! s)) in
      if (Z.rem total 10 =? 0) || Js.includes activityType (Js.lit "connection")
      then match io with
           | Throw e => (logged (LogError e) x1, [])
           | Return _ => (x1, [ActivityRecorded s activityType])
           end
      else (x1, [ActivityRecorded s activityType])
  end.

End SessionStore.

(* ===================================================================== *)
(** ** MessageListener (the per-session bookkeeping)                      *)
(* ===================================================================== *)

Module MessageListener.

(** An entry of [this.activeListeners]. *)
Record listenerData := {
  startedAt : time;
  messagesReceived : Z;
  responsesGenerated : Z;
  errors : Z
}.

Inductive event :=
| ListeningStarted (s : sid)
| ListeningStopped (s : sid).

Record t := {
  activeListeners : gmap sid listenerData;
  isInitialized : bool;
  events : list event;
  log : list log_entry
}.

Definition with_listeners (f : gmap sid listenerData -> gmap sid listenerData) (l : t) : t :=
  {| activeListeners := f (activeListeners l); isInitialized := isInitialized l;
     events := events l; log := log l |}.

Definition emit (e : event) (l : t) : t :=
  {| activeListeners := activeListeners l; isInitialized := isInitialized l;
     events := events l ++ [e]; log := log l |}.

Definition logged (e : log_entry) (l : t) : t :=
  {| activeListeners := activeListeners l; isInitialized := isInitialized l;
     events := events l; log := log l ++ [e] |}.

(** [startListening]: every failure is caught and turned into [false]. *)
Definition startListening (l : t) (cm : ConnectionManager.t) (s : sid) (now : time)
  : t * bool :=
  if negb (isInitialized l) then (logged (LogError ErrNotInitialized) l, false)
  else
    match activeListeners l !! s with
    | Some _ => (logged (LogWarn None) l, false)
    | None =>
        if negb (ConnectionManager.hasSession cm s)
        then (logged (LogError ErrSessionNotFound) l, false)
        else
          let d := {| startedAt := now; messagesReceived := 0;
                      responsesGenerated := 0; errors := 0 |} in
          (emit (ListeningStarted s) (with_listeners (insert s d) l), true)
    end.

(** [stopListening] *)
Definition stopListening (l : t) (s : sid) : t * bool :=
  match activeListeners l !! s with
  | None => (logged (LogWarn None) l, false)
  | Some _ => (emit (ListeningStopped s) (with_listeners (delete s) l), true)
  end.

(** [_extractPhoneNumber] *)
Definition extractPhoneNumber (fromJid : Js.jsstring) : Js.jsstring :=
  let cleaned := Js.remove_first (Js.remove_first fromJid (Js.lit "@c.us")) (Js.lit "@g.us") in
  if (Js.jslength cleaned =? 10) && negb (Js.startsWith cleaned (Js.lit "54"))
  then Js.lit "54" ++ cleaned
  else cleaned.

(** An entry of [this.usersCache]; [A] is the type of a row of
    [ll_usuarios_wa]. *)
Record cachedUser (A : Type) := { cu_data : A; cu_cachedAt : time }.

Arguments cu_data {A} _.
Arguments cu_cachedAt {A} _.

(** [this.usersCache].  A [Map] is iterated in the order in which its
    keys were inserted: the entries are kept in that order. *)
Definition usersCache (A : Type) : Type := list (Js.jsstring * cachedUser A).

(** [map.get(key)] *)
Fixpoint cache_get {A} (c : usersCache A) (key : Js.jsstring) : option (cachedUser A) :=
  match c with
  | [] => None
  | (k, v) :: c' => if Js.eqb k key then Some v else cache_get c' key
  end.

(** [map.set(key, v)]: a key the map has keeps its place. *)
Fixpoint cache_set {A} (c : usersCache A) (key : Js.jsstring) (v : cachedUser A)
  : usersCache A :=
  match c with
  | [] => [(key, v)]
  | (k, w) :: c' => if Js.eqb k key then (k, v) :: c' else (k, w) :: cache_set c' key v
  end.

(** [map.delete(key)] *)
Fixpoint cache_delete {A} (c : usersCache A) (key : Js.jsstring) : usersCache A :=
  match c with
  | [] => []
  | (k, w) :: c' => if Js.eqb k key then c' else (k, w) :: cache_delete c' key
  end.

(** [_cacheUser]: with an empty map [keys().next().value] is
    [undefined], and deleting it does nothing. *)
Definition cacheUser {A} (maxCacheSize : Z) (c : usersCache A) (key : Js.jsstring)
  (userData : A) (now : time) : usersCache A :=
  let c1 :=
    if Z.of_nat (length c) >=? maxCacheSize
    then match c with
         | [] => []
         | (firstKey, _) :: _ => cache_delete c firstKey
         end
    else c in
  cache_set c1 key {| cu_data := userData; cu_cachedAt := now |}.

End MessageListener.

(* ===================================================================== *)
(** ** WhatsAppService, the facade                                        *)
(* ===================================================================== *)

Module WhatsAppService.

Inductive event :=
| SessionCreated (s : Js.value)
| SessionClosed (s : sid).

Record t := {
  connectionManager : ConnectionManager.t;
  sessionStore : SessionStore.t;
  qrHandler : QRCodeHandler.t;
  messageSender : MessageSender.t;
  messageListener : MessageListener.t;
  isInitialized : bool;
  isRunning : bool;
  autoStartListening : bool;
  totalSessionsCreated : Z;
  totalErrors : Z;
  events : list event;
  log : list log_entry
}.

(** The [catch] of the session methods: log, count when asked to, throw. *)
Definition failed {A} (count : bool) (e : error) (w : t) : t * result A :=
  ({| connectionManager := connectionManager w; sessionStore := sessionStore w;
      qrHandler := qrHandler w; messageSender := messageSender w;
      messageListener := messageListener w; isInitialized := isInitialized w;
      isRunning := isRunning w; autoStartListening := autoStartListening w;
      totalSessionsCreated := totalSessionsCreated w;
      totalErrors := if count then totalErrors w + 1 else totalErrors w;
      events := events w; log := log w ++ [LogError e] |}, Throw e).

Definition with_modules (cm : ConnectionManager.t) (ss : SessionStore.t)
  (qr : QRCodeHandler.t) (ms : MessageSender.t) (ml : MessageListener.t) (w : t) : t :=
  {| connectionManager := cm; sessionStore := ss; qrHandler := qr;
     messageSender := ms; messageListener := ml; isInitialized := isInitialized w;
     isRunning := isRunning w; autoStartListening := autoStartListening w;
     totalSessionsCreated := totalSessionsCreated w; totalErrors := totalErrors w;
     events := events w; log := log w |}.

Definition emit (e : event) (created : bool) (w : t) : t :=
  {| connectionManager := connectionManager w; sessionStore := sessionStore w;
     qrHandler := qrHandler w; messageSender := messageSender w;
     messageListener := messageListener w; isInitialized := isInitialized w;
     isRunning := isRunning w; autoStartListening := autoStartListening w;
     totalSessionsCreated :=
       if created then totalSessionsCreated w + 1 else totalSessionsCreated w;
     totalErrors := totalErrors w; events := events w ++ [e]; log := log w |}.

(** The service after [initialize()] and [start()], with a session
    store that found no session on disk. *)
Definition started (c : ConnectionManager.config) (sc : MessageSender.config)
  (qrTimeout : Z) (auto : bool) : t :=
  {| connectionManager := fst (ConnectionManager.initialize (ConnectionManager.create c));
     sessionStore := {| SessionStore.sessionsCache := ∅; SessionStore.isInitialized := true;
                        SessionStore.events := []; SessionStore.log := [] |};
     qrHandler := {| QRCodeHandler.qrCache := ∅; QRCodeHandler.isInitialized := true;
                     QRCodeHandler.qrTimeout := qrTimeout; QRCodeHandler.events := [];
                     QRCodeHandler.log := [] |};
     messageSender := MessageSender.initialize (MessageSender.create sc);
     messageListener := {| MessageListener.activeListeners := ∅;
                           MessageListener.isInitialized := true;
                           MessageListener.events := []; MessageListener.log := [] |};
     isInitialized := true; isRunning := true; autoStartListening := auto;
     totalSessionsCreated := 0; totalErrors := 0; events := []; log := [] |}.

(** [createSession]; [io1], [io2] are the outcomes of the two writes of
    the session store, [r] the one of venom-bot's [create]. *)
Definition createSession (w : t) (v : Js.value) (now : time)
  (io1 io2 : result unit) (r : result VenomBotAdapter.client) : t * result sid :=
  if negb (isInitialized w) then failed true ErrNotInitialized w
  else if negb (isRunning w) then failed true ErrNotRunning w
  else
    let '(ss1, o1) := SessionStore.createSession (sessionStore w) v now io1 io2 in
    let w1 := with_modules (connectionManager w) ss1 (qrHandler w) (messageSender w)
                (messageListener w) w in
    match o1 with
    | Throw e => failed true e w1
    | Return _ =>
        let '(cm2, o2) := ConnectionManager.createSession (connectionManager w1) v now r in
        let w2 := with_modules cm2 ss1 (qrHandler w1) (messageSender w1)
                    (messageListener w1) w1 in
        match o2 with
        | Throw e => failed true e w2
        | Return s =>
            let ml3 :=
              if autoStartListening w2
              then fst (MessageListener.startListening (messageListener w2) cm2 s now)
              else messageListener w2 in
            (emit (SessionCreated v) true
               (with_modules cm2 ss1 (qrHandler w2) (messageSender w2) ml3 w2),
             Return s)
        end
    end.

(** [closeSession]; [rc] is the outcome of the venom-bot client's
    [close], [io] the one of the session store's write.  The manager's
    [sessionClosed] event reaches the listener MessageListener
    registered, which calls [stopListening] once more. *)
Definition closeSession (w : t) (s : sid) (now : time) (rc io : result unit)
  : t * result bool :=
  if negb (isInitialized w) then failed false ErrNotInitialized w
  else
    let '(ml1, _) := MessageListener.stopListening (messageListener w) s in
    let '(ms1, _) := MessageSender.clearQueue (messageSender w) s (Js.lit "all") in
    let '(qr1, _) := QRCodeHandler.clearQRCode (qrHandler w) s in
    let '(cm1, o1) := ConnectionManager.closeSession (connectionManager w) s now rc in
    let ml2 :=
      match o1 with
      | Return true => fst (MessageListener.stopListening ml1 s)
      | _ => ml1
      end in
    let w1 := with_modules cm1 (sessionStore w) qr1 ms1 ml2 w in
    match o1 with
    | Throw e => failed false e w1
    | Return _ =>
        let '(ss2, o2) :=
          SessionStore.updateSession (sessionStore w1) s (Js.lit "closed") now io in
        let w2 := with_modules cm1 ss2 qr1 ms1 ml2 w1 in
        match o2 with
        | Throw e => failed false e w2
        | Return _ => (emit (SessionClosed s) false w2, Return true)
        end
    end.

End WhatsAppService.

(* ===================================================================== *)
(** ** The validation middleware of the HTTP routes                       *)
(* ===================================================================== *)

Module Validation.

(** The answers with status 400, by their field [error]. *)
Inductive rejection :=
| MissingSessionId              (* 'Missing sessionId' *)
| InvalidSessionIdFormat        (* 'Invalid sessionId format' *)
| InvalidSessionIdCharacters    (* 'Invalid sessionId characters' *)
| MissingPhoneNumber            (* 'Missing phone number' *)
| InvalidPhoneNumberType        (* 'Invalid phone number type' *)
| InvalidPhoneNumberLength      (* 'Invalid phone number length' *)
| MissingMessage                (* 'Missing message' *)
| InvalidMessageType            (* 'Invalid message type' *)
| EmptyMessage                  (* 'Empty message' *)
| MessageTooLong.               (* 'Message too long' *)

(** A middleware calls [next()], after it has rewritten the request or
    not, or it answers with status 400. *)
Inductive outcome (A : Type) :=
| Next (a : A)
| Status400 (r : rejection).

Arguments Next {A} a.
Arguments Status400 {A} r.

(** [validateSessionId], on [req.params.sessionId] and
    [req.body.sessionId]. *)
Definition validateSessionId (params body : Js.value) : outcome unit :=
  let sessionId := Js.orVal params body in
  if negb (Js.truthy sessionId) then Status400 MissingSessionId
  else
    match sessionId with
    | Js.Str s =>
        if (Js.jslength s <? 3) || (Js.jslength s >? 50)
        then Status400 InvalidSessionIdFormat
        else if negb (Js.test_id_regex s) then Status400 InvalidSessionIdCharacters
        else Next tt
    | _ => Status400 InvalidSessionIdFormat
    end.

(** [validatePhoneNumber], on [req.body.to]; [Next t] stands for
    [req.body.to = t; next()]. *)
Definition validatePhoneNumber (to : Js.value) : outcome Js.jsstring :=
  if negb (Js.truthy to) then Status400 MissingPhoneNumber
  else
    match to with
    | Js.Str t =>
        let cleanNumber := Js.replace_non_digits t in
        if (Js.jslength cleanNumber <? 8) || (Js.jslength cleanNumber >? 15)
        then Status400 InvalidPhoneNumberLength
        else Next (cleanNumber ++ Js.lit "@c.us")
    | _ => Status400 InvalidPhoneNumberType
    end.

(** [validateMessage], on [req.body.message]. *)
Definition validateMessage (message : Js.value) : outcome unit :=
  if negb (Js.truthy message) then Status400 MissingMessage
  else
    match message with
    | Js.Str m =>
        if Js.jslength (Js.trim m) =? 0 then Status400 EmptyMessage
        else if Js.jslength m >? 4096 then Status400 MessageTooLong
        else Next tt
    | _ => Status400 InvalidMessageType
    end.

End Validation.

(* ===================================================================== *)
(** ** The system as a transition system                                  *)
(* ===================================================================== *)

(** Between two [await]s nothing else runs; at an [await] anything may.
    An [action] is one such uninterrupted run: a call from outside, a
    callback of venom-bot, or the resumption of a suspended coroutine. *)
Module System.

Module CM := ConnectionManager.
Module MS := MessageSender.

(** What happens to the connection manager and its adapter. *)
Inductive mgr_action :=
| CreateSession (v : Js.value) (r : result VenomBotAdapter.client)
| CloseSession (s : sid) (rc : result unit)
| ReconnectSession (s : sid) (later : time) (rc : result unit)
    (r : result VenomBotAdapter.client)
| CatchQR (s : sid) (q : VenomBotAdapter.qrData)
| StatusFound (s : sid) (st : Js.jsstring)
| StateChanged (s : sid) (st : Js.jsstring)
| Inbound (s : sid).

(** One step of the manager: a call of one of its methods, run to its
    end, or a callback of venom-bot. *)
Definition mgr_step (now : time) (a : mgr_action) (m : CM.t) : CM.t :=
  match a with
  | CreateSession v r => fst (CM.createSession m v now r)
  | CloseSession s rc => fst (CM.closeSession m s now rc)
  | ReconnectSession s later rc r => fst (CM.reconnectSession m s now later rc r)
  | CatchQR s q =>
      let '(a', evs) := VenomBotAdapter.handleQRCode (CM.adapter m) s q in
      CM.dispatch now (CM.with_adapter a' m) evs
  | StatusFound s st =>
      let '(a', evs) := VenomBotAdapter.handleStatusFind (CM.adapter m) s st now in
      CM.dispatch now (CM.with_adapter a' m) evs
  | StateChanged s st =>
      let '(a', evs) := VenomBotAdapter.handleStateChange (CM.adapter m) s st now in
      CM.dispatch now (CM.with_adapter a' m) evs
  | Inbound s =>
      let '(a', evs) := VenomBotAdapter.handleMessage (CM.adapter m) s in
      CM.dispatch now (CM.with_adapter a' m) evs
  end.

Definition mgr_run (l : list (time * mgr_action)) (m : CM.t) : CM.t :=
  fold_left (fun m x => mgr_step (fst x) (snd x) m) l m.

(** The connection manager together with the message sender that holds
    a reference to it. *)
Definition world : Type := CM.t * MS.t.

Inductive action :=
| Mgr (a : mgr_action)
| Enqueue (sessionId to message : Js.value) (o : MS.options) (rnd : Z)
| Immediate (sessionId to message : Js.value) (skip : bool) (a : result unit)
| SendAnswered (s : sid) (ans : MS.send_answer)
| TimerFired (s : sid)
| Pause (s : sid)
| Resume (s : sid)
| Clear (s : sid) (filter : Js.jsstring)
| Sweep.

Definition step (now : time) (a : action) (w : world) : world :=
  let '(cm, st) := w in
  match a with
  | Mgr a => (mgr_step now a cm, st)
  | Enqueue sessionId to message o rnd =>
      fst (MS.sendMessage cm st sessionId to message o now rnd)
  | Immediate sessionId to message skip a =>
      fst (MS.sendImmediateMessage cm st sessionId to message skip now a)
  | SendAnswered s ans => MS.send_done cm st s now ans
  | TimerFired s => MS.timer_fired cm st s now
  | Pause s => (cm, fst (MS.pauseSession st s))
  | Resume s => fst (MS.resumeSession cm st s now)
  | Clear s filter => (cm, fst (MS.clearQueue st s filter))
  | Sweep => (cm, MS.cleanupExpiredMessages st now)
  end.

Definition run (l : list (time * action)) (w : world) : world :=
  fold_left (fun w x => step (fst x) (snd x) w) l w.

(** The two components as their constructors and [initialize] leave
    them. *)
Definition boot (c : CM.config) (sc : MS.config) : world :=
  (fst (CM.initialize (CM.create c)), MS.initialize (MS.create sc)).

(** Immediate sends at the given times, each one awaited, and answered
    by the transport, before the next one starts. *)
Fixpoint immediate_burst (cm : CM.t) (st : MS.t) (sessionId to message : Js.value)
  (times : list time) : CM.t * MS.t * list (result unit) :=
  match times with
  | [] => (cm, st, [])
  | t :: ts =>
      let '(cm1, st1, r) :=
        MS.sendImmediateMessage cm st sessionId to message false t (Return tt) in
      let '(cm2, st2, rs) := immediate_burst cm1 st1 sessionId to message ts in
      (cm2, st2, r :: rs)
  end.



(** The addresses given to the venom-bot client's [sendText]. *)
Definition sent_to (m : CM.t) : list Js.jsstring :=
  omap (fun w => match w with
                 | VenomBotAdapter.WSendText _ a _ => Some a
                 | _ => None
                 end) (VenomBotAdapter.wire (CM.adapter m)).

(** The message objects the drain loops handed to [_sendQueuedMessage],
    in order. *)
Definition dispatched (st : MS.t) : list MS.ref :=
  omap (fun e => match e with MS.TSending r _ => Some r | _ => None end) (MS.trace st).

(** The ids of the [messageFailed] notifications, in order. *)
Definition failure_notices (st : MS.t) : list MS.msg_id :=
  omap (fun e => match e with MS.MessageFailed i _ _ _ _ => Some i | _ => None end)
    (MS.events st).

(** The callbacks of venom-bot, which run whenever the program is at an
    [await]. *)
Definition is_callback (a : mgr_action) : bool :=
  match a with
  | CatchQR _ _ | StatusFound _ _ | StateChanged _ _ | Inbound _ => true
  | _ => false
  end.


(** Immediate sends that overlap: the calls are made at the given
    times, none of them awaited ... *)
Fixpoint immediate_begin_all (cm : CM.t) (st : MS.t) (sessionId to message : Js.value)
  (times : list time) : CM.t * MS.t * list (result MS.immediate) :=
  match times with
  | [] => (cm, st, [])
  | t :: ts =>
      let '(cm1, st1, i) :=
        MS.sendImmediateMessage_begin cm st sessionId to message false t in
      let '(cm2, st2, rest) := immediate_begin_all cm1 st1 sessionId to message ts in
      (cm2, st2, i :: rest)
  end.

(** ... and the transport then answers them, in the order of the calls,
    at the given times; a call that threw before it reached the
    transport keeps its error. *)
Fixpoint immediate_end_all (cm : CM.t) (st : MS.t) (pending : list (result MS.immediate))
  (answers : list (time * result unit)) : CM.t * MS.t * list (result unit) :=
  match pending with
  | [] => (cm, st, [])
  | Throw e :: ps =>
      let '(cm2, st2, rs) := immediate_end_all cm st ps answers in
      (cm2, st2, Throw e :: rs)
  | Return i :: ps =>
      match answers with
      | [] => (cm, st, [])
      | (t, a) :: answers' =>
          let '(cm1, st1, r) := MS.sendImmediateMessage_end cm st i t a in
          let '(cm2, st2, rs) := immediate_end_all cm1 st1 ps answers' in
          (cm2, st2, r :: rs)
      end
  end.

End System.

(* ===================================================================== *)
(** ** The words of the design document                                   *)
(* ===================================================================== *)

Module Spec.

(** The pattern [[A-Za-z0-9_-]{lo,hi}]. *)
Definition id_pattern (lo hi : Z) (s : Js.jsstring) : bool :=
  (lo <=? Js.jslength s) && (Js.jslength s <=? hi) && List.forallb Js.isIdChar s.

(** A session id "matches the pattern" when it is a string that does. *)
Definition matches (lo hi : Z) (v : Js.value) : bool :=
  match v with
  | Js.Str s => id_pattern lo hi s
  | _ => false
  end.

(** The normalized address: the digits of the recipient, with 54 in
    front when there are exactly ten of them and they do not start with
    54, followed by "@c.us". *)
Definition normalized (recipient : Js.jsstring) : Js.jsstring :=
  let digits := List.filter Js.isDigit recipient in
  (if (Js.jslength digits =? 10) && negb (Js.startsWith digits (Js.lit "54"))
   then Js.lit "54" ++ digits else digits) ++ Js.lit "@c.us".

(** The reconnection counter of every session is within [0, max]. *)
Definition bounded (max : Z) (cs : gmap sid ConnectionManager.connection) : Prop :=
  map_Forall (fun _ c => 0 <= ConnectionManager.c_reconnectAttempts c <= max) cs.

(** The session is connected, in the manager and in the adapter, which
    holds a client for it. *)
Definition ready (cm : ConnectionManager.t) (s : sid) : Prop :=
  (exists c, ConnectionManager.connections cm !! s = Some c /\
             ConnectionManager.c_status c = ConnectionManager.Connected) /\
  (exists i cl, VenomBotAdapter.instances (ConnectionManager.adapter cm) !! s = Some i /\
                VenomBotAdapter.i_client i = Some cl /\
                VenomBotAdapter.i_status i = VenomBotAdapter.connected_str).

(** References not yet given out are not in the store. *)
Definition fresh (st : MessageSender.t) : Prop :=
  forall r, (MessageSender.next st <= r)%nat -> MessageSender.store st !! r = None.

(** No message was handed to [_sendQueuedMessage] after its
    [expiresAt]. *)
Definition never_sent_expired (st : MessageSender.t) : Prop :=
  forall r t, In (MessageSender.TSending r t) (MessageSender.trace st) ->
    exists m, MessageSender.store st !! r = Some m /\ t <= MessageSender.expiresAt m.

(** Every message object carries the normalized form of the recipient
    it was queued for. *)
Definition addresses_normalized (st : MessageSender.t) : Prop :=
  forall r m, MessageSender.store st !! r = Some m ->
    MessageSender.to m = normalized (MessageSender.originalTo m).

(** What the invariants of the sender are about. *)
Definition inv (st : MessageSender.t) : Prop :=
  fresh st /\ never_sent_expired st /\ addresses_normalized st.

(** An assignment to a queued message that leaves its address and its
    expiry alone. *)
Definition keeps (f : MessageSender.message -> MessageSender.message) : Prop :=
  forall m, MessageSender.expiresAt (f m) = MessageSender.expiresAt m /\
            MessageSender.to (f m) = MessageSender.to m /\
            MessageSender.originalTo (f m) = MessageSender.originalTo m.

(** The message objects of [st] are still there in [st'], with the
    address they were created with. *)
Definition kept (st st' : MessageSender.t) : Prop :=
  forall r m, MessageSender.store st !! r = Some m ->
    exists m', MessageSender.store st' !! r = Some m' /\
               MessageSender.to m' = MessageSender.to m /\
               MessageSender.originalTo m' = MessageSender.originalTo m.





(** The count the rate limiter goes by at [now]: the one of the
    current window, which is empty when no window is open or when the
    last one has run out. *)
Definition sentCount (st : MessageSender.t) (s : sid) (now : time) : Z :=
  match MessageSender.rateLimiters st !! s with
  | None => 0
  | Some l => if now >=? MessageSender.resetAt l then 0 else MessageSender.count l
  end.

(** Every instance of the adapter belongs to a session of the manager. *)
Definition no_orphan (cm : ConnectionManager.t) : Prop :=
  dom (VenomBotAdapter.instances (ConnectionManager.adapter cm))
    ⊆ dom (ConnectionManager.connections cm).

(** No queue holds more than [max] messages. *)
Definition queues_within (max : Z) (st : MessageSender.t) : Prop :=
  forall s, Z.of_nat (length (MessageSender.queue st s)) <= max.

(** From [st] to [st'] the configuration is the same and no queue has
    grown. *)
Definition queues_shrink (st st' : MessageSender.t) : Prop :=
  MessageSender.cfg st' = MessageSender.cfg st /\
  forall s, (length (MessageSender.queue st' s) <= length (MessageSender.queue st s))%nat.




(** A [createSession] that registered the session [s] at the time [t] is
    waiting for its client: the connection is in the map as it was
    registered, but for what the listeners assign, and the adapter holds
    an instance for it. *)
Definition creating (t : time) (cm : ConnectionManager.t) (s : sid) : Prop :=
  exists c i,
    ConnectionManager.connections cm !! s = Some c /\
    ConnectionManager.c_createdAt c = t /\
    ConnectionManager.c_reconnectAttempts c = 0 /\
    VenomBotAdapter.instances (ConnectionManager.adapter cm) !! s = Some i.

End Spec.

(* ===================================================================== *)
(** ** Concrete configurations                                            *)
(* ===================================================================== *)

Module Scenario.

Module CM := ConnectionManager.
Module MS := MessageSender.

(** The defaults of the source. *)
Definition manager_config : CM.config :=
  {| CM.maxSessions := 10; CM.sessionTimeout := 300000; CM.reconnectAttempts := 3;
     CM.reconnectDelay := 30000; CM.sessionsPath := Js.lit "./tokens" |}.

Definition sender_config : MS.config :=
  {| MS.maxMessagesPerMinute := 20; MS.messageDelay := 3000; MS.cfg_maxRetries := 3;
     MS.maxQueueSize := 1000; MS.sendTimeout := 30000; MS.queueTimeout := 3600000 |}.

Definition s1 : sid := Js.lit "s1".

(** An initialized manager without sessions. *)
Definition manager0 : CM.t := fst (CM.initialize (CM.create manager_config)).

(** The same after [createSession('s1')] went through; venom-bot gave
    the client 7. *)
Definition manager1 : CM.t := fst (CM.createSession manager0 (Js.Str s1) 1000 (Return 7%N)).

(** Manager and sender, initialized, with the session [s1] connected. *)
Definition world1 : System.world :=
  System.run [(1000, System.Mgr (System.CreateSession (Js.Str s1) (Return 7%N)))]
    (System.boot manager_config sender_config).

Definition recipient : Js.value := Js.Str (Js.lit "11 2345-6789").
Definition hello : Js.value := Js.Str (Js.lit "hola").

Definition high_priority : MS.options :=
  {| MS.o_priority := Some (Js.lit "high"); MS.o_maxRetries := None;
     MS.o_delay := None; MS.o_timeout := None; MS.o_skipRateLimit := false |}.

(** [world1] after a message was queued for [s1] at 2000: it is the
    message object 0, and it is being sent. *)
Definition world2 : System.world :=
  System.run
    [(2000, System.Enqueue (Js.Str s1) recipient hello MS.no_options 11)] world1.

Definition sent : MS.send_answer := MS.Answered (Return tt).
Definition refused : MS.send_answer := MS.Answered (Throw (ErrExternal 1)).

(** Two high-priority messages queued while [s1] is paused, then sent:
    a first message (object 0) goes out, the session is paused, the
    objects 1 and 2 are queued with high priority, the session is
    resumed and the transport answers every send. *)
Definition two_high : list (time * System.action) :=
  [ (2000, System.Enqueue (Js.Str s1) recipient hello MS.no_options 11);
    (2100, System.SendAnswered s1 sent);
    (2200, System.Pause s1);
    (5100, System.TimerFired s1);
    (6000, System.Enqueue (Js.Str s1) recipient hello high_priority 12);
    (6001, System.Enqueue (Js.Str s1) recipient hello high_priority 13);
    (7000, System.Resume s1);
    (7100, System.SendAnswered s1 sent);
    (10100, System.TimerFired s1);
    (10200, System.SendAnswered s1 sent);
    (13200, System.TimerFired s1) ].

(** [world1] after the first four steps of [two_high]: the session is
    paused, its queue is empty and the next message object is 1. *)
Definition paused_world : System.world := System.run (firstn 4 two_high) world1.


(** The transport refuses a queued message three times, [maxRetries]
    being 3. *)
Definition three_refusals : list (time * System.action) :=
  [ (2000, System.Enqueue (Js.Str s1) recipient hello MS.no_options 11);
    (2100, System.SendAnswered s1 refused);
    (5100, System.TimerFired s1);
    (5200, System.SendAnswered s1 refused);
    (9700, System.TimerFired s1);
    (9800, System.SendAnswered s1 refused) ].

(** The same, with a high-priority message queued while the third
    attempt is in flight. *)
Definition three_refusals_and_a_high : list (time * System.action) :=
  [ (2000, System.Enqueue (Js.Str s1) recipient hello MS.no_options 11);
    (2100, System.SendAnswered s1 refused);
    (5100, System.TimerFired s1);
    (5200, System.SendAnswered s1 refused);
    (9700, System.TimerFired s1);
    (9750, System.Enqueue (Js.Str s1) recipient hello high_priority 12);
    (9800, System.SendAnswered s1 refused) ].

(** A pairing-code cache holding one record for [s1], issued at 1000. *)
Definition qr1 : QRCodeHandler.t :=
  fst (QRCodeHandler.processQRCode
         {| QRCodeHandler.qrCache := ∅; QRCodeHandler.isInitialized := true;
            QRCodeHandler.qrTimeout := 120000; QRCodeHandler.events := [];
            QRCodeHandler.log := [] |}
         s1
         {| VenomBotAdapter.qr_base64 := Some (Js.lit "iVBOR");
            VenomBotAdapter.qr_ascii := Some (Js.lit "##  ##");
            VenomBotAdapter.qr_url := Some (Js.lit "2@abc");
            VenomBotAdapter.qr_attempts := 3; VenomBotAdapter.qr_timestamp := 1000 |}
         1000 (Return (Js.lit "data:image/png;base64,AAAA"))).

(** The facade, started, after [createSession('s1')] went through. *)
Definition service0 : WhatsAppService.t :=
  WhatsAppService.started manager_config sender_config 120000 true.

Definition service1 : WhatsAppService.t :=
  fst (WhatsAppService.createSession service0 (Js.Str s1) 1000
         (Return tt) (Return tt) (Return 7%N)).

(** A sender that allows two messages a minute. *)
Definition tight_config : MS.config :=
  {| MS.maxMessagesPerMinute := 2; MS.messageDelay := 3000; MS.cfg_maxRetries := 3;
     MS.maxQueueSize := 1000; MS.sendTimeout := 30000; MS.queueTimeout := 3600000 |}.

(** Manager and sender, initialized, with the session [s1] connected;
    two messages a minute are allowed. *)
Definition tight_world : System.world :=
  System.run [(1000, System.Mgr (System.CreateSession (Js.Str s1) (Return 7%N)))]
    (System.boot manager_config tight_config).

(** Three immediate sends for [s1] are started at 2000, 2001 and 2002,
    before the transport has answered any of them; it accepts the three
    of them at 2100, 2101 and 2102. *)
Definition overlapping : CM.t * MS.t * list (result unit) :=
  let '(cm1, st1, pending) :=
    System.immediate_begin_all (fst tight_world) (snd tight_world)
      (Js.Str s1) recipient hello [2000; 2001; 2002] in
  System.immediate_end_all cm1 st1 pending
    [(2100, Return tt); (2101, Return tt); (2102, Return tt)].

(** [tight_world] after two immediate sends, the first at 2000, each
    accepted by the transport before the next one started. *)
Definition tight_full : System.world :=
  fst (System.immediate_burst (fst tight_world) (snd tight_world)
         (Js.Str s1) recipient hello [2000; 2100]).


(** A pairing code, as [catchQR] gets it. *)
Definition qr_data : VenomBotAdapter.qrData :=
  {| VenomBotAdapter.qr_base64 := Some (Js.lit "iVBOR");
     VenomBotAdapter.qr_ascii := Some (Js.lit "##  ##");
     VenomBotAdapter.qr_url := Some (Js.lit "2@abc");
     VenomBotAdapter.qr_attempts := 1; VenomBotAdapter.qr_timestamp := 1500 |}.

(** What venom-bot reports while [createSession('s1')] waits for the
    client: a pairing code at 1500 and a status at 8000. *)
Definition pairing : list (time * System.mgr_action) :=
  [ (1500, System.CatchQR s1 qr_data);
    (8000, System.StatusFound s1 (Js.lit "qrReadSuccess")) ].

End Scenario.

(* ===================================================================== *)
(** * Properties                                                          *)
(* ===================================================================== *)

Module CM := ConnectionManager.
Module MS := MessageSender.
Module QR := QRCodeHandler.
Module WA := WhatsAppService.

(** ** Session identifiers *)

(** Boolean tests as propositions, for [lia]. *)
Ltac bool_to_prop H :=
  repeat first
    [ setoid_rewrite orb_true_iff in H
    | setoid_rewrite andb_true_iff in H
    | setoid_rewrite N.leb_le in H
    | setoid_rewrite N.eqb_eq in H
    | setoid_rewrite Z.leb_le in H
    | setoid_rewrite Z.eqb_eq in H ].

Section SessionIds.

Lemma idChar_not_whiteSpace c : Js.isIdChar c = true -> Js.isWhiteSpace c = false.
Proof.
  unfold Js.isIdChar, Js.isDigit, Js.isWhiteSpace. intros H.
  apply not_true_is_false. intros W.
  bool_to_prop H. bool_to_prop W. lia.
Qed.

Lemma trimStart_keeps c s : Js.isWhiteSpace c = false -> Js.trimStart (c :: s) = c :: s.
Proof. intros H. simpl. now rewrite H. Qed.

Lemma trim_idChars s :
  s <> [] -> List.forallb Js.isIdChar s = true -> Js.trim s = s.
Proof.
  intros Hne Hall. unfold Js.trim.
  destruct s as [|c s]; [congruence|].
  rewrite trimStart_keeps.
  2:{ apply idChar_not_whiteSpace. simpl in Hall. now apply andb_true_iff in Hall. }
  destruct (rev (c :: s)) as [|d u] eqn:E.
  { apply (f_equal (@length _)) in E. rewrite length_rev in E. discriminate. }
  rewrite trimStart_keeps.
  - rewrite <- E. apply rev_involutive.
  - apply idChar_not_whiteSpace.
    rewrite forallb_forall in Hall. apply Hall.
    apply in_rev. rewrite E. now left.
Qed.

(** [_validateSessionId] accepts exactly the strings of one to fifty
    characters of the class. *)
Lemma validateSessionId_accepts v s :
  CM.validateSessionId v = Return s <-> v = Js.Str s /\ Spec.id_pattern 1 50 s = true.
Proof.
  unfold CM.validateSessionId, Spec.id_pattern; split.
  - destruct v as [| | | | |u|]; try discriminate.
    destruct (negb (Js.truthy (Js.Str u)) || Js.eqb (Js.trim u) []) eqn:E1; [discriminate|].
    destruct (Js.jslength u >? 50) eqn:E2; [discriminate|].
    destruct (negb (Js.test_id_regex u)) eqn:E3; [discriminate|].
    intros [= <-]. split; [reflexivity|].
    apply orb_false_iff in E1 as [E1 _]. apply negb_false_iff in E1, E3.
    destruct u as [|c u]; [discriminate|].
    unfold Js.jslength in *. simpl length in *.
    rewrite !andb_true_iff. repeat split; try (apply Z.leb_le; lia).
    + apply Z.leb_le. rewrite Z.gtb_ltb in E2. apply Z.ltb_ge in E2. exact E2.
    + exact E3.
  - intros [-> H]. rewrite !andb_true_iff, !Z.leb_le in H. destruct H as [[H1 H2] H3].
    destruct s as [|c s]; [unfold Js.jslength in H1; simpl in H1; lia|].
    rewrite trim_idChars by (congruence || assumption).
    cbn [Js.truthy negb orb]. unfold Js.eqb.
    rewrite bool_decide_eq_false_2 by discriminate.
    rewrite Z.gtb_ltb. destruct (Z.ltb_spec 50 (Js.jslength (c :: s))); [lia|].
    unfold Js.test_id_regex. now rewrite H3.
Qed.

Lemma validateSessionId_errors v e :
  CM.validateSessionId v = Throw e ->
  e = ErrIdNotNonEmptyString \/ e = ErrIdTooLong \/ e = ErrIdBadChars.
Proof.
  unfold CM.validateSessionId.
  destruct v; try (intros [= <-]; auto).
  repeat match goal with |- context [if ?b then _ else _] => destruct b end;
    intros [= <-]; auto.
Qed.

(** C9, counterexample: the two-character id "ab" is outside the
    pattern [[A-Za-z0-9_-]{3,50}], and [createSession] registers and
    connects it. *)
Lemma createSession_accepts_two_characters :
  let out := CM.createSession Scenario.manager0 (Js.Str (Js.lit "ab")) 1000 (Return 7%N) in
  Spec.matches 3 50 (Js.Str (Js.lit "ab")) = false /\
  snd out = Return (Js.lit "ab") /\
  CM.getSessionStatus (fst out) (Js.lit "ab") = Some CM.Connected.
Proof. vm_compute. auto. Qed.

(** C9, amended: [createSession] rejects every session id that is not a
    string of one to fifty characters among letters, digits, underscore
    and hyphen ([[A-Za-z0-9_-]{1,50}]): the call fails, on an
    initialized manager with one of the three identifier errors, no
    session is registered and the adapter is not asked for anything. *)
Theorem createSession_rejects_malformed_id m v now r :
  Spec.matches 1 50 v = false ->
  let out := CM.createSession m v now r in
  (exists e, snd out = Throw e /\
     (CM.isInitialized m = true ->
      e = ErrIdNotNonEmptyString \/ e = ErrIdTooLong \/ e = ErrIdBadChars)) /\
  CM.connections (fst out) = CM.connections m /\
  CM.adapter (fst out) = CM.adapter m.
Proof.
  intros Hbad. unfold CM.createSession.
  destruct (CM.isInitialized m) eqn:Hinit; cbn [negb].
  2:{ cbn. split; [eexists; split; [reflexivity | discriminate] | auto]. }
  destruct (CM.validateSessionId v) as [s|e] eqn:Hv.
  - apply validateSessionId_accepts in Hv as [-> Hs].
    cbn in Hbad. congruence.
  - cbn. split; [|auto]. exists e. split; [reflexivity|].
    intros _. now apply validateSessionId_errors with v.
Qed.

Lemma createSession_rejects_malformed_id_witness :
  snd (CM.createSession Scenario.manager0 (Js.Str (Js.lit "two words")) 1000 (Return 7%N))
    = Throw ErrIdBadChars.
Proof.
  assert (H : Spec.matches 1 50 (Js.Str (Js.lit "two words")) = false)
    by (vm_compute; reflexivity).
  destruct (createSession_rejects_malformed_id Scenario.manager0
              (Js.Str (Js.lit "two words")) 1000 (Return 7%N) H)
    as [[e [He _]] _].
  rewrite He. vm_compute in He. congruence.
Defined.

End SessionIds.


(** ** The pairing-code cache *)

Section PairingCodes.

Lemma select_unsupported q f :
  QR.supported (Js.Str f) = false ->
  QR.select q (Js.toLowerCase f) = Throw ErrUnsupportedFormat.
Proof.
  unfold QR.supported, QR.lowerFormat. intros H.
  apply bool_decide_eq_false in H. cbn [List.map] in H.
  repeat (apply not_elem_of_cons in H as [? H]).
  unfold QR.select, Js.eqb.
  now rewrite !bool_decide_eq_false_2 by assumption.
Qed.

(** C8, counterexample: a record is stored for [s1] and has not
    expired; asked for it in format "xml", [getQRCode] returns [null]
    and does not fail. *)
Lemma getQRCode_xml_returns_null :
  QR.supported (Js.Str (Js.lit "xml")) = false /\
  is_Some (QR.qrCache Scenario.qr1 !! Scenario.s1) /\
  snd (QR.getQRCode Scenario.qr1 Scenario.s1 (Js.Str (Js.lit "xml")) 2000) = Return None /\
  snd (QR.getQRCode Scenario.qr1 Scenario.s1 (Js.Str (Js.lit "xml")) 2000)
    <> Throw ErrUnsupportedFormat.
Proof. vm_compute. repeat split; eauto; discriminate. Qed.

(** C8, amended: for every stored, unexpired pairing record and every
    format string outside the supported set, the unsupported-format
    error is raised inside [getQRCode] and caught there: the call logs
    the error and returns [null], and the cache is left as it was. *)
Theorem getQRCode_unsupported_format h s q f now :
  QR.isInitialized h = true ->
  QR.qrCache h !! s = Some q ->
  now <= QR.q_expiresAt q ->
  QR.supported (Js.Str f) = false ->
  snd (QR.getQRCode_try h s (Js.Str f) now) = Throw ErrUnsupportedFormat /\
  QR.getQRCode h s (Js.Str f) now
    = (QR.logged (LogError ErrUnsupportedFormat) h, Return None).
Proof.
  intros Hinit Hq Hnow Hf.
  assert (Htry : QR.getQRCode_try h s (Js.Str f) now = (h, Throw ErrUnsupportedFormat)).
  { unfold QR.getQRCode_try. rewrite Hinit, Hq. cbn [negb].
    rewrite Z.gtb_ltb. destruct (Z.ltb_spec (QR.q_expiresAt q) now); [lia|].
    cbn [QR.lowerFormat]. now rewrite select_unsupported. }
  unfold QR.getQRCode. now rewrite Htry.
Qed.

Lemma getQRCode_unsupported_format_witness :
  QR.getQRCode Scenario.qr1 Scenario.s1 (Js.Str (Js.lit "svg")) 2000
    = (QR.logged (LogError ErrUnsupportedFormat) Scenario.qr1, Return None).
Proof.
  refine (proj2 (getQRCode_unsupported_format Scenario.qr1 Scenario.s1 _
                   (Js.lit "svg") 2000 _ _ _ _)).
  - vm_compute. reflexivity.
  - vm_compute. reflexivity.
  - vm_compute. discriminate.
  - vm_compute. reflexivity.
Defined.

End PairingCodes.


(** ** Closing a session *)

Section Closing.

Lemma dispatch_InstanceClosed now m s :
  CM.dispatch now m [VenomBotAdapter.InstanceClosed s] = m.
Proof. reflexivity. Qed.

(** What [closeSession] does to a session the manager knows, over the
    adapter of the system: whatever the client's own [close] answers,
    the adapter's [closeInstance] returns. *)
Lemma closeSession_known m s c now rc :
  CM.connections m !! s = Some c ->
  snd (CM.closeSession m s now rc) = Return true /\
  CM.connections (fst (CM.closeSession m s now rc)) = delete s (CM.connections m).
Proof.
  intros Hc. unfold CM.closeSession, CM.closeSession_begin. rewrite Hc.
  unfold VenomBotAdapter.closeInstance.
  destruct (VenomBotAdapter.instances _ !! s) as [i|]; cbn.
  - split; [reflexivity|]. now rewrite delete_alter_eq.
  - split; [reflexivity|]. now rewrite delete_alter_eq.
Qed.

Lemma closeSession_unknown m s now rc :
  CM.connections m !! s = None ->
  CM.closeSession m s now rc = (CM.logged (LogWarn None) m, Return false).
Proof.
  intros Hc. unfold CM.closeSession, CM.closeSession_begin. now rewrite Hc.
Qed.

(** The adapter's [closeInstance] returns, whatever the client's own
    [close] does: it has no outcome that throws. *)
Lemma closeInstance_returns a s rc :
  exists b, snd (VenomBotAdapter.closeInstance a s rc) = Return b.
Proof.
  unfold VenomBotAdapter.closeInstance.
  destruct (VenomBotAdapter.instances a !! s); eexists; reflexivity.
Qed.

(** C6: for every existing session, [closeSession] sets the status to
    ['closing'], asks the adapter to close, and removes the session
    from the map of live connections whether the close succeeds or
    fails: a failure of the client's [close] is logged, by the adapter
    and as a warning, and [closeSession] returns [true] all the same.
    The adapter's [closeInstance] has no outcome that throws; and
    whatever state the manager is in when [closeInstance] has returned,
    the rest of [closeSession] removes the session and returns
    [true]. *)
Theorem closeSession_outcomes m s c :
  CM.connections m !! s = Some c ->
  (exists closing,
     CM.closeSession_begin m s = Some closing /\
     CM.getSessionStatus closing s = Some CM.Closing /\
     CM.adapter closing = CM.adapter m) /\
  (forall now rc,
     let m' := fst (CM.closeSession m s now rc) in
     snd (CM.closeSession m s now rc) = Return true /\
     CM.connections m' = delete s (CM.connections m) /\
     VenomBotAdapter.instances (CM.adapter m') !! s = None /\
     CM.events m' = CM.events m ++ [CM.SessionClosed s] /\
     (forall i cl,
        VenomBotAdapter.instances (CM.adapter m) !! s = Some i ->
        VenomBotAdapter.i_client i = Some cl ->
        VenomBotAdapter.wire (CM.adapter m')
          = VenomBotAdapter.wire (CM.adapter m) ++ [VenomBotAdapter.WClose cl] /\
        VenomBotAdapter.log (CM.adapter m')
          = VenomBotAdapter.log (CM.adapter m)
            ++ match rc with
               | Throw e => [LogWarn (Some e)]
               | Return _ => []
               end)) /\
  (forall a rc, exists b, snd (VenomBotAdapter.closeInstance a s rc) = Return b) /\
  (forall m1 b,
     snd (CM.closeSession_resume m1 s (Return b)) = Return true /\
     CM.connections (fst (CM.closeSession_resume m1 s (Return b))) !! s = None).
Proof.
  intros Hc. split; [|split; [|split]].
  - unfold CM.closeSession_begin. rewrite Hc. eexists. split; [reflexivity|].
    split; [|reflexivity].
    unfold CM.getSessionStatus. cbn. now rewrite lookup_alter_eq, Hc.
  - intros now rc. cbn zeta.
    destruct (closeSession_known m s c now rc Hc) as [Hr Hd].
    split; [exact Hr|]. split; [exact Hd|].
    unfold CM.closeSession, CM.closeSession_begin. rewrite Hc.
    unfold VenomBotAdapter.closeInstance. cbn.
    destruct (VenomBotAdapter.instances (CM.adapter m) !! s) as [i|] eqn:Hi; cbn.
    + split; [apply lookup_delete_eq|]. split; [reflexivity|].
      intros i' cl [= <-] Hcl. rewrite Hcl. destruct rc; cbn.
      * split; [reflexivity | now rewrite app_nil_r].
      * split; reflexivity.
    + split; [exact Hi|]. split; [reflexivity|]. intros i cl [=].
  - intros a rc. apply closeInstance_returns.
  - intros m1 b. cbn. split; [reflexivity | apply lookup_delete_eq].
Qed.

Lemma closeSession_outcomes_witness :
  snd (CM.closeSession Scenario.manager1 Scenario.s1 2000 (Throw (ErrExternal 1)))
    = Return true /\
  CM.connections
    (fst (CM.closeSession Scenario.manager1 Scenario.s1 2000 (Throw (ErrExternal 1))))
    = delete Scenario.s1 (CM.connections Scenario.manager1).
Proof.
  assert (H : CM.connections Scenario.manager1 !! Scenario.s1
              = Some {| CM.c_status := CM.Connected; CM.c_createdAt := 1000;
                        CM.c_lastActivity := 1000; CM.c_reconnectAttempts := 0;
                        CM.c_client := Some 7%N; CM.c_qrCode := None |})
    by (vm_compute; reflexivity).
  pose proof (proj1 (proj2 (closeSession_outcomes Scenario.manager1 Scenario.s1 _ H))
                2000 (Throw (ErrExternal 1))) as (H1 & H2 & _).
  split; assumption.
Defined.

End Closing.


(** ** Closing a session twice *)

Section ClosingTwice.

Lemma updateSession_ok x s st now :
  snd (SessionStore.updateSession x s st now (Return tt)) = Return tt ->
  SessionStore.isInitialized (fst (SessionStore.updateSession x s st now (Return tt))) = true /\
  is_Some (SessionStore.sessionsCache
             (fst (SessionStore.updateSession x s st now (Return tt))) !! s).
Proof.
  unfold SessionStore.updateSession.
  destruct (SessionStore.isInitialized x) eqn:Hi; cbn [negb]; [|discriminate].
  destruct (SessionStore.sessionsCache x !! s) as [d|] eqn:Hd; [|discriminate].
  intros _. cbn. split; [assumption|].
  rewrite lookup_alter_eq, Hd. cbn. eauto.
Qed.

Lemma updateSession_again x s st now io :
  SessionStore.isInitialized x = true ->
  is_Some (SessionStore.sessionsCache x !! s) ->
  snd (SessionStore.updateSession x s st now io)
    = match io with Return _ => Return tt | Throw e => Throw e end.
Proof.
  intros Hi [d Hd]. unfold SessionStore.updateSession. rewrite Hi, Hd.
  now destruct io.
Qed.

(** What a successful [closeSession] of the facade leaves behind. *)
Lemma facade_closed w s now rc io :
  snd (WA.closeSession w s now rc io) = Return true ->
  let w1 := fst (WA.closeSession w s now rc io) in
  WA.isInitialized w1 = true /\
  CM.connections (WA.connectionManager w1) !! s = None /\
  SessionStore.isInitialized (WA.sessionStore w1) = true /\
  is_Some (SessionStore.sessionsCache (WA.sessionStore w1) !! s).
Proof.
  unfold WA.closeSession.
  destruct (WA.isInitialized w) eqn:Hi; cbn [negb]; [|discriminate].
  destruct (MessageListener.stopListening (WA.messageListener w) s) as [ml1 b1].
  destruct (MS.clearQueue (WA.messageSender w) s (Js.lit "all")) as [ms1 r1].
  destruct (QR.clearQRCode (WA.qrHandler w) s) as [qr1 b2].
  destruct (CM.closeSession (WA.connectionManager w) s now rc) as [cm1 o1] eqn:Hcm.
  destruct o1 as [b|e]; [|discriminate].
  cbn [WA.with_modules WA.sessionStore].
  destruct (SessionStore.updateSession (WA.sessionStore w) s (Js.lit "closed") now io)
    as [ss2 o2] eqn:Hss.
  destruct o2 as [[]|e]; [|discriminate].
  intros _. cbn. split; [assumption|].
  assert (Hio : io = Return tt).
  { unfold SessionStore.updateSession in Hss.
    destruct (SessionStore.isInitialized (WA.sessionStore w)); cbn in Hss; [|discriminate].
    destruct (SessionStore.sessionsCache (WA.sessionStore w) !! s); [|discriminate].
    destruct io as [[]|]; [reflexivity | discriminate]. }
  subst io. split.
  - destruct (CM.connections (WA.connectionManager w) !! s) as [c|] eqn:Hc.
    + destruct (closeSession_known _ s c now rc Hc) as [_ H]. rewrite Hcm in H. cbn in H.
      rewrite H. apply lookup_delete_eq.
    + rewrite closeSession_unknown in Hcm by assumption. now inversion Hcm.
  - pose proof (updateSession_ok (WA.sessionStore w) s (Js.lit "closed") now) as H.
    rewrite Hss in H. cbn in H. now apply H.
Qed.

(** The facade's [closeSession] on a session that the manager does not
    have and the session store has. *)
Lemma facade_close_absent w s now rc io :
  WA.isInitialized w = true ->
  CM.connections (WA.connectionManager w) !! s = None ->
  SessionStore.isInitialized (WA.sessionStore w) = true ->
  is_Some (SessionStore.sessionsCache (WA.sessionStore w) !! s) ->
  snd (WA.closeSession w s now rc io)
    = match io with Return _ => Return true | Throw e => Throw e end.
Proof.
  intros Hi Hc Hsi Hs. unfold WA.closeSession. rewrite Hi. cbn [negb].
  destruct (MessageListener.stopListening (WA.messageListener w) s) as [ml1 b1].
  destruct (MS.clearQueue (WA.messageSender w) s (Js.lit "all")) as [ms1 r1].
  destruct (QR.clearQRCode (WA.qrHandler w) s) as [qr1 b2].
  rewrite closeSession_unknown by assumption.
  cbn [WA.with_modules WA.sessionStore].
  pose proof (updateSession_again (WA.sessionStore w) s (Js.lit "closed") now io Hsi Hs) as H.
  destruct (SessionStore.updateSession (WA.sessionStore w) s (Js.lit "closed") now io)
    as [ss2 o2]. cbn in H. subst o2.
  now destruct io.
Qed.

(** C7, counterexample: the facade's [closeSession] on [s1] succeeds,
    and called again on the same id it returns [true], not a not-found
    or [false] result. *)
Lemma facade_second_close_returns_true :
  let first := WA.closeSession Scenario.service1 Scenario.s1 2000 (Return tt) (Return tt) in
  let second := WA.closeSession (fst first) Scenario.s1 3000 (Return tt) (Return tt) in
  snd first = Return true /\ snd second = Return true /\ snd second <> Return false.
Proof. vm_compute. repeat split; discriminate. Qed.

(** C7, amended: after a successful close of a session id, a second
    [closeSession] on the same id does not raise an exception (in the
    facade, as long as the write of the session store succeeds).  The
    connection manager's [closeSession] then returns [false], the
    session being not found; the facade's [closeSession] returns [true]
    again, as it does not look at what the manager returned. *)
Theorem closeSession_twice w s c now rc io now' rc' :
  CM.connections (WA.connectionManager w) !! s = Some c ->
  snd (WA.closeSession w s now rc io) = Return true ->
  let m1 := fst (CM.closeSession (WA.connectionManager w) s now rc) in
  let w1 := fst (WA.closeSession w s now rc io) in
  snd (CM.closeSession (WA.connectionManager w) s now rc) = Return true /\
  CM.closeSession m1 s now' rc' = (CM.logged (LogWarn None) m1, Return false) /\
  snd (WA.closeSession w1 s now' rc' (Return tt)) = Return true /\
  (forall e, snd (WA.closeSession w1 s now' rc' (Throw e)) = Throw e).
Proof.
  intros Hc Hfirst. cbn zeta.
  destruct (closeSession_known _ s c now rc Hc) as [H1 H2].
  destruct (facade_closed w s now rc io Hfirst) as (Hi & Hn & Hsi & Hs).
  repeat split.
  - exact H1.
  - apply closeSession_unknown. rewrite H2. apply lookup_delete_eq.
  - now rewrite facade_close_absent.
  - intros e. now rewrite facade_close_absent.
Qed.

Lemma closeSession_twice_witness :
  snd (WA.closeSession
         (fst (WA.closeSession Scenario.service1 Scenario.s1 2000 (Return tt) (Return tt)))
         Scenario.s1 3000 (Return tt) (Return tt)) = Return true.
Proof.
  refine (proj1 (proj2 (proj2
    (closeSession_twice Scenario.service1 Scenario.s1
       {| CM.c_status := CM.Connected; CM.c_createdAt := 1000;
          CM.c_lastActivity := 1000; CM.c_reconnectAttempts := 0;
          CM.c_client := Some 7%N; CM.c_qrCode := None |}
       2000 (Return tt) (Return tt) 3000 (Return tt) _ _)))).
  - vm_compute. reflexivity.
  - vm_compute. reflexivity.
Defined.

End ClosingTwice.


(** ** Reconnection *)

Section Reconnection.

Lemma bounded_alter (max : Z) (f : CM.connection -> CM.connection) (s : sid)
  (cs : gmap sid CM.connection) :
  (forall c, 0 <= CM.c_reconnectAttempts c <= max ->
             0 <= CM.c_reconnectAttempts (f c) <= max) ->
  Spec.bounded max cs -> Spec.bounded max (alter f s cs).
Proof.
  intros Hf H k c. destruct (decide (s = k)) as [->|Hne].
  - rewrite lookup_alter_eq. destruct (cs !! k) as [c0|] eqn:E; [|discriminate].
    intros [= <-]. apply Hf. now apply (H k).
  - rewrite lookup_alter_ne by assumption. apply H.
Qed.

Lemma bounded_insert (max : Z) (s : sid) (c : CM.connection) (cs : gmap sid CM.connection) :
  0 <= CM.c_reconnectAttempts c <= max ->
  Spec.bounded max cs -> Spec.bounded max (<[s:=c]> cs).
Proof. intros. now apply map_Forall_insert_2. Qed.

Lemma bounded_handle max now m ev :
  0 <= max ->
  Spec.bounded max (CM.connections m) ->
  Spec.bounded max (CM.connections (CM.handle now m ev)).
Proof.
  intros Hmax H. destruct ev; cbn; try assumption;
    apply bounded_alter; try assumption; intros c Hc; cbn; lia.
Qed.

Lemma bounded_dispatch max now evs m :
  0 <= max ->
  Spec.bounded max (CM.connections m) ->
  Spec.bounded max (CM.connections (CM.dispatch now m evs)).
Proof.
  intros Hmax. revert m. unfold CM.dispatch.
  induction evs as [|ev evs IH]; intros m H; [assumption|].
  cbn. apply IH. now apply bounded_handle.
Qed.

Lemma cfg_handle now m ev : CM.cfg (CM.handle now m ev) = CM.cfg m.
Proof. now destruct ev. Qed.

Lemma cfg_dispatch now evs m : CM.cfg (CM.dispatch now m evs) = CM.cfg m.
Proof.
  revert m. unfold CM.dispatch. induction evs as [|ev evs IH]; intros m; [reflexivity|].
  cbn. now rewrite IH, cfg_handle.
Qed.

Lemma adapter_handle now m ev : CM.adapter (CM.handle now m ev) = CM.adapter m.
Proof. now destruct ev. Qed.

Lemma adapter_dispatch now evs m : CM.adapter (CM.dispatch now m evs) = CM.adapter m.
Proof.
  revert m. unfold CM.dispatch. induction evs as [|ev evs IH]; intros m; [reflexivity|].
  cbn. now rewrite IH, adapter_handle.
Qed.

Ltac bounded_step :=
  first
    [ assumption
    | apply bounded_dispatch; [assumption|]
    | apply bounded_alter; [intros ? ?; cbn; lia|]
    | apply bounded_insert; [cbn; lia|]
    | apply map_Forall_delete ].

Lemma bounded_createSession max m v now r :
  0 <= max ->
  Spec.bounded max (CM.connections m) ->
  Spec.bounded max (CM.connections (fst (CM.createSession m v now r))).
Proof.
  intros Hmax H. unfold CM.createSession.
  destruct (negb (CM.isInitialized m)); [assumption|].
  destruct (CM.validateSessionId v) as [s|e]; [|assumption].
  destruct (CM.atSessionLimit m); [assumption|].
  destruct (CM.connections m !! s); [assumption|].
  destruct (VenomBotAdapter.createInstance _ s now r) as [[a2 evs] [cl|e]]; cbn;
    repeat bounded_step.
Qed.

Lemma bounded_closeSession max m s now rc :
  0 <= max ->
  Spec.bounded max (CM.connections m) ->
  Spec.bounded max (CM.connections (fst (CM.closeSession m s now rc))).
Proof.
  intros Hmax H. unfold CM.closeSession, CM.closeSession_begin.
  destruct (CM.connections m !! s); [|assumption].
  destruct (VenomBotAdapter.closeInstance _ s rc) as [[a2 evs] [b|e]]; cbn;
    repeat bounded_step.
Qed.

Lemma bounded_reconnectSession m s now1 now2 rc r :
  0 <= CM.reconnectAttempts (CM.cfg m) ->
  Spec.bounded (CM.reconnectAttempts (CM.cfg m)) (CM.connections m) ->
  Spec.bounded (CM.reconnectAttempts (CM.cfg m))
    (CM.connections (fst (CM.reconnectSession m s now1 now2 rc r))).
Proof.
  intros Hmax H. unfold CM.reconnectSession, CM.reconnect_begin, CM.reconnect_check.
  destruct (CM.connections m !! s) as [c|] eqn:Hc.
  2:{ cbn. repeat bounded_step. }
  destruct (Z.geb_spec (CM.c_reconnectAttempts c) (CM.reconnectAttempts (CM.cfg m)))
    as [Hge|Hlt].
  { cbn. repeat bounded_step. }
  assert (Hinc : Spec.bounded (CM.reconnectAttempts (CM.cfg m))
            (alter (fun c => CM.set_status CM.Reconnecting
                      (CM.set_reconnectAttempts (CM.c_reconnectAttempts c + 1) c)) s
               (CM.connections m))).
  { intros k c'. destruct (decide (s = k)) as [->|Hne].
    - rewrite lookup_alter_eq, Hc. intros [= <-]. cbn.
      pose proof (H k c Hc) as Hb. cbn in Hb. lia.
    - rewrite lookup_alter_ne by assumption. apply H. }
  destruct (VenomBotAdapter.closeInstance _ s rc) as [[a2 evs2] o2]. cbn.
  destruct (VenomBotAdapter.createInstance _ s now2 r) as [[a3 evs3] [cl|e]]; cbn;
    repeat bounded_step.
Qed.

Lemma cfg_mgr_step now a m : CM.cfg (System.mgr_step now a m) = CM.cfg m.
Proof.
  destruct a; cbn.
  - unfold CM.createSession.
    destruct (negb (CM.isInitialized m)); [reflexivity|].
    destruct (CM.validateSessionId v) as [s|e]; [|reflexivity].
    destruct (CM.atSessionLimit m); [reflexivity|].
    destruct (CM.connections m !! s); [reflexivity|].
    destruct (VenomBotAdapter.createInstance _ s now r) as [[a2 evs] [cl|e]]; cbn;
      now rewrite cfg_dispatch.
  - unfold CM.closeSession, CM.closeSession_begin.
    destruct (CM.connections m !! s); [|reflexivity].
    destruct (VenomBotAdapter.closeInstance _ s rc) as [[a2 evs] [b|e]]; cbn;
      now rewrite cfg_dispatch.
  - unfold CM.reconnectSession, CM.reconnect_begin.
    destruct (CM.reconnect_check m s); [|reflexivity].
    destruct (VenomBotAdapter.closeInstance _ s rc) as [[a2 evs2] o2]. cbn.
    destruct (VenomBotAdapter.createInstance _ s later r) as [[a3 evs3] [cl|e]]; cbn;
      rewrite cfg_dispatch; cbn; now rewrite cfg_dispatch.
  - reflexivity.
  - reflexivity.
  - reflexivity.
  - reflexivity.
Qed.

Lemma bounded_mgr_step now a m :
  0 <= CM.reconnectAttempts (CM.cfg m) ->
  Spec.bounded (CM.reconnectAttempts (CM.cfg m)) (CM.connections m) ->
  Spec.bounded (CM.reconnectAttempts (CM.cfg m))
    (CM.connections (System.mgr_step now a m)).
Proof.
  intros Hmax H. destruct a; cbn.
  - now apply bounded_createSession.
  - now apply bounded_closeSession.
  - now apply bounded_reconnectSession.
  - now apply (bounded_handle _ now _ (VenomBotAdapter.QrCode s q)).
  - exact H.
  - now apply (bounded_handle _ now _ (VenomBotAdapter.StateChange s st)).
  - now apply (bounded_handle _ now _ (VenomBotAdapter.MessageReceived s)).
Qed.

(** The reconnection counters stay within the configured maximum along
    every run of the manager. *)
Lemma bounded_mgr_run l m :
  0 <= CM.reconnectAttempts (CM.cfg m) ->
  Spec.bounded (CM.reconnectAttempts (CM.cfg m)) (CM.connections m) ->
  CM.cfg (System.mgr_run l m) = CM.cfg m /\
  Spec.bounded (CM.reconnectAttempts (CM.cfg m)) (CM.connections (System.mgr_run l m)).
Proof.
  revert m. unfold System.mgr_run.
  induction l as [|[now a] l IH]; intros m Hmax H; [now split|].
  cbn. pose proof (cfg_mgr_step now a m) as Hcfg.
  destruct (IH (System.mgr_step now a m)) as [IH1 IH2].
  - now rewrite Hcfg.
  - rewrite Hcfg. now apply bounded_mgr_step.
  - rewrite Hcfg in IH1, IH2. now split.
Qed.

End Reconnection.


Section ReconnectSession.

Import VenomBotAdapter.

(** After [closeInstance] the adapter has no instance for the session,
    and the manager's listeners have nothing to do. *)
Lemma closeInstance_removes a s rc :
  exists a2 evs b,
    closeInstance a s rc = (a2, evs, Return b) /\
    instances a2 !! s = None /\
    (forall now m, CM.dispatch now m evs = m).
Proof.
  unfold closeInstance. destruct (instances a !! s) as [i|] eqn:Hi.
  - eexists _, _, _. split; [reflexivity|]. split; [|reflexivity].
    cbn. destruct (i_client i); [destruct rc|]; cbn; apply lookup_delete_eq.
  - eexists _, _, _. split; [reflexivity|]. split; [exact Hi | reflexivity].
Qed.

(** [createInstance] for a session the adapter does not have: venom-bot
    is asked for a client, and its answer decides. *)
Lemma createInstance_fresh a s now r :
  instances a !! s = None ->
  exists a2,
    createInstance a s now r =
      (a2,
       match r with
       | Return _ => [InstanceConnected s]
       | Throw e => [InstanceError s e]
       end, r).
Proof.
  intros Hi. unfold createInstance, createInstance_begin. rewrite Hi.
  destruct r; cbn; eexists; reflexivity.
Qed.

Lemma reconnect_exhausted m s c now1 now2 rc r :
  CM.connections m !! s = Some c ->
  CM.c_reconnectAttempts c >= CM.reconnectAttempts (CM.cfg m) ->
  let out := CM.reconnectSession m s now1 now2 rc r in
  snd out = Throw ErrMaxReconnect /\
  CM.adapter (fst out) = CM.adapter m /\
  CM.connections (fst out) !! s = Some (CM.set_status CM.StError c).
Proof.
  intros Hc Hge. unfold CM.reconnectSession, CM.reconnect_begin, CM.reconnect_check.
  rewrite Hc.
  destruct (Z.geb_spec (CM.c_reconnectAttempts c) (CM.reconnectAttempts (CM.cfg m)));
    [|lia].
  cbn. repeat split. now rewrite lookup_alter_eq, Hc.
Qed.

Lemma reconnect_begin_increments m s c :
  CM.connections m !! s = Some c ->
  CM.c_reconnectAttempts c < CM.reconnectAttempts (CM.cfg m) ->
  exists m1,
    CM.reconnect_begin m s = (m1, Return tt) /\
    CM.adapter m1 = CM.adapter m /\
    CM.connections m1 !! s
      = Some (CM.set_status CM.Reconnecting
                (CM.set_reconnectAttempts (CM.c_reconnectAttempts c + 1) c)).
Proof.
  intros Hc Hlt. unfold CM.reconnect_begin, CM.reconnect_check. rewrite Hc.
  destruct (Z.geb_spec (CM.c_reconnectAttempts c) (CM.reconnectAttempts (CM.cfg m)));
    [lia|].
  eexists. split; [reflexivity|]. split; [reflexivity|].
  cbn. now rewrite lookup_alter_eq, Hc.
Qed.

Lemma reconnect_outcome m s c now1 now2 rc r :
  CM.connections m !! s = Some c ->
  CM.c_reconnectAttempts c < CM.reconnectAttempts (CM.cfg m) ->
  let out := CM.reconnectSession m s now1 now2 rc r in
  match r with
  | Return cl =>
      snd out = Return true /\
      CM.connections (fst out) !! s
        = Some {| CM.c_status := CM.Connected; CM.c_createdAt := CM.c_createdAt c;
                  CM.c_lastActivity := now2; CM.c_reconnectAttempts := 0;
                  CM.c_client := Some cl; CM.c_qrCode := CM.c_qrCode c |}
  | Throw e =>
      snd out = Throw e /\
      CM.connections (fst out) !! s
        = Some (CM.set_status CM.StError
                  (CM.set_reconnectAttempts (CM.c_reconnectAttempts c + 1) c))
  end.
Proof.
  intros Hc Hlt. unfold CM.reconnectSession.
  destruct (reconnect_begin_increments m s c Hc Hlt) as (m1 & -> & Ha & Hm1).
  destruct (closeInstance_removes (CM.adapter m1) s rc) as (a2 & evs2 & b & -> & Hi & Hd).
  rewrite Hd.
  destruct (createInstance_fresh a2 s now2 r Hi) as (a3 & Hcr).
  cbn [CM.adapter CM.with_adapter]. rewrite Hcr.
  destruct r as [cl|e]; cbn.
  - split; [reflexivity|]. now rewrite !lookup_alter_eq, Hm1.
  - split; [reflexivity|]. now rewrite !lookup_alter_eq, Hm1.
Qed.

Lemma instanceConnected_resets now m s c :
  CM.connections m !! s = Some c ->
  CM.c_reconnectAttempts <$> CM.connections (CM.handle now m (InstanceConnected s)) !! s
    = Some 0.
Proof. intros Hc. cbn. now rewrite lookup_alter_eq, Hc. Qed.

End ReconnectSession.

(** C1: the reconnection counter of a session is bounded.  When
    [reconnectSession] is called with [reconnectAttempts >=
    maxReconnectAttempts] it fails with the retry-exhausted error without
    asking the adapter for anything and leaves the status ['error'];
    otherwise it increments the counter before it turns to the adapter,
    and a successful connection (the adapter's [instanceConnected]) resets
    the counter to 0.  Along every run of the manager the counter stays
    within the maximum. *)
Theorem reconnect_counter_bounded m s c :
  CM.connections m !! s = Some c ->
  let max := CM.reconnectAttempts (CM.cfg m) in
  (CM.c_reconnectAttempts c >= max ->
   forall now1 now2 rc r,
     snd (CM.reconnectSession m s now1 now2 rc r) = Throw ErrMaxReconnect /\
     CM.adapter (fst (CM.reconnectSession m s now1 now2 rc r)) = CM.adapter m /\
     CM.getSessionStatus (fst (CM.reconnectSession m s now1 now2 rc r)) s = Some CM.StError /\
     CM.c_reconnectAttempts <$> CM.connections (fst (CM.reconnectSession m s now1 now2 rc r)) !! s
       = Some (CM.c_reconnectAttempts c)) /\
  (CM.c_reconnectAttempts c < max ->
   (exists m1,
      CM.reconnect_begin m s = (m1, Return tt) /\
      CM.adapter m1 = CM.adapter m /\
      CM.c_reconnectAttempts <$> CM.connections m1 !! s = Some (CM.c_reconnectAttempts c + 1)) /\
   (forall now1 now2 rc cl,
      snd (CM.reconnectSession m s now1 now2 rc (Return cl)) = Return true /\
      CM.getSessionStatus (fst (CM.reconnectSession m s now1 now2 rc (Return cl))) s
        = Some CM.Connected /\
      CM.c_reconnectAttempts <$>
        CM.connections (fst (CM.reconnectSession m s now1 now2 rc (Return cl))) !! s = Some 0) /\
   (forall now1 now2 rc e,
      snd (CM.reconnectSession m s now1 now2 rc (Throw e)) = Throw e /\
      CM.getSessionStatus (fst (CM.reconnectSession m s now1 now2 rc (Throw e))) s
        = Some CM.StError /\
      CM.c_reconnectAttempts <$>
        CM.connections (fst (CM.reconnectSession m s now1 now2 rc (Throw e))) !! s
        = Some (CM.c_reconnectAttempts c + 1))) /\
  (forall now,
     CM.c_reconnectAttempts <$>
       CM.connections (CM.handle now m (VenomBotAdapter.InstanceConnected s)) !! s = Some 0) /\
  (0 <= max -> Spec.bounded max (CM.connections m) ->
   forall l, Spec.bounded max (CM.connections (System.mgr_run l m))).
Proof.
  intros Hc max. split; [|split; [|split]].
  - intros Hge now1 now2 rc r.
    destruct (reconnect_exhausted m s c now1 now2 rc r Hc Hge) as (H1 & H2 & H3).
    unfold CM.getSessionStatus. rewrite H3. auto.
  - intros Hlt. split; [|split].
    + destruct (reconnect_begin_increments m s c Hc Hlt) as (m1 & H1 & H2 & H3).
      exists m1. rewrite H3. auto.
    + intros now1 now2 rc cl.
      destruct (reconnect_outcome m s c now1 now2 rc (Return cl) Hc Hlt) as [H1 H2].
      unfold CM.getSessionStatus. rewrite H2. auto.
    + intros now1 now2 rc e.
      destruct (reconnect_outcome m s c now1 now2 rc (Throw e) Hc Hlt) as [H1 H2].
      unfold CM.getSessionStatus. rewrite H2. auto.
  - intros now. now apply instanceConnected_resets with c.
  - intros Hmax Hb l. now apply bounded_mgr_run.
Qed.

Lemma reconnect_counter_bounded_witness :
  CM.c_reconnectAttempts <$>
    CM.connections (CM.handle 5000 Scenario.manager1
                      (VenomBotAdapter.InstanceConnected Scenario.s1)) !! Scenario.s1
  = Some 0.
Proof.
  assert (H : CM.connections Scenario.manager1 !! Scenario.s1
              = Some {| CM.c_status := CM.Connected; CM.c_createdAt := 1000;
                        CM.c_lastActivity := 1000; CM.c_reconnectAttempts := 0;
                        CM.c_client := Some 7%N; CM.c_qrCode := None |})
    by (vm_compute; reflexivity).
  exact (proj1 (proj2 (proj2
    (reconnect_counter_bounded Scenario.manager1 Scenario.s1 _ H))) 5000).
Defined.


(** ** Recipient addresses *)

Section Recipients.

Import VenomBotAdapter.



Lemma includes_digits s :
  List.forallb Js.isDigit s = true -> Js.includes s (Js.lit "@c.us") = false.
Proof.
  induction s as [|c s IH]; [reflexivity|]. cbn [List.forallb].
  intros H. apply andb_true_iff in H as [Hc Hs].
  cbn [Js.includes]. rewrite (IH Hs), orb_false_r.
  change (Js.lit "@c.us") with (64%N :: Js.lit "c.us"). cbn [Js.startsWith].
  destruct (N.eqb_spec c 64) as [->|_]; [discriminate | reflexivity].
Qed.

Lemma filter_isDigit n : List.forallb Js.isDigit (List.filter Js.isDigit n) = true.
Proof.
  apply forallb_forall. intros c Hc. now apply filter_In in Hc.
Qed.

(** [_formatPhoneNumber] computes the normalized address: the test on
    ["@c.us"] is always passed, digits being all there is to test. *)
Lemma formatPhoneNumber_normalized n : MS.formatPhoneNumber n = Spec.normalized n.
Proof.
  unfold MS.formatPhoneNumber, Spec.normalized, Js.replace_non_digits.
  rewrite andb_comm.
  set (d := List.filter Js.isDigit n).
  match goal with
  | |- context [if ?b then ?x else d] => set (e := if b then x else d)
  end.
  assert (He : List.forallb Js.isDigit e = true).
  { subst e. destruct (_ && _); [|apply filter_isDigit].
    change (Js.lit "54") with [53%N; 52%N]. cbn. apply filter_isDigit. }
  now rewrite (includes_digits e He).
Qed.



End Recipients.


(** ** The message store along the life of the sender *)

Section SenderInvariant.

Import Spec.

Lemma inv_same st st' :
  MS.store st' = MS.store st -> MS.next st' = MS.next st -> MS.trace st' = MS.trace st ->
  inv st -> inv st'.
Proof.
  intros Hs Hn Ht (H1 & H2 & H3).
  unfold inv, Spec.fresh, Spec.never_sent_expired, Spec.addresses_normalized.
  rewrite Hs, Hn, Ht. auto.
Qed.

Lemma inv_with_queues f st : inv st -> inv (MS.with_queues f st).
Proof. now apply inv_same. Qed.

Lemma inv_with_limiters f st : inv st -> inv (MS.with_limiters f st).
Proof. now apply inv_same. Qed.

Lemma inv_with_processing f st : inv st -> inv (MS.with_processing f st).
Proof. now apply inv_same. Qed.

Lemma inv_emit e st : inv st -> inv (MS.emit e st).
Proof. now apply inv_same. Qed.

Lemma inv_logged e st : inv st -> inv (MS.logged e st).
Proof. now apply inv_same. Qed.

Lemma inv_checkRateLimit st s now : inv st -> inv (fst (MS.checkRateLimit st s now)).
Proof.
  unfold MS.checkRateLimit. destruct (MS.rateLimiters st !! s) as [l|]; [|auto].
  destruct (now >=? MS.resetAt l); cbn; [apply inv_with_limiters | auto].
Qed.


Lemma keeps_set_status x : keeps (MS.set_status x).
Proof. now intros m. Qed.

Lemma keeps_record_failure e : keeps (MS.record_failure e).
Proof. now intros m. Qed.

Lemma inv_alter f r st : keeps f -> inv st -> inv (MS.with_store (alter f r) st).
Proof.
  intros Hf (H1 & H2 & H3). split; [|split].
  - intros k Hk. cbn. rewrite lookup_alter. case_decide; [subst|]; now rewrite (H1 k Hk).
  - intros k t Hin. cbn in *. destruct (H2 k t Hin) as (m & Hm & Ht).
    rewrite lookup_alter. case_decide; [subst|]; rewrite Hm; cbn.
    + eexists; split; [reflexivity|]. now rewrite (proj1 (Hf m)).
    + eauto.
  - intros k m. cbn. rewrite lookup_alter. case_decide; [subst|]; [|apply H3].
    destruct (MS.store st !! k) as [m0|] eqn:E; [|discriminate].
    intros [= <-]. destruct (Hf m0) as (_ & -> & ->). now apply (H3 k).
Qed.

Lemma inv_traced e st :
  match e with
  | MS.TSending r t => exists m, MS.store st !! r = Some m /\ t <= MS.expiresAt m
  | _ => True
  end ->
  inv st -> inv (MS.traced e st).
Proof.
  intros He (H1 & H2 & H3). split; [exact H1 | split; [|exact H3]].
  intros k t Hin. cbn in *. apply in_app_or in Hin as [Hin|[Heq|[]]]; [auto|].
  subst e. exact He.
Qed.

Lemma inv_alloc m st :
  MS.to m = Spec.normalized (MS.originalTo m) -> inv st -> inv (snd (MS.alloc m st)).
Proof.
  intros Hm (H1 & H2 & H3). split; [|split].
  - intros k Hk. cbn in *. rewrite lookup_insert_ne by lia. apply H1. lia.
  - intros k t Hin. cbn in *. destruct (H2 k t Hin) as (m0 & Hm0 & Ht).
    exists m0. split; [|exact Ht]. rewrite lookup_insert_ne; [exact Hm0|].
    intros <-. rewrite H1 in Hm0 by lia. discriminate.
  - intros k m0. cbn. rewrite lookup_insert. case_decide; [intros [= <-]; exact Hm|].
    apply H3.
Qed.

Lemma inv_recordSentMessage st s now : inv st -> inv (MS.recordSentMessage st s now).
Proof. apply inv_with_limiters. Qed.

Lemma inv_leave s now st : inv st -> inv (MS.leave s now st).
Proof. intros H. apply inv_traced; [exact I|]. now apply inv_with_processing. Qed.

Lemma inv_drain q cm st s now : inv st -> inv (snd (MS.drain q cm st s now)).
Proof.
  revert st. induction q as [|r q IH]; intros st H; cbn [MS.drain].
  - now apply inv_leave.
  - destruct (MS.is_paused st s); [now apply inv_leave|].
    cbn [MS.store MS.with_processing].
    destruct (MS.store st !! r) as [m|] eqn:Hm.
    2:{ apply inv_leave. now apply inv_with_processing. }
    destruct (Z.gtb_spec now (MS.expiresAt m)) as [Hexp|Hok].
    { apply IH. apply inv_with_queues. apply inv_traced; [exact I|].
      now apply inv_with_processing. }
    set (st0 := MS.with_processing _ st).
    assert (H0 : inv st0) by now apply inv_with_processing.
    assert (Hst : forall st1 b,
              (if MS.skipRateLimit m then (st0, true) else MS.checkRateLimit st0 s now)
                = (st1, b) -> inv st1 /\ MS.store st1 = MS.store st).
    { intros st1 b. destruct (MS.skipRateLimit m).
      - intros [= <- <-]. now split.
      - intros E. pose proof (inv_checkRateLimit st0 s now H0) as Hi.
        rewrite E in Hi. split; [exact Hi|].
        unfold MS.checkRateLimit in E. destruct (MS.rateLimiters st0 !! s) as [l|].
        + destruct (now >=? MS.resetAt l); now inversion E.
        + now inversion E. }
    destruct (if MS.skipRateLimit m then _ else _) as [st1 allowed] eqn:E.
    destruct (Hst st1 allowed eq_refl) as [H1 Hs1].
    destruct allowed; cbn [negb].
    + unfold MS.sendQueuedMessage_begin.
      destruct (CM.sendMessage_begin cm s (MS.to m) (MS.body m) now) as [cm1 out].
      cbn [snd]. apply inv_with_processing. apply inv_traced.
      * cbn. rewrite lookup_alter_eq, Hs1, Hm. cbn. eexists. split; [reflexivity|].
        cbn. lia.
      * apply inv_alter; [apply keeps_set_status | exact H1].
    + cbn [snd]. apply inv_with_processing. apply inv_traced; [exact I | exact H1].
Qed.

Lemma inv_processQueue cm st s now : inv st -> inv (snd (MS.processQueue cm st s now)).
Proof.
  intros H. unfold MS.processQueue.
  destruct (MS.messageQueues st !! s) as [q|]; [|now apply inv_with_processing].
  destruct (MS.processingStatus st !! s) as [p|]; [|now apply inv_with_processing].
  destruct (MS.paused p); [now apply inv_with_processing | now apply inv_drain].
Qed.

Lemma inv_startProcessing cm st s now :
  inv st -> inv (snd (MS.startProcessing cm st s now)).
Proof.
  intros H. unfold MS.startProcessing.
  set (st1 := match MS.processingStatus st !! s with Some _ => st | None => _ end).
  assert (H1 : inv st1).
  { subst st1. destruct (MS.processingStatus st !! s); [exact H|].
    now apply inv_with_processing. }
  destruct (MS.processingStatus st1 !! s) as [p|]; [|exact H1].
  destruct (MS.active p || MS.paused p); [exact H1|].
  apply inv_processQueue. now apply inv_with_processing.
Qed.

Lemma inv_send_done cm st s now ans : inv st -> inv (snd (MS.send_done cm st s now ans)).
Proof.
  intros H. unfold MS.send_done.
  destruct (MS.pc_of st s) as [|r settled|]; try exact H.
  destruct (MS.store st !! r) as [m|]; [|exact H].
  match goal with
  | |- context [let '(_, _) := ?x in _] => destruct x as [cm1 [[]|e]]
  end.
  - assert (H2 : inv (if MS.skipRateLimit m
                      then MS.with_store (alter (MS.set_status MS.Sent) r) st
                      else MS.recordSentMessage
                             (MS.with_store (alter (MS.set_status MS.Sent) r) st) s now)).
    { destruct (MS.skipRateLimit m); [|apply inv_recordSentMessage];
        (apply inv_alter; [apply keeps_set_status | exact H]). }
    destruct (MS.delay m >? 0).
    + cbn [snd]. apply inv_with_processing, inv_with_queues, inv_emit.
      apply inv_traced; [exact I | exact H2].
    + apply inv_drain. apply inv_with_queues, inv_emit.
      apply inv_traced; [exact I | exact H2].
  - assert (H2 : inv (MS.with_store (alter (MS.record_failure e) r)
                        (MS.traced (MS.TError r e)
                           (MS.with_store (alter (MS.set_status MS.InError) r) st)))).
    { apply inv_alter; [apply keeps_record_failure|].
      apply inv_traced; [exact I|].
      apply inv_alter; [apply keeps_set_status | exact H]. }
    destruct (MS.attempts m + 1 >=? MS.maxRetries m).
    + apply inv_drain. apply inv_emit, inv_with_queues.
      apply inv_traced; [exact I | exact H2].
    + cbn [snd]. apply inv_with_processing. apply inv_traced; [exact I | exact H2].
Qed.

Lemma inv_timer_fired cm st s now : inv st -> inv (snd (MS.timer_fired cm st s now)).
Proof.
  intros H. unfold MS.timer_fired.
  destruct (MS.pc_of st s); try exact H. now apply inv_drain.
Qed.

Lemma validateInputs_strings sessionId to message s number text :
  MS.validateInputs sessionId to message = Return (s, number, text) ->
  sessionId = Js.Str s /\ to = Js.Str number /\ message = Js.Str text.
Proof.
  unfold MS.validateInputs.
  destruct sessionId as [| | | | |[|c s']|]; try discriminate.
  destruct to as [| | | | |[|d t']|]; try discriminate.
  destruct message as [| | | | |[|e m']|]; try discriminate.
  destruct (Js.jslength (e :: m') >? 4096); [discriminate|].
  intros [= <- <- <-]. auto.
Qed.

Lemma inv_sendMessage cm st sessionId to message o now rnd :
  inv st -> inv (snd (fst (MS.sendMessage cm st sessionId to message o now rnd))).
Proof.
  intros H. unfold MS.sendMessage, MS.sendMessage_catch.
  destruct (negb (MS.isInitialized st)); [now apply inv_emit, inv_logged|].
  destruct (MS.validateInputs sessionId to message) as [[[s number] text]|e];
    [|now apply inv_emit, inv_logged].
  destruct (negb (CM.hasSession cm s)); [now apply inv_emit, inv_logged|].
  destruct (_ >=? _); [now apply inv_emit, inv_logged, inv_with_queues|].
  match goal with
  | |- context [MS.alloc ?m ?x] =>
      pose proof (inv_alloc m x) as Ha; destruct (MS.alloc m x) as [r st2]
  end.
  cbn [snd] in Ha.
  assert (H2 : inv st2).
  { apply Ha; [cbn; apply formatPhoneNumber_normalized | now apply inv_with_queues]. }
  set (st4 := MS.emit _ _).
  assert (H4 : inv st4).
  { subst st4. apply inv_emit. destruct (Js.eqb _ _); now apply inv_with_queues. }
  assert (H5 : inv (snd (MS.startProcessing cm st4 s now)))
    by now apply inv_startProcessing.
  destruct (MS.processingStatus st4 !! s) as [p|].
  - destruct (MS.active p); [exact H4|].
    destruct (MS.startProcessing cm st4 s now). exact H5.
  - destruct (MS.startProcessing cm st4 s now). exact H5.
Qed.

Lemma inv_sendImmediateMessage cm st sessionId to message skip now a :
  inv st ->
  inv (snd (fst (MS.sendImmediateMessage cm st sessionId to message skip now a))).
Proof.
  intros H. unfold MS.sendImmediateMessage, MS.sendImmediateMessage_begin.
  destruct (negb (MS.isInitialized st)); [now apply inv_logged|].
  destruct (MS.validateInputs sessionId to message) as [[[s number] text]|e];
    [|now apply inv_logged].
  assert (H1 : inv (fst (if skip then (st, true) else MS.checkRateLimit st s now))).
  { destruct skip; [exact H | now apply inv_checkRateLimit]. }
  destruct (if skip then (st, true) else MS.checkRateLimit st s now) as [st1 allowed].
  cbn [fst] in H1.
  destruct allowed; cbn [negb]; [|now apply inv_logged].
  destruct (CM.sendMessage_begin cm s (MS.formatPhoneNumber number) text now)
    as [cm1 out].
  unfold MS.sendImmediateMessage_end. cbn [MS.im_settled MS.im_session MS.im_to
    MS.im_body MS.im_skipRateLimit].
  match goal with
  | |- context [let '(_, _) := ?x in _] => destruct x as [cm2 [[]|e]]
  end.
  - cbn [fst snd]. apply inv_emit. destruct skip; [exact H1|].
    now apply inv_recordSentMessage.
  - now apply inv_logged.
Qed.

Lemma inv_resumeSession cm st s now :
  inv st -> inv (snd (fst (MS.resumeSession cm st s now))).
Proof.
  intros H. unfold MS.resumeSession.
  destruct (MS.processingStatus st !! s) as [p|]; [|exact H].
  pose proof (inv_startProcessing cm
                (MS.with_processing (alter (MS.set_paused false) s) st) s now
                (inv_with_processing _ _ H)) as H1.
  destruct (MS.active p).
  - cbn. apply inv_emit. now apply inv_with_processing.
  - destruct (MS.startProcessing _ _ s now) as [cm2 st2]. cbn. now apply inv_emit.
Qed.

Lemma inv_clearQueue st s filter : inv st -> inv (fst (MS.clearQueue st s filter)).
Proof.
  intros H. unfold MS.clearQueue.
  destruct (MS.messageQueues st !! s) as [q|]; [|exact H].
  destruct (Js.eqb filter (Js.lit "all")); [now apply inv_emit, inv_with_queues|].
  destruct (Js.eqb filter (Js.lit "failed")); [now apply inv_emit, inv_with_queues|].
  destruct (Js.eqb filter (Js.lit "pending")); [now apply inv_emit, inv_with_queues|].
  now apply inv_logged.
Qed.

Lemma inv_cleanupExpiredMessages st now : inv st -> inv (MS.cleanupExpiredMessages st now).
Proof.
  intros H. unfold MS.cleanupExpiredMessages.
  destruct (_ >? 0); [apply inv_emit|]; now apply inv_with_queues.
Qed.

Lemma inv_step now a w : inv (snd w) -> inv (snd (System.step now a w)).
Proof.
  destruct w as [cm st]. cbn [snd]. intros H. destruct a; cbn [System.step].
  - exact H.
  - now apply inv_sendMessage.
  - now apply inv_sendImmediateMessage.
  - now apply inv_send_done.
  - now apply inv_timer_fired.
  - unfold MS.pauseSession. destruct (MS.processingStatus st !! s); [|exact H].
    now apply inv_emit, inv_with_processing.
  - now apply inv_resumeSession.
  - now apply inv_clearQueue.
  - now apply inv_cleanupExpiredMessages.
Qed.

Lemma inv_run l w : inv (snd w) -> inv (snd (System.run l w)).
Proof.
  revert w. unfold System.run. induction l as [|[now a] l IH]; intros w H; [exact H|].
  cbn. apply IH. now apply inv_step.
Qed.

Lemma inv_boot c sc : inv (snd (System.boot c sc)).
Proof.
  split; [|split].
  - intros r _. apply lookup_empty.
  - intros r t [].
  - intros r m. cbn. rewrite lookup_empty. discriminate.
Qed.

End SenderInvariant.


(** ** The drain loop, one synchronous run at a time *)

Section DrainLoop.

Lemma queue_shift s st : MS.queue (MS.shift s st) s = tail (MS.queue st s).
Proof.
  unfold MS.queue, MS.shift. cbn. rewrite lookup_alter_eq.
  now destruct (MS.messageQueues st !! s).
Qed.

Lemma dispatched_traced e st :
  System.dispatched (MS.traced e st)
    = System.dispatched st ++ match e with MS.TSending r _ => [r] | _ => [] end.
Proof.
  unfold System.dispatched. cbn. rewrite omap_app. now destruct e.
Qed.

Lemma checkRateLimit_frame st s now :
  let st1 := fst (MS.checkRateLimit st s now) in
  MS.messageQueues st1 = MS.messageQueues st /\ MS.store st1 = MS.store st /\
  MS.trace st1 = MS.trace st /\ MS.processingStatus st1 = MS.processingStatus st /\
  MS.events st1 = MS.events st.
Proof.
  unfold MS.checkRateLimit. destruct (MS.rateLimiters st !! s) as [l|]; [|now cbn].
  now destruct (now >=? MS.resetAt l).
Qed.

(** One run of the loop from its test: it drops the expired messages
    at the head of the array, then either stops there (array empty,
    session paused, rate limit reached) or hands the first message left
    to [_sendQueuedMessage]; that message has not expired. *)
Lemma drain_spec q cm st s now :
  MS.queue st s = q ->
  exists pre rest,
    q = pre ++ rest /\
    (forall x, In x pre -> exists m, MS.store st !! x = Some m /\ now > MS.expiresAt m) /\
    MS.queue (snd (MS.drain q cm st s now)) s = rest /\
    (System.dispatched (snd (MS.drain q cm st s now)) = System.dispatched st \/
     exists r rest' m,
       rest = r :: rest' /\
       MS.store st !! r = Some m /\ now <= MS.expiresAt m /\
       System.dispatched (snd (MS.drain q cm st s now)) = System.dispatched st ++ [r]).
Proof.
  revert st. induction q as [|r q IH]; intros st Hq; cbn [MS.drain].
  - exists [], []. repeat split; [intros x []| exact Hq |left].
    cbn [snd]. unfold MS.leave. now rewrite dispatched_traced, app_nil_r.
  - destruct (MS.is_paused st s).
    { exists [], (r :: q). repeat split; [intros x []| exact Hq |left].
      cbn [snd]. unfold MS.leave. now rewrite dispatched_traced, app_nil_r. }
    cbn [MS.store MS.with_processing].
    destruct (MS.store st !! r) as [m|] eqn:Hm.
    2:{ exists [], (r :: q). repeat split; [intros x []| exact Hq |left].
        cbn [snd]. unfold MS.leave. now rewrite dispatched_traced, app_nil_r. }
    destruct (Z.gtb_spec now (MS.expiresAt m)) as [Hexp|Hok].
    { set (st' := MS.shift s _).
      destruct (IH st') as (pre & rest & E & Hpre & Hrest & Hd).
      { subst st'. rewrite queue_shift. unfold MS.queue in *. cbn. now rewrite Hq. }
      exists (r :: pre), rest. split; [cbn; now rewrite E|].
      split.
      { intros x [<-|Hx]; [eauto with lia|]. apply Hpre in Hx. exact Hx. }
      split; [exact Hrest|].
      assert (Hdisp : System.dispatched st' = System.dispatched st).
      { subst st'. unfold System.dispatched. cbn. rewrite omap_app. cbn.
        now rewrite app_nil_r. }
      rewrite Hdisp in Hd. exact Hd. }
    set (st0 := MS.with_processing _ st).
    assert (Hfr : forall st1 b,
              (if MS.skipRateLimit m then (st0, true) else MS.checkRateLimit st0 s now)
                = (st1, b) ->
              MS.messageQueues st1 = MS.messageQueues st /\ MS.trace st1 = MS.trace st).
    { intros st1 b. destruct (MS.skipRateLimit m).
      - intros [= <- <-]. now split.
      - intros E. destruct (checkRateLimit_frame st0 s now) as (F1 & _ & F3 & _).
        rewrite E in F1, F3. cbn in F1, F3. now split. }
    destruct (if MS.skipRateLimit m then _ else _) as [st1 allowed] eqn:E.
    destruct (Hfr st1 allowed eq_refl) as [Hq1 Ht1].
    exists [], (r :: q). split; [reflexivity|]. split; [intros x []|].
    destruct allowed; cbn [negb].
    + unfold MS.sendQueuedMessage_begin.
      destruct (CM.sendMessage_begin cm s (MS.to m) (MS.body m) now) as [cm1 out].
      cbn [snd]. split.
      * unfold MS.queue in *. cbn. now rewrite Hq1.
      * right. exists r, q, m. repeat split; [exact Hm | lia |].
        unfold System.dispatched. cbn. rewrite omap_app, Ht1. reflexivity.
    + cbn [snd]. split.
      * unfold MS.queue in *. cbn. now rewrite Hq1.
      * left. unfold System.dispatched. cbn. rewrite omap_app, Ht1. cbn.
        now rewrite app_nil_r.
Qed.

Lemma queue_cleanup st s now :
  MS.queue (MS.cleanupExpiredMessages st now) s
    = List.filter (MS.not_expired st now) (MS.queue st s).
Proof.
  unfold MS.cleanupExpiredMessages, MS.queue.
  destruct (_ >? 0); cbn; rewrite lookup_fmap;
    now destruct (MS.messageQueues st !! s).
Qed.

End DrainLoop.

(** C5: a queued message whose [expiresAt] has passed is never
    delivered.  Along every run of the system, whatever was handed to
    [_sendQueuedMessage] was handed over no later than its [expiresAt];
    at every iteration of the drain loop, and whatever the number of
    retries left, an expired message at the head of the queue is dropped
    from the queue and no send is attempted for it; and the periodic
    sweep keeps exactly the messages that have not expired. *)
Theorem expired_message_never_sent :
  (forall l c sc r t,
     In (MS.TSending r t) (MS.trace (snd (System.run l (System.boot c sc)))) ->
     exists m, MS.store (snd (System.run l (System.boot c sc))) !! r = Some m /\
               t <= MS.expiresAt m) /\
  (forall cm st s now r q m,
     MS.queue st s = r :: q ->
     MS.store st !! r = Some m ->
     now > MS.expiresAt m ->
     MS.is_paused st s = false ->
     ~ In r q ->
     let st' := snd (MS.drain (r :: q) cm st s now) in
     ~ In r (MS.queue st' s) /\
     exists D, System.dispatched st' = System.dispatched st ++ D /\ ~ In r D) /\
  (forall st s now,
     MS.queue (MS.cleanupExpiredMessages st now) s
       = List.filter (MS.not_expired st now) (MS.queue st s)).
Proof.
  split; [|split].
  - intros l c sc. apply (proj1 (proj2 (inv_run l (System.boot c sc) (inv_boot c sc)))).
  - intros cm st s now r q m Hq Hm Hexp Hp Hnin. cbn zeta.
    cbn [MS.drain]. rewrite Hp. cbn [MS.store MS.with_processing]. rewrite Hm.
    destruct (Z.gtb_spec now (MS.expiresAt m)); [|lia].
    set (st0 := MS.shift s _).
    destruct (drain_spec q cm st0 s now) as (pre & rest & E & _ & Hrest & Hd).
    { subst st0. rewrite queue_shift. unfold MS.queue in *. cbn. now rewrite Hq. }
    assert (Hdisp : System.dispatched st0 = System.dispatched st).
    { subst st0. unfold System.dispatched. cbn. rewrite omap_app. cbn.
      now rewrite app_nil_r. }
    split.
    + rewrite Hrest. intros Hin. apply Hnin. rewrite E. apply in_or_app. now right.
    + destruct Hd as [Hd|(x & rest' & mx & -> & _ & _ & Hd)].
      * exists []. rewrite Hd, Hdisp, app_nil_r. split; [reflexivity | intros []].
      * exists [x]. rewrite Hd, Hdisp. split; [reflexivity|].
        intros [<-|[]]. apply Hnin. rewrite E. apply in_or_app. right. now left.
  - intros st s now. apply queue_cleanup.
Qed.

Lemma expired_message_never_sent_witness :
  ~ In 0%nat
      (MS.queue (snd (MS.drain [0%nat] (fst Scenario.world2) (snd Scenario.world2)
                        Scenario.s1 3700000)) Scenario.s1).
Proof.
  refine (proj1 (proj1 (proj2 expired_message_never_sent)
                   (fst Scenario.world2) (snd Scenario.world2) Scenario.s1 3700000
                   0%nat [] _ _ _ _ _ (fun H => H))).
  - vm_compute. reflexivity.
  - vm_compute. reflexivity.
  - vm_compute. reflexivity.
  - vm_compute. reflexivity.
Defined.


(** ** The rate limiter *)

Section RateLimiter.

Import VenomBotAdapter.

Lemma checkRateLimit_allows st s now :
  0 < MS.maxMessagesPerMinute (MS.cfg st) ->
  snd (MS.checkRateLimit st s now)
    = (Spec.sentCount st s now <? MS.maxMessagesPerMinute (MS.cfg st)).
Proof.
  intros Hlim. unfold MS.checkRateLimit, Spec.sentCount.
  destruct (MS.rateLimiters st !! s) as [l|].
  - destruct (now >=? MS.resetAt l); cbn; [|reflexivity].
    symmetry. now apply Z.ltb_lt.
  - cbn. symmetry. now apply Z.ltb_lt.
Qed.

Lemma checkRateLimit_rolls_over st s now l :
  MS.rateLimiters st !! s = Some l ->
  MS.checkRateLimit st s now
    = if now >=? MS.resetAt l
      then (MS.with_limiters (insert s {| MS.count := 0; MS.resetAt := now + 60000 |}) st,
            true)
      else (st, MS.count l <? MS.maxMessagesPerMinute (MS.cfg st)).
Proof. intros Hl. unfold MS.checkRateLimit. now rewrite Hl. Qed.

Lemma recordSentMessage_increments st s now :
  MS.rateLimiters (MS.recordSentMessage st s now) !! s
    = Some match MS.rateLimiters st !! s with
           | Some l => {| MS.count := MS.count l + 1; MS.resetAt := MS.resetAt l |}
           | None => {| MS.count := 1; MS.resetAt := now + 60000 |}
           end.
Proof.
  unfold MS.recordSentMessage. cbn. rewrite lookup_insert_eq.
  now destruct (MS.rateLimiters st !! s).
Qed.

(** The manager's [sendMessage] on a session that is ready, when the
    transport answers: it succeeds and the session stays ready. *)
Lemma sendMessage_ready cm s number text now :
  Spec.ready cm s ->
  exists cm1,
    CM.sendMessage_begin cm s number text now = (cm1, Return tt) /\
    exists cm2,
      CM.sendMessage_end cm1 s number text now (Return tt) = (cm2, Return tt) /\
      Spec.ready cm2 s.
Proof.
  intros [(c & Hc & Hst) (i & cl & Hi & Hcl & His)].
  unfold CM.sendMessage_begin. rewrite Hc, Hst.
  rewrite bool_decide_eq_true_2 by reflexivity. cbn [negb].
  unfold sendMessage_begin. cbn [CM.adapter CM.with_connections].
  rewrite Hi, Hcl, His. unfold Js.eqb. rewrite bool_decide_eq_true_2 by reflexivity.
  cbn [negb]. eexists. split; [reflexivity|].
  unfold CM.sendMessage_end, sendMessage_end. cbn.
  eexists. split; [reflexivity|]. split.
  - exists (CM.set_lastActivity now c). cbn. rewrite lookup_alter_eq, Hc. now split.
  - cbn. rewrite lookup_alter_eq, Hi. cbn. eexists _, cl. now repeat split.
Qed.

Variables (sessionId to message : Js.value) (s : sid) (number text : Js.jsstring).
Hypothesis Hvalid : MS.validateInputs sessionId to message = Return (s, number, text).

(** One immediate send with the limiter at [k] of [limit] in an open
    window. *)
Lemma immediate_in_window cm st now k R :
  MS.isInitialized st = true ->
  Spec.ready cm s ->
  MS.rateLimiters st !! s = Some {| MS.count := k; MS.resetAt := R |} ->
  now < R ->
  exists cm' st',
    MS.sendImmediateMessage cm st sessionId to message false now (Return tt)
      = (cm', st', if k <? MS.maxMessagesPerMinute (MS.cfg st)
                   then Return tt else Throw ErrRateLimit) /\
    MS.isInitialized st' = true /\ MS.cfg st' = MS.cfg st /\ Spec.ready cm' s /\
    MS.rateLimiters st' !! s
      = Some {| MS.count := if k <? MS.maxMessagesPerMinute (MS.cfg st) then k + 1 else k;
                MS.resetAt := R |}.
Proof.
  intros Hinit Hready Hl Hnow.
  unfold MS.sendImmediateMessage, MS.sendImmediateMessage_begin.
  rewrite Hinit, Hvalid. cbn [negb].
  rewrite (checkRateLimit_rolls_over st s now _ Hl). cbn [MS.resetAt MS.count].
  destruct (Z.geb_spec now R); [lia|].
  destruct (k <? MS.maxMessagesPerMinute (MS.cfg st)); cbn [negb].
  - destruct (sendMessage_ready cm s (MS.formatPhoneNumber number) text now Hready)
      as (cm1 & -> & cm2 & H2 & Hr2).
    unfold MS.sendImmediateMessage_end. cbn [MS.im_settled MS.im_session MS.im_to
      MS.im_body MS.im_skipRateLimit]. rewrite H2.
    eexists _, _. split; [reflexivity|].
    split; [exact Hinit|]. split; [reflexivity|]. split; [exact Hr2|].
    cbn [MS.rateLimiters MS.emit]. now rewrite recordSentMessage_increments, Hl.
  - eexists _, _. split; [reflexivity|].
    split; [exact Hinit|]. split; [reflexivity|]. split; [exact Hready | exact Hl].
Qed.

(** The first immediate send of a session opens its window. *)
Lemma immediate_first cm st now :
  MS.isInitialized st = true ->
  Spec.ready cm s ->
  MS.rateLimiters st !! s = None ->
  exists cm' st',
    MS.sendImmediateMessage cm st sessionId to message false now (Return tt)
      = (cm', st', Return tt) /\
    MS.isInitialized st' = true /\ MS.cfg st' = MS.cfg st /\ Spec.ready cm' s /\
    MS.rateLimiters st' !! s = Some {| MS.count := 1; MS.resetAt := now + 60000 |}.
Proof.
  intros Hinit Hready Hl.
  unfold MS.sendImmediateMessage, MS.sendImmediateMessage_begin.
  rewrite Hinit, Hvalid. cbn [negb]. unfold MS.checkRateLimit. rewrite Hl. cbn [negb].
  destruct (sendMessage_ready cm s (MS.formatPhoneNumber number) text now Hready)
    as (cm1 & -> & cm2 & H2 & Hr2).
  unfold MS.sendImmediateMessage_end. cbn [MS.im_settled MS.im_session MS.im_to
    MS.im_body MS.im_skipRateLimit]. rewrite H2.
  eexists _, _. split; [reflexivity|].
  split; [exact Hinit|]. split; [reflexivity|]. split; [exact Hr2|].
  cbn [MS.rateLimiters MS.emit]. now rewrite recordSentMessage_increments, Hl.
Qed.

(** Immediate sends in an open window: they succeed until the count
    reaches the limit, and are rejected from there on. *)
Lemma burst_in_window times : forall cm st k R,
  MS.isInitialized st = true ->
  Spec.ready cm s ->
  MS.rateLimiters st !! s = Some {| MS.count := k; MS.resetAt := R |} ->
  (forall t, In t times -> t < R) ->
  0 <= k <= MS.maxMessagesPerMinute (MS.cfg st) ->
  snd (System.immediate_burst cm st sessionId to message times)
    = List.repeat (Return tt)
        (Nat.min (length times) (Z.to_nat (MS.maxMessagesPerMinute (MS.cfg st) - k)))
      ++ List.repeat (Throw ErrRateLimit)
           (length times - Z.to_nat (MS.maxMessagesPerMinute (MS.cfg st) - k)).
Proof.
  induction times as [|t ts IH]; intros cm st k R Hinit Hready Hl Ht Hk; [reflexivity|].
  cbn [System.immediate_burst].
  destruct (immediate_in_window cm st t k R Hinit Hready Hl) as
    (cm' & st' & E & Hinit' & Hcfg & Hready' & Hl'); [apply Ht; now left|].
  rewrite E.
  destruct (Z.ltb_spec k (MS.maxMessagesPerMinute (MS.cfg st))) as [Hlt|Hge].
  - specialize (IH cm' st' (k + 1) R Hinit' Hready' Hl').
    rewrite Hcfg in IH.
    destruct (System.immediate_burst cm' st' sessionId to message ts) as [[cm2 st2] rs].
    cbn [snd] in *. rewrite IH; [|intros; apply Ht; now right|lia].
    replace (Z.to_nat (MS.maxMessagesPerMinute (MS.cfg st) - k))
      with (S (Z.to_nat (MS.maxMessagesPerMinute (MS.cfg st) - (k + 1)))) by lia.
    cbn [length Nat.min Nat.sub List.repeat app]. reflexivity.
  - specialize (IH cm' st' k R Hinit' Hready' Hl').
    rewrite Hcfg in IH.
    destruct (System.immediate_burst cm' st' sessionId to message ts) as [[cm2 st2] rs].
    cbn [snd] in *. rewrite IH; [|intros; apply Ht; now right|lia].
    replace (Z.to_nat (MS.maxMessagesPerMinute (MS.cfg st) - k)) with 0%nat by lia.
    cbn [length]. rewrite !Nat.min_0_r, !Nat.sub_0_r. reflexivity.
Qed.

(** A burst of [limit + 1] immediate sends on a session that has sent
    nothing yet, all within the minute the first one opens. *)
Lemma burst_fresh cm st t0 ts :
  MS.isInitialized st = true ->
  Spec.ready cm s ->
  MS.rateLimiters st !! s = None ->
  0 < MS.maxMessagesPerMinute (MS.cfg st) ->
  Z.of_nat (length ts) = MS.maxMessagesPerMinute (MS.cfg st) ->
  (forall t, In t ts -> t < t0 + 60000) ->
  snd (System.immediate_burst cm st sessionId to message (t0 :: ts))
    = List.repeat (Return tt) (Z.to_nat (MS.maxMessagesPerMinute (MS.cfg st)))
      ++ [Throw ErrRateLimit].
Proof.
  intros Hinit Hready Hl Hlim Hlen Ht.
  cbn [System.immediate_burst].
  destruct (immediate_first cm st t0 Hinit Hready Hl) as
    (cm' & st' & E & Hinit' & Hcfg & Hready' & Hl').
  rewrite E.
  pose proof (burst_in_window ts cm' st' 1 (t0 + 60000) Hinit' Hready' Hl' Ht) as IH.
  rewrite Hcfg in IH.
  destruct (System.immediate_burst cm' st' sessionId to message ts) as [[cm2 st2] rs].
  cbn [snd] in *. rewrite IH by lia.
  set (limit := MS.maxMessagesPerMinute (MS.cfg st)) in *.
  replace (length ts) with (Z.to_nat limit) by lia.
  replace (Z.to_nat limit) with (S (Z.to_nat (limit - 1))) at 3 by lia.
  replace (Nat.min (Z.to_nat limit) (Z.to_nat (limit - 1))) with (Z.to_nat (limit - 1))
    by lia.
  replace (Z.to_nat limit - Z.to_nat (limit - 1))%nat with 1%nat by lia.
  reflexivity.
Qed.

(** The first half of an immediate send, up to its [await], does not
    count: the check may roll the window over, which leaves the count
    of the current window at 0. *)
Lemma sentCount_begin st s' cm sessionId' to' message' skip now :
  Spec.sentCount (snd (fst (MS.sendImmediateMessage_begin cm st sessionId' to' message'
                              skip now))) s' now
    = Spec.sentCount st s' now.
Proof.
  unfold MS.sendImmediateMessage_begin.
  destruct (MS.isInitialized st); cbn [negb]; [|reflexivity].
  destruct (MS.validateInputs sessionId' to' message') as [[[s0 number0] text0]|e];
    [|reflexivity].
  assert (Hc : forall st1 b,
            (if skip then (st, true) else MS.checkRateLimit st s0 now) = (st1, b) ->
            Spec.sentCount st1 s' now = Spec.sentCount st s' now).
  { intros st1 b. destruct skip; [now intros [= <- _]|].
    unfold MS.checkRateLimit.
    destruct (MS.rateLimiters st !! s0) as [l|] eqn:Hl; [|now intros [= <- _]].
    destruct (Z.geb_spec now (MS.resetAt l)) as [Hge|Hlt]; [|now intros [= <- _]].
    intros [= <- _]. unfold Spec.sentCount. cbn.
    destruct (decide (s0 = s')) as [->|Hne].
    - rewrite lookup_insert_eq, Hl. cbn [MS.resetAt MS.count].
      destruct (Z.geb_spec now (now + 60000)); [lia|].
      destruct (Z.geb_spec now (MS.resetAt l)); [reflexivity | lia].
    - now rewrite lookup_insert_ne. }
  destruct (if skip then (st, true) else MS.checkRateLimit st s0 now) as [st1 allowed]
    eqn:E.
  specialize (Hc st1 allowed eq_refl).
  destruct allowed; cbn [negb].
  - destruct (CM.sendMessage_begin cm s0 (MS.formatPhoneNumber number0) text0 now).
    exact Hc.
  - exact Hc.
Qed.

(** The second half counts the send when the transport has accepted
    it, and only then. *)
Lemma limiters_end st cm i now a :
  MS.im_skipRateLimit i = false ->
  MS.rateLimiters (snd (fst (MS.sendImmediateMessage_end cm st i now a)))
    = match snd (MS.sendImmediateMessage_end cm st i now a) with
      | Return _ => MS.rateLimiters (MS.recordSentMessage st (MS.im_session i) now)
      | Throw _ => MS.rateLimiters st
      end.
Proof.
  intros Hskip. unfold MS.sendImmediateMessage_end. rewrite Hskip.
  destruct (match MS.im_settled i with
            | Some e => (cm, Throw e)
            | None => CM.sendMessage_end cm (MS.im_session i) (MS.im_to i)
                        (MS.im_body i) now a
            end) as [cm1 [u|e]]; reflexivity.
Qed.

End RateLimiter.

(** C4, counterexample: the limit of [s1] is two messages a minute.
    Three immediate sends are started at 2000, 2001 and 2002, before the
    transport has answered any of them, and it accepts them at 2100,
    2101 and 2102: the three calls return, three messages went to the
    client within one window, and the count of that window is 3. *)
Lemma overlapping_immediate_sends_exceed_the_limit :
  MS.maxMessagesPerMinute (MS.cfg (snd Scenario.tight_world)) = 2 /\
  snd Scenario.overlapping = [Return tt; Return tt; Return tt] /\
  System.sent_to (fst (fst Scenario.overlapping))
    = [Js.lit "541123456789@c.us"; Js.lit "541123456789@c.us"; Js.lit "541123456789@c.us"] /\
  MS.rateLimiters (snd (fst Scenario.overlapping)) !! Scenario.s1
    = Some {| MS.count := 3; MS.resetAt := 62100 |}.
Proof. vm_compute. auto. Qed.

(** C4, amended: the per-session rate limiter works on a fixed window
    of one minute.  A send is allowed if and only if the count of the
    current window is below the configured limit.  The count goes up by
    one when a send that was allowed has been accepted by the transport:
    the first half of an immediate send, up to its [await], leaves the
    count as it is, and so does a send the transport refuses.  The
    window is opened for 60000 ms and rolled over on the first check at
    or after [resetAt], not before.  And [limit + 1] immediate sends
    within one window, each of them awaited, and accepted by the
    transport, before the next one starts, give [limit] successes
    followed by one rejection; in a window that is open with a count of
    [k], such sends succeed until the count is [limit] and are rejected
    from there on. *)
Theorem rate_limiter_fixed_window st s :
  0 < MS.maxMessagesPerMinute (MS.cfg st) ->
  let limit := MS.maxMessagesPerMinute (MS.cfg st) in
  (forall now, snd (MS.checkRateLimit st s now) = true <-> Spec.sentCount st s now < limit) /\
  (forall now,
     MS.count <$> MS.rateLimiters (MS.recordSentMessage st s now) !! s
       = Some (default 0 (MS.count <$> MS.rateLimiters st !! s) + 1) /\
     MS.resetAt <$> MS.rateLimiters (MS.recordSentMessage st s now) !! s
       = Some (default (now + 60000) (MS.resetAt <$> MS.rateLimiters st !! s))) /\
  (forall cm sessionId to message skip now,
     Spec.sentCount (snd (fst (MS.sendImmediateMessage_begin cm st sessionId to message
                                 skip now))) s now
       = Spec.sentCount st s now) /\
  (forall cm i now a,
     MS.im_session i = s ->
     MS.im_skipRateLimit i = false ->
     MS.rateLimiters (snd (fst (MS.sendImmediateMessage_end cm st i now a)))
       = match snd (MS.sendImmediateMessage_end cm st i now a) with
         | Return _ => MS.rateLimiters (MS.recordSentMessage st s now)
         | Throw _ => MS.rateLimiters st
         end) /\
  (forall now l,
     MS.rateLimiters st !! s = Some l ->
     (MS.resetAt l <= now ->
      MS.rateLimiters (fst (MS.checkRateLimit st s now)) !! s
        = Some {| MS.count := 0; MS.resetAt := now + 60000 |}) /\
     (now < MS.resetAt l -> fst (MS.checkRateLimit st s now) = st)) /\
  (forall cm sessionId to message number text t0 ts,
     MS.validateInputs sessionId to message = Return (s, number, text) ->
     MS.isInitialized st = true ->
     Spec.ready cm s ->
     MS.rateLimiters st !! s = None ->
     Z.of_nat (length ts) = limit ->
     (forall t, In t ts -> t < t0 + 60000) ->
     snd (System.immediate_burst cm st sessionId to message (t0 :: ts))
       = List.repeat (Return tt) (Z.to_nat limit) ++ [Throw ErrRateLimit]) /\
  (forall cm sessionId to message number text times k R,
     MS.validateInputs sessionId to message = Return (s, number, text) ->
     MS.isInitialized st = true ->
     Spec.ready cm s ->
     MS.rateLimiters st !! s = Some {| MS.count := k; MS.resetAt := R |} ->
     (forall t, In t times -> t < R) ->
     0 <= k <= limit ->
     snd (System.immediate_burst cm st sessionId to message times)
       = List.repeat (Return tt) (Nat.min (length times) (Z.to_nat (limit - k)))
         ++ List.repeat (Throw ErrRateLimit) (length times - Z.to_nat (limit - k))).
Proof.
  intros Hlim limit. split; [|split; [|split; [|split; [|split; [|split]]]]].
  - intros now. rewrite checkRateLimit_allows by assumption. apply Z.ltb_lt.
  - intros now. rewrite recordSentMessage_increments.
    destruct (MS.rateLimiters st !! s); now split.
  - intros cm sessionId to message skip now. apply sentCount_begin.
  - intros cm i now a <- Hskip. apply limiters_end. exact Hskip.
  - intros now l Hl. rewrite (checkRateLimit_rolls_over st s now l Hl). split; intros H.
    + destruct (Z.geb_spec now (MS.resetAt l)); [|lia]. cbn. apply lookup_insert_eq.
    + destruct (Z.geb_spec now (MS.resetAt l)); [lia|]. reflexivity.
  - intros cm sessionId to message number text t0 ts Hv Hinit Hready Hl Hlen Ht.
    eapply burst_fresh; eassumption.
  - intros cm sessionId to message number text times k R Hv Hinit Hready Hl Ht Hk.
    eapply burst_in_window; eassumption.
Qed.

(** With a limit of two messages a minute, three immediate sends for
    [s1], each accepted before the next one starts, give two successes
    and a rejection; and once two messages went out, at 2000 and 2100, a
    send is not allowed at 5000. *)
Lemma rate_limiter_fixed_window_witness :
  snd (System.immediate_burst (fst Scenario.tight_world) (snd Scenario.tight_world)
         (Js.Str Scenario.s1) Scenario.recipient Scenario.hello [2000; 2100; 2200])
    = [Return tt; Return tt; Throw ErrRateLimit] /\
  snd (MS.checkRateLimit (snd Scenario.tight_full) Scenario.s1 5000) = false.
Proof.
  split.
  - assert (Hlim : 0 < MS.maxMessagesPerMinute (MS.cfg (snd Scenario.tight_world)))
      by (vm_compute; reflexivity).
    refine (proj1 (proj2 (proj2 (proj2 (proj2 (proj2
              (rate_limiter_fixed_window (snd Scenario.tight_world) Scenario.s1 Hlim))))))
              (fst Scenario.tight_world) (Js.Str Scenario.s1) Scenario.recipient
              Scenario.hello (Js.lit "11 2345-6789") (Js.lit "hola")
              2000 [2100; 2200] _ _ _ _ _ _).
    + vm_compute. reflexivity.
    + vm_compute. reflexivity.
    + split; [eexists; split; vm_compute; reflexivity|].
      eexists _, _. repeat split; vm_compute; reflexivity.
    + vm_compute. reflexivity.
    + vm_compute. reflexivity.
    + intros t [<-|[<-|[]]]; vm_compute; reflexivity.
  - assert (Hlim : 0 < MS.maxMessagesPerMinute (MS.cfg (snd Scenario.tight_full)))
      by (vm_compute; reflexivity).
    pose proof (proj1 (rate_limiter_fixed_window (snd Scenario.tight_full) Scenario.s1 Hlim)
                  5000) as [H _].
    destruct (snd (MS.checkRateLimit (snd Scenario.tight_full) Scenario.s1 5000));
      [|reflexivity].
    specialize (H eq_refl). vm_compute in H. discriminate H.
Defined.


(** ** Where queued and immediate messages are sent *)

Section Delivery.

Import VenomBotAdapter.

Import Spec.











End Delivery.




(** ** Priorities *)

Section Priorities.

Import Spec.

Variables (cm : CM.t) (sessionId : Js.value) (s : sid).









End Priorities.

(** ** The order of the dispatches *)

Section DispatchOrder.

Import Spec.




Variable s : sid.





Variables (q0 before : list MS.ref).










End DispatchOrder.





(** ** Retries *)

(** When nothing else touches the queue, the scenario of the design
    document goes as it says: the transport refuses the message three
    times, [maxRetries] being 3, and the message ends ['failed'], out of
    the queue, with one [messageFailed] notification. *)
Lemma three_refusals_alone :
  let st := snd (System.run Scenario.three_refusals Scenario.world1) in
  MS.maxRetries <$> MS.store st !! 0%nat = Some 3 /\
  MS.attempts <$> MS.store st !! 0%nat = Some 3 /\
  MS.status <$> MS.store st !! 0%nat = Some MS.Failed /\
  MS.queue st Scenario.s1 = [] /\
  System.dispatched st = [0%nat; 0%nat; 0%nat] /\
  System.failure_notices st = [(2000, 11)].
Proof. vm_compute. auto 10. Qed.

(** C2, at the failing input: a high-priority message (object 1) is
    queued while the third attempt of the message 0 is in flight, and the
    transport refuses that attempt too.  [queue.shift()] then takes the
    high-priority message off the queue: the message 0, which has failed
    [maxRetries] times, is still queued and is handed to the transport a
    fourth time; the high-priority message is never sent; and a fourth
    refusal brings a second [messageFailed] notification for the
    message 0. *)
Theorem failed_message_stays_queued_when_head_changes :
  let st := snd (System.run Scenario.three_refusals_and_a_high Scenario.world1) in
  let st' :=
    snd (System.run
           (Scenario.three_refusals_and_a_high
            ++ [(9900, System.SendAnswered Scenario.s1 Scenario.refused)])
           Scenario.world1) in
  MS.maxRetries <$> MS.store st !! 0%nat = Some 3 /\
  MS.attempts <$> MS.store st !! 0%nat = Some 3 /\
  System.failure_notices st = [(2000, 11)] /\
  MS.queue st Scenario.s1 = [0%nat] /\
  MS.pc_of st Scenario.s1 = MS.AwaitSend 0%nat None /\
  System.dispatched st = [0%nat; 0%nat; 0%nat; 0%nat] /\
  MS.status <$> MS.store st' !! 1%nat = Some MS.Queued /\
  MS.queue st' Scenario.s1 = [] /\
  System.dispatched st' = [0%nat; 0%nat; 0%nat; 0%nat] /\
  System.failure_notices st' = [(2000, 11); (2000, 11)].
Proof. vm_compute. auto 12. Qed.


(* ===================================================================== *)
(** * Further properties of the code                                      *)
(* ===================================================================== *)

(** ** The life of a session in the connection manager *)

Section SessionLifeCycle.

Import VenomBotAdapter.

Lemma dom_handle now m ev :
  dom (CM.connections (CM.handle now m ev)) = dom (CM.connections m).
Proof. destruct ev; cbn; try apply dom_alter_L; reflexivity. Qed.

Lemma dom_dispatch now evs : forall m,
  dom (CM.connections (CM.dispatch now m evs)) = dom (CM.connections m).
Proof.
  induction evs as [|ev evs IH]; intros m; [reflexivity|].
  cbn. unfold CM.dispatch in IH. rewrite IH. apply dom_handle.
Qed.

Lemma size_alter (f : CM.connection -> CM.connection) (s : sid)
  (cs : gmap sid CM.connection) : size (alter f s cs) = size cs.
Proof. now rewrite <- !size_dom, dom_alter_L. Qed.

Lemma size_connections_dom m m' :
  dom (CM.connections m') = dom (CM.connections m) ->
  size (CM.connections m') = size (CM.connections m).
Proof. intros E. now rewrite <- !size_dom, E. Qed.

(** The session [createSession] registers when venom-bot gives the
    client [cl] at [now]. *)
Lemma createSession_fresh m s now r :
  CM.isInitialized m = true ->
  CM.validateSessionId (Js.Str s) = Return s ->
  CM.atSessionLimit m = false ->
  CM.connections m !! s = None ->
  instances (CM.adapter m) !! s = None ->
  let out := CM.createSession m (Js.Str s) now r in
  match r with
  | Return cl =>
      snd out = Return s /\
      CM.connections (fst out)
        = <[s := {| CM.c_status := CM.Connected; CM.c_createdAt := now;
                    CM.c_lastActivity := now; CM.c_reconnectAttempts := 0;
                    CM.c_client := Some cl; CM.c_qrCode := None |}]> (CM.connections m) /\
      instances (CM.adapter (fst out))
        = <[s := {| i_client := Some cl; i_status := connected_str; i_qrCode := None;
                    i_lastActivity := now; i_attempts := 0 |}]> (instances (CM.adapter m)) /\
      wire (CM.adapter (fst out)) = wire (CM.adapter m) ++ [WCreate s] /\
      CM.events (fst out)
        = CM.events m ++ [CM.SessionConnected s; CM.SessionCreated s]
  | Throw e =>
      snd out = Throw e /\
      CM.connections (fst out) = CM.connections m /\
      instances (CM.adapter (fst out)) = instances (CM.adapter m) /\
      wire (CM.adapter (fst out)) = wire (CM.adapter m) ++ [WCreate s] /\
      CM.events (fst out)
        = CM.events m ++ [CM.SessionError (Js.Str s) e; CM.SessionError (Js.Str s) e]
  end.
Proof.
  intros Hi Hv Hl Hc Ha. unfold CM.createSession.
  rewrite Hi, Hv, Hl, Hc. cbn [negb].
  unfold createInstance, createInstance_begin. cbn. rewrite Ha.
  destruct r as [cl|e]; cbn.
  - repeat split.
    + now rewrite !alter_insert_eq.
    + now rewrite alter_insert_eq.
    + now rewrite <- app_assoc.
  - repeat split.
    + rewrite delete_alter_eq. now apply delete_insert_id.
    + now apply delete_insert_id.
    + now rewrite <- app_assoc.
Qed.

Lemma createSession_Return_inv m v now r s :
  snd (CM.createSession m v now r) = Return s ->
  v = Js.Str s /\
  CM.isInitialized m = true /\
  CM.validateSessionId (Js.Str s) = Return s /\
  CM.atSessionLimit m = false /\
  CM.connections m !! s = None /\
  instances (CM.adapter m) !! s = None /\
  exists cl, r = Return cl.
Proof.
  unfold CM.createSession.
  destruct (CM.isInitialized m) eqn:Hi; cbn [negb]; [|discriminate].
  destruct (CM.validateSessionId v) as [s'|e] eqn:Hv; [|discriminate].
  destruct (CM.atSessionLimit m) eqn:Hl; [discriminate|].
  destruct (CM.connections m !! s') eqn:Hc; [discriminate|].
  apply validateSessionId_accepts in Hv as Hv'. destruct Hv' as [-> _].
  unfold createInstance, createInstance_begin. cbn.
  destruct (instances (CM.adapter m) !! s') eqn:Ha; cbn; [discriminate|].
  destruct r as [cl|e]; cbn; [|discriminate].
  intros [= <-]. repeat split; try assumption. now exists cl.
Qed.

Lemma createSession_Throw m v now r e :
  snd (CM.createSession m v now r) = Throw e ->
  CM.connections (fst (CM.createSession m v now r)) = CM.connections m /\
  exists evs,
    CM.events (fst (CM.createSession m v now r))
      = CM.events m ++ evs ++ [CM.SessionError v e].
Proof.
  unfold CM.createSession.
  destruct (CM.isInitialized m) eqn:Hi; cbn [negb].
  2:{ cbn. intros [= <-]. split; [reflexivity|]. now exists []. }
  destruct (CM.validateSessionId v) as [s|e'] eqn:Hv.
  2:{ cbn. intros [= <-]. split; [reflexivity|]. now exists []. }
  destruct (CM.atSessionLimit m) eqn:Hl.
  { cbn. intros [= <-]. split; [reflexivity|]. now exists []. }
  destruct (CM.connections m !! s) eqn:Hc.
  { cbn. intros [= <-]. split; [reflexivity|]. now exists []. }
  unfold createInstance, createInstance_begin. cbn.
  destruct (instances (CM.adapter m) !! s) eqn:Ha; cbn.
  - intros [= <-]. split.
    + rewrite delete_alter_eq. now apply delete_insert_id.
    + exists [CM.SessionError (Js.Str s) ErrSessionExists]. now rewrite <- app_assoc.
  - destruct r as [cl|e']; cbn; [discriminate|].
    intros [= ->]. split.
    + rewrite delete_alter_eq. now apply delete_insert_id.
    + exists [CM.SessionError (Js.Str s) e]. now rewrite <- app_assoc.
Qed.

Lemma atSessionLimit_false m :
  CM.atSessionLimit m = false ->
  Z.of_nat (size (CM.connections m)) < CM.maxSessions (CM.cfg m).
Proof. unfold CM.atSessionLimit. rewrite Z.geb_leb. intros H. apply Z.leb_gt in H. lia. Qed.

Lemma size_createSession m v now r :
  Z.of_nat (size (CM.connections m)) <= CM.maxSessions (CM.cfg m) ->
  Z.of_nat (size (CM.connections (fst (CM.createSession m v now r))))
    <= CM.maxSessions (CM.cfg m).
Proof.
  intros H. destruct (snd (CM.createSession m v now r)) as [s|e] eqn:E.
  - apply createSession_Return_inv in E as (-> & Hi & Hv & Hl & Hc & Ha & cl & ->).
    pose proof (createSession_fresh m s now (Return cl) Hi Hv Hl Hc Ha) as (_ & -> & _).
    rewrite map_size_insert_None by assumption.
    apply atSessionLimit_false in Hl. lia.
  - apply createSession_Throw in E as [-> _]. exact H.
Qed.

Lemma size_closeSession m s now rc :
  (size (CM.connections (fst (CM.closeSession m s now rc))) <= size (CM.connections m))%nat.
Proof.
  destruct (CM.connections m !! s) as [c|] eqn:Hc.
  - destruct (closeSession_known m s c now rc Hc) as [_ ->].
    rewrite map_size_delete_Some by eauto. lia.
  - rewrite closeSession_unknown by assumption. reflexivity.
Qed.

Lemma dom_reconnectSession m s now1 now2 rc r :
  dom (CM.connections (fst (CM.reconnectSession m s now1 now2 rc r)))
    = dom (CM.connections m).
Proof.
  unfold CM.reconnectSession, CM.reconnect_begin.
  destruct (CM.reconnect_check m s) as [c|e]; cbn.
  2:{ apply dom_alter_L. }
  destruct (closeInstance _ s rc) as [[a2 evs2] o2].
  destruct (createInstance _ s now2 r) as [[a3 evs3] out].
  destruct out as [cl|e]; cbn.
  - rewrite dom_alter_L, dom_dispatch. cbn. rewrite dom_dispatch. cbn. apply dom_alter_L.
  - rewrite dom_alter_L, dom_dispatch. cbn. rewrite dom_dispatch. cbn. apply dom_alter_L.
Qed.

Lemma size_mgr_step now a m :
  Z.of_nat (size (CM.connections m)) <= CM.maxSessions (CM.cfg m) ->
  Z.of_nat (size (CM.connections (System.mgr_step now a m))) <= CM.maxSessions (CM.cfg m).
Proof.
  intros H. destruct a as [v r|s rc|s later rc r|s q|s st|s st|s]; cbn.
  - now apply size_createSession.
  - pose proof (size_closeSession m s now rc). lia.
  - now rewrite (size_connections_dom m _ (dom_reconnectSession m s now later rc r)).
  - now rewrite size_alter.
  - exact H.
  - now rewrite size_alter.
  - now rewrite size_alter.
Qed.

Lemma size_mgr_run l : forall m,
  Z.of_nat (size (CM.connections m)) <= CM.maxSessions (CM.cfg m) ->
  Z.of_nat (size (CM.connections (System.mgr_run l m))) <= CM.maxSessions (CM.cfg m).
Proof.
  induction l as [|[now a] l IH]; intros m H; [exact H|].
  cbn. unfold System.mgr_run in IH.
  rewrite <- (cfg_mgr_step now a m). apply IH.
  rewrite cfg_mgr_step. now apply size_mgr_step.
Qed.

End SessionLifeCycle.

Section SessionLifeCycleProperties.

Import VenomBotAdapter.

(** X1: the number of sessions never exceeds [maxSessions].  From a
    manager that is within the limit, every run of the manager (calls
    of [createSession], [closeSession] and [reconnectSession], callbacks
    of venom-bot) stays within it; and with [maxSessions] sessions or
    more in the map, [createSession] throws 'Límite máximo de sesiones
    alcanzado' for a well-formed id, registers nothing and asks the
    adapter for nothing. *)
Theorem sessions_within_limit m :
  Z.of_nat (size (CM.connections m)) <= CM.maxSessions (CM.cfg m) ->
  (forall l,
     Z.of_nat (size (CM.connections (System.mgr_run l m))) <= CM.maxSessions (CM.cfg m)) /\
  (forall s now r,
     CM.isInitialized m = true ->
     CM.validateSessionId (Js.Str s) = Return s ->
     CM.maxSessions (CM.cfg m) <= Z.of_nat (size (CM.connections m)) ->
     snd (CM.createSession m (Js.Str s) now r) = Throw ErrSessionLimit /\
     CM.connections (fst (CM.createSession m (Js.Str s) now r)) = CM.connections m /\
     CM.adapter (fst (CM.createSession m (Js.Str s) now r)) = CM.adapter m).
Proof.
  intros H. split.
  - intros l. now apply size_mgr_run.
  - intros s now r Hi Hv Hfull. unfold CM.createSession.
    rewrite Hi, Hv. cbn [negb].
    assert (Hl : CM.atSessionLimit m = true).
    { unfold CM.atSessionLimit. rewrite Z.geb_leb. now apply Z.leb_le. }
    rewrite Hl. cbn. auto.
Qed.

Lemma sessions_within_limit_witness :
  Z.of_nat (size (CM.connections
                    (System.mgr_run
                       [(2000, System.CreateSession (Js.Str (Js.lit "s2")) (Return 8%N))]
                       Scenario.manager1)))
    <= CM.maxSessions (CM.cfg Scenario.manager1).
Proof.
  assert (H : Z.of_nat (size (CM.connections Scenario.manager1))
              <= CM.maxSessions (CM.cfg Scenario.manager1))
    by (apply Z.leb_le; vm_compute; reflexivity).
  exact (proj1 (sessions_within_limit Scenario.manager1 H) _).
Defined.

(** X2: a call of [createSession] that fails, for whatever reason,
    leaves the map of sessions exactly as it was (a session whose
    client could not be created is taken out again), and the last event
    it emits is [sessionError] with the argument it was called with and
    the error it throws. *)
Theorem createSession_failure_registers_nothing m v now r e :
  snd (CM.createSession m v now r) = Throw e ->
  CM.connections (fst (CM.createSession m v now r)) = CM.connections m /\
  exists evs,
    CM.events (fst (CM.createSession m v now r))
      = CM.events m ++ evs ++ [CM.SessionError v e].
Proof. apply createSession_Throw. Qed.

Lemma createSession_failure_registers_nothing_witness :
  CM.connections (fst (CM.createSession Scenario.manager1 (Js.Str Scenario.s1) 2000
                         (Return 8%N)))
    = CM.connections Scenario.manager1.
Proof.
  assert (H : snd (CM.createSession Scenario.manager1 (Js.Str Scenario.s1) 2000
                     (Return 8%N)) = Throw ErrSessionExists)
    by (vm_compute; reflexivity).
  exact (proj1 (createSession_failure_registers_nothing _ _ _ _ _ H)).
Defined.

(** X3: when venom-bot fails to create the client of a new session (a
    well-formed id, unknown to the manager and to the adapter, below the
    limit), [createSession] throws venom-bot's error, the session is
    neither in the manager's map nor among the adapter's instances
    afterwards, and [sessionError] is emitted twice for the one failure:
    by the listener of the adapter's [instanceError] and by the [catch]
    of [createSession]. *)
Theorem createSession_rolls_back_when_venom_fails m s now e :
  CM.isInitialized m = true ->
  CM.validateSessionId (Js.Str s) = Return s ->
  Z.of_nat (size (CM.connections m)) < CM.maxSessions (CM.cfg m) ->
  CM.connections m !! s = None ->
  instances (CM.adapter m) !! s = None ->
  let m' := fst (CM.createSession m (Js.Str s) now (Throw e)) in
  snd (CM.createSession m (Js.Str s) now (Throw e)) = Throw e /\
  CM.connections m' = CM.connections m /\
  instances (CM.adapter m') = instances (CM.adapter m) /\
  wire (CM.adapter m') = wire (CM.adapter m) ++ [WCreate s] /\
  CM.events m'
    = CM.events m ++ [CM.SessionError (Js.Str s) e; CM.SessionError (Js.Str s) e].
Proof.
  intros Hi Hv Hl Hc Ha.
  apply (createSession_fresh m s now (Throw e)); try assumption.
  unfold CM.atSessionLimit. rewrite Z.geb_leb. apply Z.leb_gt. lia.
Qed.

Lemma createSession_rolls_back_when_venom_fails_witness :
  CM.connections (fst (CM.createSession Scenario.manager0 (Js.Str Scenario.s1) 1000
                         (Throw (ErrExternal 1))))
    = CM.connections Scenario.manager0.
Proof.
  assert (H1 : CM.isInitialized Scenario.manager0 = true) by (vm_compute; reflexivity).
  assert (H2 : CM.validateSessionId (Js.Str Scenario.s1) = Return Scenario.s1)
    by (vm_compute; reflexivity).
  assert (H3 : Z.of_nat (size (CM.connections Scenario.manager0))
               < CM.maxSessions (CM.cfg Scenario.manager0)) by (vm_compute; reflexivity).
  assert (H4 : CM.connections Scenario.manager0 !! Scenario.s1 = None)
    by (vm_compute; reflexivity).
  assert (H5 : instances (CM.adapter Scenario.manager0) !! Scenario.s1 = None)
    by (vm_compute; reflexivity).
  exact (proj1 (proj2 (createSession_rolls_back_when_venom_fails
                         Scenario.manager0 Scenario.s1 1000 (ErrExternal 1)
                         H1 H2 H3 H4 H5))).
Defined.

End SessionLifeCycleProperties.

(** ** [createSession] across its [await] *)

Section CreateSessionAwait.

Import VenomBotAdapter.

(** [createSession] is its two halves, when nothing runs in between
    and the clock does not move. *)
Lemma createSession_halves m v now r :
  CM.createSession m v now r
    = match CM.createSession_begin m v now with
      | (m1, Throw e) => (m1, Throw e)
      | (m1, Return s) => CM.createSession_end m1 s now r
      end.
Proof.
  unfold CM.createSession, CM.createSession_begin, CM.createSession_end.
  destruct (CM.isInitialized m); cbn [negb]; [|reflexivity].
  destruct (CM.validateSessionId v) as [s|e] eqn:Hv; [|reflexivity].
  apply validateSessionId_accepts in Hv as [-> _].
  destruct (CM.atSessionLimit m); [reflexivity|].
  destruct (CM.connections m !! s); [reflexivity|].
  unfold createInstance, createInstance_begin. cbn.
  destruct (instances (CM.adapter m) !! s); cbn; [reflexivity|].
  destruct r as [cl|e]; reflexivity.
Qed.

(** A call that is suspended has passed the guards and registered the
    session, in the manager and in the adapter. *)
Lemma createSession_begin_Return m v now s :
  snd (CM.createSession_begin m v now) = Return s ->
  v = Js.Str s /\ CM.connections m !! s = None /\
  CM.connections (fst (CM.createSession_begin m v now))
    = <[s := {| CM.c_status := CM.Creating; CM.c_createdAt := now;
                CM.c_lastActivity := now; CM.c_reconnectAttempts := 0;
                CM.c_client := None; CM.c_qrCode := None |}]> (CM.connections m) /\
  instances (CM.adapter (fst (CM.createSession_begin m v now)))
    = <[s := {| i_client := None; i_status := Js.lit "initializing"; i_qrCode := None;
                i_lastActivity := now; i_attempts := 0 |}]> (instances (CM.adapter m)).
Proof.
  unfold CM.createSession_begin.
  destruct (CM.isInitialized m); cbn [negb]; [|discriminate].
  destruct (CM.validateSessionId v) as [s'|e] eqn:Hv; [|discriminate].
  apply validateSessionId_accepts in Hv as [-> _].
  destruct (CM.atSessionLimit m); [discriminate|].
  destruct (CM.connections m !! s') eqn:Hc; [discriminate|].
  unfold createInstance_begin. cbn.
  destruct (instances (CM.adapter m) !! s'); cbn; [discriminate|].
  intros [= <-]. now repeat split.
Qed.

Lemma creating_begin m v now s :
  snd (CM.createSession_begin m v now) = Return s ->
  Spec.creating now (fst (CM.createSession_begin m v now)) s.
Proof.
  intros E. apply createSession_begin_Return in E as (_ & _ & E1 & E2).
  eexists _, _. rewrite E1, E2, !lookup_insert_eq. now repeat split.
Qed.

Lemma creating_alter t m s f s' :
  (forall c, CM.c_createdAt (f c) = CM.c_createdAt c /\
             CM.c_reconnectAttempts (f c) = CM.c_reconnectAttempts c) ->
  Spec.creating t m s -> Spec.creating t (CM.with_connections (alter f s') m) s.
Proof.
  intros Hf (c & i & Hc & Ht & Hn & Hi).
  destruct (decide (s' = s)) as [->|Hne].
  - exists (f c), i. cbn. rewrite lookup_alter_eq, Hc.
    destruct (Hf c) as [-> ->]. now repeat split.
  - exists c, i. cbn. rewrite lookup_alter_ne by assumption. now repeat split.
Qed.

Lemma creating_instances t m s f s' :
  Spec.creating t m s ->
  Spec.creating t (CM.with_adapter (with_instances (alter f s') (CM.adapter m)) m) s.
Proof.
  intros (c & i & Hc & Ht & Hn & Hi).
  destruct (decide (s' = s)) as [->|Hne].
  - exists c, (f i). cbn. rewrite lookup_alter_eq, Hi. now repeat split.
  - exists c, i. cbn. rewrite lookup_alter_ne by assumption. now repeat split.
Qed.

Lemma creating_emit t m s e : Spec.creating t m s -> Spec.creating t (CM.emit e m) s.
Proof. intros H. exact H. Qed.

(** The callbacks of venom-bot leave a suspended call where it is. *)
Lemma creating_callback t m s now a :
  System.is_callback a = true ->
  Spec.creating t m s -> Spec.creating t (System.mgr_step now a m) s.
Proof.
  intros Ha H. destruct a as [| | |s' q|s' st|s' st|s']; try discriminate; cbn.
  - apply creating_alter; [now intros c|].
    apply creating_emit. now apply creating_instances.
  - unfold updateInstanceStatus. now apply creating_instances.
  - apply creating_alter; [now intros c|].
    apply creating_emit. unfold updateInstanceStatus. now apply creating_instances.
  - apply creating_alter; [now intros c|]. exact H.
Qed.

Lemma creating_callbacks t s cbs : forall m,
  Forall (fun x => System.is_callback (snd x) = true) cbs ->
  Spec.creating t m s -> Spec.creating t (System.mgr_run cbs m) s.
Proof.
  induction cbs as [|[now a] cbs IH]; intros m Hcbs H; [exact H|].
  inversion Hcbs as [|? ? Ha Hrest]; subst. cbn in Ha.
  change (System.mgr_run ((now, a) :: cbs) m)
    with (System.mgr_run cbs (System.mgr_step now a m)).
  apply IH; [exact Hrest|]. now apply creating_callback.
Qed.

(** The second half, when venom-bot gives a client. *)
Lemma createSession_end_Return t m s now cl c :
  CM.connections m !! s = Some c ->
  CM.c_createdAt c = t ->
  CM.c_reconnectAttempts c = 0 ->
  is_Some (instances (CM.adapter m) !! s) ->
  let out := CM.createSession_end m s now (Return cl) in
  snd out = Return s /\
  CM.connections (fst out)
    = <[s := {| CM.c_status := CM.Connected; CM.c_createdAt := t;
                CM.c_lastActivity := now; CM.c_reconnectAttempts := 0;
                CM.c_client := Some cl; CM.c_qrCode := CM.c_qrCode c |}]>
        (CM.connections m) /\
  Spec.ready (fst out) s.
Proof.
  intros Hc Ht Hn [i Hi]. cbn zeta. unfold CM.createSession_end, createInstance_end. cbn.
  split; [reflexivity|].
  assert (E : alter (fun c0 => CM.set_lastActivity now
                                 (CM.set_status CM.Connected (CM.set_client (Some cl) c0))) s
                (alter (fun c0 => CM.set_reconnectAttempts 0
                                    (CM.set_lastActivity now
                                       (CM.set_status CM.Connected c0))) s
                   (CM.connections m))
              = <[s := {| CM.c_status := CM.Connected; CM.c_createdAt := t;
                          CM.c_lastActivity := now; CM.c_reconnectAttempts := 0;
                          CM.c_client := Some cl; CM.c_qrCode := CM.c_qrCode c |}]>
                  (CM.connections m)).
  { apply map_eq. intros j. destruct (decide (j = s)) as [->|Hne].
    - rewrite !lookup_alter_eq, lookup_insert_eq, Hc. cbn.
      unfold CM.set_lastActivity, CM.set_status, CM.set_client, CM.set_reconnectAttempts.
      cbn. now rewrite Ht.
    - now rewrite !lookup_alter_ne, lookup_insert_ne by congruence. }
  split; [exact E|]. split.
  - eexists. cbn. rewrite E, lookup_insert_eq. now split.
  - eexists _, cl. cbn. rewrite lookup_alter_eq, Hi. cbn. now repeat split.
Qed.

(** X4: what a [createSession] that returns has done, whatever
    venom-bot reported while it waited for the client.  The call was
    made at [now1] with a string that was no session yet; the
    callbacks [cbs] of venom-bot (pairing codes, states, messages, of
    this session or of others) ran during its [await]; the client
    arrived at [now2].  Then the session is in the map with status
    ['connected'], that client, no reconnection attempt, [createdAt]
    the time of the call and [lastActivity] the time the client
    arrived, and with the pairing code the callbacks left, if any; the
    other sessions are as the callbacks left them; and the session is
    ready: manager and adapter both hold it connected. *)
Theorem createSession_connects m v now1 cbs now2 r s s' :
  snd (CM.createSession_begin m v now1) = Return s ->
  Forall (fun x => System.is_callback (snd x) = true) cbs ->
  let m2 := System.mgr_run cbs (fst (CM.createSession_begin m v now1)) in
  let m3 := fst (CM.createSession_end m2 s now2 r) in
  snd (CM.createSession_end m2 s now2 r) = Return s' ->
  s' = s /\ v = Js.Str s /\ CM.connections m !! s = None /\
  exists cl c2,
    r = Return cl /\
    CM.connections m2 !! s = Some c2 /\
    CM.connections m3
      = <[s := {| CM.c_status := CM.Connected; CM.c_createdAt := now1;
                  CM.c_lastActivity := now2; CM.c_reconnectAttempts := 0;
                  CM.c_client := Some cl; CM.c_qrCode := CM.c_qrCode c2 |}]>
          (CM.connections m2) /\
    Spec.ready m3 s.
Proof.
  intros Hb Hcbs m2 m3 He.
  pose proof (creating_begin m v now1 s Hb) as H1.
  pose proof (creating_callbacks now1 s cbs _ Hcbs H1) as (c2 & i & Hc & Ht & Hn & Hi).
  fold m2 in Hc, Hi.
  apply createSession_begin_Return in Hb as (Hv & Hnone & _).
  destruct r as [cl|e].
  - destruct (createSession_end_Return now1 m2 s now2 cl c2 Hc Ht Hn (mk_is_Some _ _ Hi))
      as (R1 & R2 & R3).
    rewrite R1 in He. injection He as <-.
    split; [reflexivity|]. split; [exact Hv|]. split; [exact Hnone|].
    exists cl, c2. split; [reflexivity|]. split; [exact Hc|]. split; [exact R2 | exact R3].
  - unfold CM.createSession_end, createInstance_end in He. cbn in He. discriminate.
Qed.

(** [createSession('s1')] is called at 1000; venom-bot shows a pairing
    code at 1500 and gives the client 7 at 9000. *)
Lemma createSession_connects_witness :
  CM.connections
    (fst (CM.createSession_end
            (System.mgr_run Scenario.pairing
               (fst (CM.createSession_begin Scenario.manager0 (Js.Str Scenario.s1) 1000)))
            Scenario.s1 9000 (Return 7%N))) !! Scenario.s1
    = Some {| CM.c_status := CM.Connected; CM.c_createdAt := 1000;
              CM.c_lastActivity := 9000; CM.c_reconnectAttempts := 0;
              CM.c_client := Some 7%N; CM.c_qrCode := Some Scenario.qr_data |}.
Proof.
  assert (Hb : snd (CM.createSession_begin Scenario.manager0 (Js.Str Scenario.s1) 1000)
               = Return Scenario.s1) by (vm_compute; reflexivity).
  assert (Hcbs : Forall (fun x => System.is_callback (snd x) = true) Scenario.pairing)
    by (repeat constructor).
  assert (He : snd (CM.createSession_end
                      (System.mgr_run Scenario.pairing
                         (fst (CM.createSession_begin Scenario.manager0
                                 (Js.Str Scenario.s1) 1000)))
                      Scenario.s1 9000 (Return 7%N)) = Return Scenario.s1)
    by (vm_compute; reflexivity).
  destruct (createSession_connects _ _ _ _ _ _ _ _ Hb Hcbs He)
    as (_ & _ & _ & cl & c2 & Hr & Hc & E & _).
  injection Hr as <-. rewrite E, lookup_insert_eq. f_equal.
  vm_compute in Hc. injection Hc as <-. reflexivity.
Defined.

End CreateSessionAwait.


(** ** Sending through the connection manager *)

Section ManagerSend.

Import VenomBotAdapter.

(** What [sendMessage] does for a session that is ready. *)
Lemma sendMessage_begin_ready m s c i cl number message now :
  CM.connections m !! s = Some c -> CM.c_status c = CM.Connected ->
  instances (CM.adapter m) !! s = Some i -> i_client i = Some cl ->
  i_status i = connected_str ->
  CM.sendMessage_begin m s number message now
    = (CM.with_adapter
         (call (WSendText cl (if Js.includes number suffix_c_us then number
                              else number ++ suffix_c_us) message) (CM.adapter m))
         (CM.with_connections (alter (CM.set_lastActivity now) s) m),
       Return tt).
Proof.
  intros Hc Hs Hi Hcl Hst. unfold CM.sendMessage_begin. rewrite Hc, Hs.
  rewrite bool_decide_eq_true_2 by reflexivity. cbn [negb].
  unfold sendMessage_begin. cbn. rewrite Hi, Hcl, Hst.
  unfold Js.eqb. rewrite bool_decide_eq_true_2 by reflexivity. reflexivity.
Qed.

(** X5: [sendMessage] of the connection manager hands a message to the
    venom-bot client exactly when the session is ready (the manager has
    it with status ['connected'] and the adapter holds a client for it,
    with status ['connected']); the address is the number, followed by
    "@c.us" unless it contains it.  Otherwise nothing reaches the
    client, the call throws one of the four errors of the two guards and
    [messageError] is emitted with it. *)
Theorem sendMessage_only_when_ready m s number message now :
  let out := CM.sendMessage_begin m s number message now in
  let address := if Js.includes number suffix_c_us then number else number ++ suffix_c_us in
  (Spec.ready m s ->
   snd out = Return tt /\
   exists cl, wire (CM.adapter (fst out))
              = wire (CM.adapter m) ++ [WSendText cl address message]) /\
  (~ Spec.ready m s ->
   exists e,
     snd out = Throw e /\
     (e = ErrSessionNotFound \/ e = ErrSessionNotConnected \/
      e = ErrInstanceUnavailable \/ e = ErrInstanceNotConnected) /\
     wire (CM.adapter (fst out)) = wire (CM.adapter m) /\
     CM.events (fst out) = CM.events m ++ [CM.MessageError s number e]).
Proof.
  cbn zeta. split.
  - intros [(c & Hc & Hs) (i & cl & Hi & Hcl & Hst)].
    rewrite (sendMessage_begin_ready m s c i cl) by assumption.
    split; [reflexivity|]. now exists cl.
  - intros Hn. unfold CM.sendMessage_begin.
    destruct (CM.connections m !! s) as [c|] eqn:Hc.
    2:{ exists ErrSessionNotFound. cbn. repeat split; auto. }
    destruct (bool_decide (CM.c_status c = CM.Connected)) eqn:Hs; cbn [negb].
    2:{ exists ErrSessionNotConnected. cbn. repeat split; auto. }
    apply bool_decide_eq_true in Hs.
    unfold sendMessage_begin. cbn -[connected_str suffix_c_us Js.includes].
    destruct (instances (CM.adapter m) !! s) as [i|] eqn:Hi.
    2:{ exists ErrInstanceUnavailable. cbn. repeat split; auto. }
    destruct (i_client i) as [cl|] eqn:Hcl.
    2:{ exists ErrInstanceUnavailable. cbn. repeat split; auto. }
    unfold Js.eqb. destruct (bool_decide (i_status i = connected_str)) eqn:Hst; cbn [negb].
    2:{ exists ErrInstanceNotConnected. cbn. repeat split; auto. }
    apply bool_decide_eq_true in Hst.
    exfalso. apply Hn. split; [now exists c | now exists i, cl].
Qed.

Lemma sendMessage_only_when_ready_witness :
  snd (CM.sendMessage_begin Scenario.manager1 Scenario.s1 (Js.lit "5491123456789")
         (Js.lit "hola") 2000) = Return tt.
Proof.
  assert (H : Spec.ready Scenario.manager1 Scenario.s1).
  { split.
    - eexists. split; [vm_compute; reflexivity | reflexivity].
    - eexists _, _. split; [vm_compute; reflexivity|]. split; reflexivity. }
  exact (proj1 (proj1 (sendMessage_only_when_ready Scenario.manager1 Scenario.s1
                         (Js.lit "5491123456789") (Js.lit "hola") 2000) H)).
Defined.

(** X6: a state reported by venom-bot cuts a session off.  After the
    [onStateChange] or the [statusFind] callback of a ready session
    reports a state other than the string ['connected'], the manager
    still gives the session as ['connected'], and every [sendMessage]
    for it throws 'Instancia ... no está conectada' without reaching the
    client. *)
Theorem reported_state_blocks_sending m s st now :
  Spec.ready m s ->
  st <> connected_str ->
  forall a, a = System.StateChanged s st \/ a = System.StatusFound s st ->
  let m1 := System.mgr_step now a m in
  CM.getSessionStatus m1 s = Some CM.Connected /\
  forall number message now',
    snd (CM.sendMessage_begin m1 s number message now') = Throw ErrInstanceNotConnected /\
    wire (CM.adapter (fst (CM.sendMessage_begin m1 s number message now')))
      = wire (CM.adapter m1).
Proof.
  intros [(c & Hc & Hs) (i & cl & Hi & Hcl & Hst)] Hne a Ha. cbn zeta.
  assert (Hm1 : exists c1 i1,
            CM.connections (System.mgr_step now a m) !! s = Some c1 /\
            CM.c_status c1 = CM.Connected /\
            instances (CM.adapter (System.mgr_step now a m)) !! s = Some i1 /\
            i_client i1 = Some cl /\ i_status i1 = st).
  { destruct Ha as [-> | ->]; cbn.
    - eexists _, _. rewrite !lookup_alter_eq, Hc, Hi. cbn.
      repeat split; assumption.
    - eexists _, _. rewrite !lookup_alter_eq, Hc, Hi. cbn.
      repeat split; assumption. }
  destruct Hm1 as (c1 & i1 & Hc1 & Hs1 & Hi1 & Hcl1 & Hst1). split.
  - unfold CM.getSessionStatus. now rewrite Hc1, <- Hs1.
  - intros number message now'. unfold CM.sendMessage_begin. rewrite Hc1, Hs1.
    rewrite bool_decide_eq_true_2 by reflexivity. cbn [negb].
    unfold sendMessage_begin. cbn -[connected_str]. rewrite Hi1, Hcl1.
    unfold Js.eqb. rewrite bool_decide_eq_false_2 by congruence. cbn. auto.
Qed.

Lemma reported_state_blocks_sending_witness :
  snd (CM.sendMessage_begin
         (System.mgr_step 1500 (System.StateChanged Scenario.s1 (Js.lit "CONNECTED"))
            Scenario.manager1)
         Scenario.s1 (Js.lit "5491123456789") (Js.lit "hola") 2000)
    = Throw ErrInstanceNotConnected.
Proof.
  assert (H : Spec.ready Scenario.manager1 Scenario.s1).
  { split.
    - eexists. split; [vm_compute; reflexivity | reflexivity].
    - eexists _, _. split; [vm_compute; reflexivity|]. split; reflexivity. }
  assert (Hne : Js.lit "CONNECTED" <> connected_str) by (vm_compute; discriminate).
  exact (proj1 (proj2 (reported_state_blocks_sending Scenario.manager1 Scenario.s1
                         (Js.lit "CONNECTED") 1500 H Hne _ (or_introl eq_refl))
                  (Js.lit "5491123456789") (Js.lit "hola") 2000)).
Defined.

(** X7: closing a session frees its id and its place.  When
    [closeSession] returns [true] for a session of a manager within the
    limit, the session is reported ['not_found'], one session less is
    counted, a [sendMessage] for it throws 'Sesión ... no encontrada',
    and [createSession] with the same (well-formed) id goes through
    again as soon as venom-bot gives a client. *)
Theorem closed_session_can_be_created_again m s now rc :
  CM.isInitialized m = true ->
  CM.validateSessionId (Js.Str s) = Return s ->
  Z.of_nat (size (CM.connections m)) <= CM.maxSessions (CM.cfg m) ->
  snd (CM.closeSession m s now rc) = Return true ->
  let m1 := fst (CM.closeSession m s now rc) in
  CM.getSessionStatus m1 s = None /\
  S (size (CM.connections m1)) = size (CM.connections m) /\
  (forall number message now',
     snd (CM.sendMessage_begin m1 s number message now') = Throw ErrSessionNotFound) /\
  (forall now' cl, snd (CM.createSession m1 (Js.Str s) now' (Return cl)) = Return s).
Proof.
  intros Hi Hv Hsz Hr. cbn zeta.
  destruct (CM.connections m !! s) as [c|] eqn:Hc.
  2:{ rewrite closeSession_unknown in Hr by assumption. discriminate. }
  destruct (closeSession_known m s c now rc Hc) as [_ Hd].
  assert (Hsize : S (size (CM.connections (fst (CM.closeSession m s now rc))))
                  = size (CM.connections m)).
  { rewrite Hd, map_size_delete_Some by eauto.
    destruct (size (CM.connections m)) eqn:E; [|reflexivity].
    apply map_size_empty_iff in E. rewrite E, lookup_empty in Hc. discriminate. }
  assert (Hlk : CM.connections (fst (CM.closeSession m s now rc)) !! s = None).
  { rewrite Hd. apply lookup_delete_eq. }
  assert (Hinit : CM.isInitialized (fst (CM.closeSession m s now rc)) = true
                  /\ CM.cfg (fst (CM.closeSession m s now rc)) = CM.cfg m
                  /\ instances (CM.adapter (fst (CM.closeSession m s now rc))) !! s = None).
  { unfold CM.closeSession, CM.closeSession_begin. rewrite Hc.
    unfold closeInstance. cbn.
    destruct (instances (CM.adapter m) !! s) as [i|] eqn:Ha; cbn.
    - repeat split; try assumption. destruct (i_client i); [destruct rc|]; cbn;
        apply lookup_delete_eq.
    - repeat split; assumption. }
  destruct Hinit as (Hi1 & Hcfg & Ha1).
  split; [unfold CM.getSessionStatus; now rewrite Hlk|].
  split; [exact Hsize|]. split.
  - intros number message now'. unfold CM.sendMessage_begin. now rewrite Hlk.
  - intros now' cl.
    apply (createSession_fresh _ s now' (Return cl)); try assumption.
    unfold CM.atSessionLimit. rewrite Hcfg, Z.geb_leb. apply Z.leb_gt. lia.
Qed.

Lemma closed_session_can_be_created_again_witness :
  snd (CM.createSession (fst (CM.closeSession Scenario.manager1 Scenario.s1 2000 (Return tt)))
         (Js.Str Scenario.s1) 3000 (Return 8%N)) = Return Scenario.s1.
Proof.
  assert (H1 : CM.isInitialized Scenario.manager1 = true) by (vm_compute; reflexivity).
  assert (H2 : CM.validateSessionId (Js.Str Scenario.s1) = Return Scenario.s1)
    by (vm_compute; reflexivity).
  assert (H3 : Z.of_nat (size (CM.connections Scenario.manager1))
               <= CM.maxSessions (CM.cfg Scenario.manager1))
    by (apply Z.leb_le; vm_compute; reflexivity).
  assert (H4 : snd (CM.closeSession Scenario.manager1 Scenario.s1 2000 (Return tt))
               = Return true) by (vm_compute; reflexivity).
  exact (proj2 (proj2 (proj2 (closed_session_can_be_created_again
                                Scenario.manager1 Scenario.s1 2000 (Return tt)
                                H1 H2 H3 H4))) 3000 8%N).
Defined.

End ManagerSend.


(** ** The facade and the session store *)

Section Facade.

(** The facade refuses to create a session the session store holds. *)
Lemma facade_create_existing w v s now io1 io2 r :
  WA.isInitialized w = true ->
  WA.isRunning w = true ->
  SessionStore.isInitialized (WA.sessionStore w) = true ->
  SessionStore.validateSessionId v = Return s ->
  is_Some (SessionStore.sessionsCache (WA.sessionStore w) !! s) ->
  snd (WA.createSession w v now io1 io2 r) = Throw ErrSessionExists.
Proof.
  intros Hi Hr Hsi Hv [d Hd]. unfold WA.createSession. rewrite Hi, Hr. cbn [negb].
  unfold SessionStore.createSession. rewrite Hsi, Hv, Hd. reflexivity.
Qed.

Lemma facade_close_running w s now rc io :
  WA.isRunning (fst (WA.closeSession w s now rc io)) = WA.isRunning w.
Proof.
  unfold WA.closeSession.
  destruct (WA.isInitialized w); cbn [negb]; [|reflexivity].
  destruct (MessageListener.stopListening (WA.messageListener w) s) as [ml1 b1].
  destruct (MS.clearQueue (WA.messageSender w) s (Js.lit "all")) as [ms1 r1].
  destruct (QR.clearQRCode (WA.qrHandler w) s) as [qr1 b2].
  destruct (CM.closeSession (WA.connectionManager w) s now rc) as [cm1 o1].
  destruct o1 as [b|e]; [|reflexivity].
  cbn [WA.with_modules WA.sessionStore].
  destruct (SessionStore.updateSession (WA.sessionStore w) s (Js.lit "closed") now io)
    as [ss2 o2].
  now destruct o2.
Qed.

(** X8: an id is not free again after the facade closed its session.
    [closeSession] of the facade marks the session ['closed'] in the
    session store and keeps it there, so that, once it has returned
    [true], every [createSession] of the running facade with that
    (well-formed) id throws 'Sesión ... ya existe', whatever the file
    system and venom-bot would answer. *)
Theorem facade_cannot_create_a_closed_session_again w s now rc io :
  WA.isRunning w = true ->
  SessionStore.validateSessionId (Js.Str s) = Return s ->
  snd (WA.closeSession w s now rc io) = Return true ->
  forall now' io1 io2 r,
    snd (WA.createSession (fst (WA.closeSession w s now rc io)) (Js.Str s) now' io1 io2 r)
      = Throw ErrSessionExists.
Proof.
  intros Hr Hv Hc now' io1 io2 r.
  destruct (facade_closed w s now rc io Hc) as (Hi1 & _ & Hsi1 & Hs1).
  apply facade_create_existing with s; try assumption.
  now rewrite facade_close_running.
Qed.

Lemma facade_cannot_create_a_closed_session_again_witness :
  snd (WA.createSession
         (fst (WA.closeSession Scenario.service1 Scenario.s1 2000 (Return tt) (Return tt)))
         (Js.Str Scenario.s1) 3000 (Return tt) (Return tt) (Return 8%N))
    = Throw ErrSessionExists.
Proof.
  assert (H1 : WA.isRunning Scenario.service1 = true) by (vm_compute; reflexivity).
  assert (H2 : SessionStore.validateSessionId (Js.Str Scenario.s1) = Return Scenario.s1)
    by (vm_compute; reflexivity).
  assert (H3 : snd (WA.closeSession Scenario.service1 Scenario.s1 2000 (Return tt)
                      (Return tt)) = Return true) by (vm_compute; reflexivity).
  exact (facade_cannot_create_a_closed_session_again
           Scenario.service1 Scenario.s1 2000 (Return tt) (Return tt) H1 H2 H3
           3000 (Return tt) (Return tt) (Return 8%N)).
Defined.

(** X9: a [createSession] of the facade that fails after the session
    store has made the directory of the session leaves the session in
    the store: whether the metadata file could not be written or the
    connection manager refused or could not connect the session, every
    later [createSession] with the same id throws 'Sesión ... ya
    existe'. *)
Theorem facade_failed_createSession_keeps_the_id w v s now io2 r e :
  WA.isInitialized w = true ->
  WA.isRunning w = true ->
  SessionStore.isInitialized (WA.sessionStore w) = true ->
  SessionStore.validateSessionId v = Return s ->
  SessionStore.sessionsCache (WA.sessionStore w) !! s = None ->
  snd (WA.createSession w v now (Return tt) io2 r) = Throw e ->
  let w1 := fst (WA.createSession w v now (Return tt) io2 r) in
  is_Some (SessionStore.sessionsCache (WA.sessionStore w1) !! s) /\
  forall now' io1' io2' r',
    snd (WA.createSession w1 v now' io1' io2' r') = Throw ErrSessionExists.
Proof.
  intros Hi Hr Hsi Hv Hd E. cbn zeta.
  assert (H : WA.isInitialized (fst (WA.createSession w v now (Return tt) io2 r)) = true /\
              WA.isRunning (fst (WA.createSession w v now (Return tt) io2 r)) = true /\
              SessionStore.isInitialized
                (WA.sessionStore (fst (WA.createSession w v now (Return tt) io2 r))) = true /\
              is_Some (SessionStore.sessionsCache
                         (WA.sessionStore (fst (WA.createSession w v now (Return tt) io2 r)))
                       !! s)).
  { revert E. unfold WA.createSession. rewrite Hi, Hr. cbn [negb].
    unfold SessionStore.createSession. rewrite Hsi, Hv, Hd. cbn [negb].
    destruct io2 as [[]|e2]; cbn.
    - destruct (CM.createSession (WA.connectionManager w) v now r) as [cm2 o2].
      destruct o2 as [s'|e2]; cbn; [discriminate|].
      intros _. rewrite lookup_insert_eq. repeat split; eauto.
    - intros _. rewrite lookup_insert_eq. repeat split; eauto. }
  destruct H as (Hi1 & Hr1 & Hsi1 & Hs1). split; [assumption|].
  intros now' io1' io2' r'. now apply facade_create_existing with s.
Qed.

Lemma facade_failed_createSession_keeps_the_id_witness :
  snd (WA.createSession
         (fst (WA.createSession Scenario.service0 (Js.Str Scenario.s1) 1000
                 (Return tt) (Return tt) (Throw (ErrExternal 1))))
         (Js.Str Scenario.s1) 2000 (Return tt) (Return tt) (Return 7%N))
    = Throw ErrSessionExists.
Proof.
  assert (H1 : WA.isInitialized Scenario.service0 = true) by (vm_compute; reflexivity).
  assert (H2 : WA.isRunning Scenario.service0 = true) by (vm_compute; reflexivity).
  assert (H3 : SessionStore.isInitialized (WA.sessionStore Scenario.service0) = true)
    by (vm_compute; reflexivity).
  assert (H4 : SessionStore.validateSessionId (Js.Str Scenario.s1) = Return Scenario.s1)
    by (vm_compute; reflexivity).
  assert (H5 : SessionStore.sessionsCache (WA.sessionStore Scenario.service0)
               !! Scenario.s1 = None) by (vm_compute; reflexivity).
  assert (H6 : snd (WA.createSession Scenario.service0 (Js.Str Scenario.s1) 1000
                      (Return tt) (Return tt) (Throw (ErrExternal 1)))
               = Throw (ErrExternal 1)) by (vm_compute; reflexivity).
  exact (proj2 (facade_failed_createSession_keeps_the_id
                  Scenario.service0 (Js.Str Scenario.s1) Scenario.s1 1000 (Return tt)
                  (Throw (ErrExternal 1)) (ErrExternal 1) H1 H2 H3 H4 H5 H6)
           2000 (Return tt) (Return tt) (Return 7%N)).
Defined.

(** X10: what [closeSession] of the initialized facade leaves of a
    session, whether it returns or throws because the session store
    does not know the session or cannot write: no listener, an empty
    queue of messages, no pairing code and no connection. *)
Theorem facade_closeSession_tears_down w s now rc io :
  WA.isInitialized w = true ->
  let w1 := fst (WA.closeSession w s now rc io) in
  MessageListener.activeListeners (WA.messageListener w1) !! s = None /\
  MS.queue (WA.messageSender w1) s = [] /\
  QR.qrCache (WA.qrHandler w1) !! s = None /\
  CM.connections (WA.connectionManager w1) !! s = None /\
  (snd (WA.closeSession w s now rc io) = Return true \/
   exists e, snd (WA.closeSession w s now rc io) = Throw e /\
             snd (SessionStore.updateSession (WA.sessionStore w) s (Js.lit "closed") now io)
               = Throw e).
Proof.
  intros Hi. cbn zeta. unfold WA.closeSession. rewrite Hi. cbn [negb].
  destruct (MessageListener.stopListening (WA.messageListener w) s) as [ml1 b1] eqn:Hml.
  destruct (MS.clearQueue (WA.messageSender w) s (Js.lit "all")) as [ms1 r1] eqn:Hms.
  destruct (QR.clearQRCode (WA.qrHandler w) s) as [qr1 b2] eqn:Hqr.
  assert (Hl : MessageListener.activeListeners ml1 !! s = None).
  { revert Hml. unfold MessageListener.stopListening.
    destruct (MessageListener.activeListeners (WA.messageListener w) !! s) eqn:E;
      intros [= <- _]; cbn; [apply lookup_delete_eq | exact E]. }
  assert (Hq : MS.queue ms1 s = []).
  { revert Hms. unfold MS.clearQueue, MS.queue.
    destruct (MS.messageQueues (WA.messageSender w) !! s) eqn:E.
    - cbn. intros [= <- _]. cbn. now rewrite lookup_insert_eq.
    - intros [= <- _]. now rewrite E. }
  assert (Hc : QR.qrCache qr1 !! s = None).
  { revert Hqr. unfold QR.clearQRCode.
    destruct (QR.qrCache (WA.qrHandler w) !! s) eqn:E;
      intros [= <- _]; cbn; [apply lookup_delete_eq | exact E]. }
  destruct (CM.closeSession (WA.connectionManager w) s now rc) as [cm1 o1] eqn:Hcm.
  assert (Hm : CM.connections cm1 !! s = None /\ exists b, o1 = Return b).
  { destruct (CM.connections (WA.connectionManager w) !! s) as [c|] eqn:E.
    - destruct (closeSession_known _ s c now rc E) as [H1 H2]. rewrite Hcm in H1, H2.
      cbn in H1, H2. rewrite H2, H1. split; [apply lookup_delete_eq | eauto].
    - rewrite closeSession_unknown in Hcm by assumption. inversion Hcm. cbn. eauto. }
  destruct Hm as [Hm [b ->]].
  assert (Hl2 : MessageListener.activeListeners
                  (match Return b with
                   | Return true => fst (MessageListener.stopListening ml1 s)
                   | _ => ml1
                   end) !! s = None).
  { destruct b; [|exact Hl]. unfold MessageListener.stopListening. now rewrite Hl. }
  cbn [WA.with_modules WA.sessionStore].
  destruct (SessionStore.updateSession (WA.sessionStore w) s (Js.lit "closed") now io)
    as [ss2 o2] eqn:Hss.
  destruct o2 as [[]|e]; cbn; repeat split; try assumption; eauto.
Qed.

Lemma facade_closeSession_tears_down_witness :
  CM.connections
    (WA.connectionManager
       (fst (WA.closeSession Scenario.service1 Scenario.s1 2000 (Return tt) (Return tt))))
  !! Scenario.s1 = None.
Proof.
  assert (H : WA.isInitialized Scenario.service1 = true) by (vm_compute; reflexivity).
  exact (proj1 (proj2 (proj2 (proj2 (facade_closeSession_tears_down
                                       Scenario.service1 Scenario.s1 2000
                                       (Return tt) (Return tt) H))))).
Defined.

End Facade.


(** ** The queues of the message sender *)

Section Queues.

Import Spec.

Lemma shrink_refl st : queues_shrink st st.
Proof. split; [reflexivity | intros s; lia]. Qed.

Lemma shrink_trans st1 st2 st3 :
  queues_shrink st1 st2 -> queues_shrink st2 st3 -> queues_shrink st1 st3.
Proof.
  intros [C1 H1] [C2 H2]. split; [congruence|].
  intros s. specialize (H1 s). specialize (H2 s). lia.
Qed.

Lemma shrink_same st st' :
  MS.messageQueues st' = MS.messageQueues st -> MS.cfg st' = MS.cfg st ->
  queues_shrink st st'.
Proof.
  intros E C. split; [exact C|]. intros s. unfold MS.queue. rewrite E. lia.
Qed.

Lemma shrink_shift s st : queues_shrink st (MS.shift s st).
Proof.
  split; [reflexivity|]. intros s'. unfold MS.shift, MS.queue. cbn.
  destruct (decide (s = s')) as [<-|Hne].
  - rewrite lookup_alter_eq. destruct (MS.messageQueues st !! s) as [[|r q]|]; cbn; lia.
  - rewrite lookup_alter_ne by assumption. lia.
Qed.

Lemma shrink_checkRateLimit st s now : queues_shrink st (fst (MS.checkRateLimit st s now)).
Proof.
  unfold MS.checkRateLimit. destruct (MS.rateLimiters st !! s) as [l|]; cbn.
  - destruct (now >=? MS.resetAt l); cbn; now apply shrink_same.
  - apply shrink_refl.
Qed.

Lemma shrink_leave s now st : queues_shrink st (MS.leave s now st).
Proof. now apply shrink_same. Qed.

Lemma shrink_sendQueuedMessage_begin cm st s r m now :
  queues_shrink st (snd (MS.sendQueuedMessage_begin cm st s r m now)).
Proof.
  unfold MS.sendQueuedMessage_begin.
  destruct (CM.sendMessage_begin cm s (MS.to m) (MS.body m) now) as [cm1 out].
  now apply shrink_same.
Qed.

Lemma shrink_drain q cm : forall st s now,
  queues_shrink st (snd (MS.drain q cm st s now)).
Proof.
  induction q as [|r q IH]; intros st s now; cbn.
  - apply shrink_leave.
  - destruct (MS.is_paused st s); [apply shrink_leave|].
    destruct (MS.store st !! r) as [m|] eqn:Hm.
    2:{ now apply shrink_same. }
    destruct (now >? MS.expiresAt m).
    { eapply shrink_trans; [|apply IH].
      eapply shrink_trans; [|apply shrink_shift]. now apply shrink_same. }
    destruct (MS.skipRateLimit m).
    + cbn. eapply shrink_trans; [|apply shrink_sendQueuedMessage_begin].
      now apply shrink_same.
    + destruct (MS.checkRateLimit _ s now) as [st1 allowed] eqn:Hr.
      assert (H1 : queues_shrink st st1).
      { pose proof (shrink_checkRateLimit
                      (MS.with_processing (alter (MS.set_current (Some r)) s) st) s now) as H.
        rewrite Hr in H. eapply shrink_trans; [|exact H]. now apply shrink_same. }
      destruct allowed; cbn.
      * eapply shrink_trans; [exact H1 | apply shrink_sendQueuedMessage_begin].
      * eapply shrink_trans; [exact H1 | now apply shrink_same].
Qed.

Lemma shrink_processQueue cm st s now :
  queues_shrink st (snd (MS.processQueue cm st s now)).
Proof.
  unfold MS.processQueue.
  destruct (MS.messageQueues st !! s) as [q|]; [|now apply shrink_same].
  destruct (MS.processingStatus st !! s) as [p|]; [|now apply shrink_same].
  destruct (MS.paused p); [now apply shrink_same | apply shrink_drain].
Qed.

Lemma shrink_startProcessing cm st s now :
  queues_shrink st (snd (MS.startProcessing cm st s now)).
Proof.
  unfold MS.startProcessing.
  destruct (MS.processingStatus st !! s) as [p|] eqn:Hp.
  - rewrite Hp. destruct (MS.active p || MS.paused p); [apply shrink_refl|].
    eapply shrink_trans; [|apply shrink_processQueue]. now apply shrink_same.
  - cbn. rewrite lookup_insert_eq. cbn.
    eapply shrink_trans; [|apply shrink_processQueue]. now apply shrink_same.
Qed.

Lemma shrink_send_done cm st s now ans :
  queues_shrink st (snd (MS.send_done cm st s now ans)).
Proof.
  unfold MS.send_done.
  destruct (MS.pc_of st s) as [|r settled|]; try apply shrink_refl.
  destruct (MS.store st !! r) as [m|]; [|apply shrink_refl].
  match goal with
  | |- context [let '(cm1, out) := ?X in _] => destruct X as [cm1 out]
  end.
  destruct out as [[]|e].
  - match goal with
    | |- context [MS.shift s ?X] =>
        assert (H : queues_shrink st (MS.shift s X))
    end.
    { eapply shrink_trans; [|apply shrink_shift].
      destruct (MS.skipRateLimit m); now apply shrink_same. }
    destruct (MS.delay m >? 0); cbn.
    + eapply shrink_trans; [exact H | now apply shrink_same].
    + eapply shrink_trans; [exact H | apply shrink_drain].
  - destruct (MS.attempts m + 1 >=? MS.maxRetries m); cbn.
    + eapply shrink_trans; [|apply shrink_drain].
      eapply shrink_trans; [|now apply shrink_same].
      eapply shrink_trans; [|apply shrink_shift]. now apply shrink_same.
    + now apply shrink_same.
Qed.

Lemma shrink_timer_fired cm st s now :
  queues_shrink st (snd (MS.timer_fired cm st s now)).
Proof.
  unfold MS.timer_fired.
  destruct (MS.pc_of st s); try apply shrink_refl. apply shrink_drain.
Qed.

Lemma shrink_resumeSession cm st s now :
  queues_shrink st (snd (fst (MS.resumeSession cm st s now))).
Proof.
  unfold MS.resumeSession.
  destruct (MS.processingStatus st !! s) as [p|]; [|apply shrink_refl].
  destruct (MS.active p); cbn.
  - now apply shrink_same.
  - destruct (MS.startProcessing cm _ s now) as [cm2 st2] eqn:E. cbn.
    eapply shrink_trans; [|now apply shrink_same].
    pose proof (shrink_startProcessing cm
                  (MS.with_processing (alter (MS.set_paused false) s) st) s now) as H.
    rewrite E in H. eapply shrink_trans; [|exact H]. now apply shrink_same.
Qed.

Lemma length_filter_le {A} (f : A -> bool) (l : list A) :
  (length (List.filter f l) <= length l)%nat.
Proof. induction l as [|x l IH]; cbn; [lia|]. destruct (f x); cbn; lia. Qed.

Lemma shrink_clearQueue st s filter : queues_shrink st (fst (MS.clearQueue st s filter)).
Proof.
  unfold MS.clearQueue.
  destruct (MS.messageQueues st !! s) as [q|] eqn:Hq; [|apply shrink_refl].
  assert (H : forall q', (length q' <= length q)%nat ->
              queues_shrink st (MS.set_queue s q' st)).
  { intros q' Hle. split; [reflexivity|]. intros s'. unfold MS.queue, MS.set_queue. cbn.
    destruct (decide (s = s')) as [<-|Hne].
    - rewrite lookup_insert_eq, Hq. exact Hle.
    - rewrite lookup_insert_ne by assumption. lia. }
  destruct (Js.eqb filter (Js.lit "all")).
  { cbn. eapply shrink_trans; [apply (H []); cbn; lia | now apply shrink_same]. }
  destruct (Js.eqb filter (Js.lit "failed")).
  { cbn. eapply shrink_trans; [apply H, length_filter_le | now apply shrink_same]. }
  destruct (Js.eqb filter (Js.lit "pending")).
  { cbn. eapply shrink_trans; [apply H, length_filter_le | now apply shrink_same]. }
  now apply shrink_same.
Qed.

Lemma shrink_cleanupExpiredMessages st now :
  queues_shrink st (MS.cleanupExpiredMessages st now).
Proof.
  split.
  - unfold MS.cleanupExpiredMessages. now destruct (_ >? 0).
  - intros s. rewrite queue_cleanup. apply length_filter_le.
Qed.

Lemma shrink_sendImmediateMessage cm st sessionId to message skip now a :
  queues_shrink st
    (snd (fst (MS.sendImmediateMessage cm st sessionId to message skip now a))).
Proof.
  unfold MS.sendImmediateMessage, MS.sendImmediateMessage_begin.
  destruct (MS.isInitialized st); cbn [negb]; [|now apply shrink_same].
  destruct (MS.validateInputs sessionId to message) as [[[s number] text]|e];
    [|now apply shrink_same].
  assert (H : queues_shrink st (fst (if skip then (st, true) else MS.checkRateLimit st s now))).
  { destruct skip; [apply shrink_refl | apply shrink_checkRateLimit]. }
  destruct (if skip then (st, true) else MS.checkRateLimit st s now) as [st1 allowed].
  cbn in H. destruct allowed; cbn [negb].
  2:{ eapply shrink_trans; [exact H | now apply shrink_same]. }
  destruct (CM.sendMessage_begin cm s (MS.formatPhoneNumber number) text now) as [cm1 out].
  unfold MS.sendImmediateMessage_end. cbn.
  match goal with
  | |- context [let '(cm1, out) := ?X in _] => destruct X as [cm2 out2]
  end.
  destruct out2 as [[]|e]; cbn.
  - eapply shrink_trans; [exact H|]. destruct skip; now apply shrink_same.
  - eapply shrink_trans; [exact H | now apply shrink_same].
Qed.

(** One call of [sendMessage] keeps the queues within the bound it
    checks. *)
Lemma within_sendMessage cm st sessionId to message o now rnd :
  queues_within (Z.max 0 (MS.maxQueueSize (MS.cfg st))) st ->
  let st' := snd (fst (MS.sendMessage cm st sessionId to message o now rnd)) in
  MS.cfg st' = MS.cfg st /\
  queues_within (Z.max 0 (MS.maxQueueSize (MS.cfg st))) st'.
Proof.
  intros H. cbn zeta. unfold MS.sendMessage.
  destruct (MS.isInitialized st); cbn [negb]; [|now split].
  destruct (MS.validateInputs sessionId to message) as [[[s number] text]|e]; [|now split].
  destruct (CM.hasSession cm s); cbn [negb]; [|now split].
  set (st1 := MS.set_queue s (MS.queue st s) st).
  assert (Hq1 : forall s', MS.queue st1 s' = MS.queue st s').
  { intros s'. unfold st1, MS.queue, MS.set_queue. cbn.
    destruct (decide (s = s')) as [<-|Hne].
    - now rewrite lookup_insert_eq.
    - now rewrite lookup_insert_ne. }
  destruct (Z.of_nat (length (MS.queue st1 s)) >=? MS.maxQueueSize (MS.cfg st1)) eqn:Hfull.
  { cbn. split; [reflexivity|]. intros s'. cbn.
    change (Z.of_nat (length (MS.queue st1 s')) <= Z.max 0 (MS.maxQueueSize (MS.cfg st))).
    rewrite Hq1. apply H. }
  rewrite Z.geb_leb in Hfull. apply Z.leb_gt in Hfull. change (MS.cfg st1) with (MS.cfg st) in Hfull.
  destruct (MS.alloc _ st1) as [r st2] eqn:Ea.
  unfold MS.alloc in Ea. injection Ea as Er Est.
  assert (Hq2 : forall s', MS.queue st2 s' = MS.queue st s').
  { intros s'. rewrite <- Est. exact (Hq1 s'). }
  assert (Hc2 : MS.cfg st2 = MS.cfg st) by (now rewrite <- Est).
  match goal with
  | |- context [MS.emit ?e ?X] => set (st3 := X)
  end.
  assert (H3 : MS.cfg st3 = MS.cfg st /\
               queues_within (Z.max 0 (MS.maxQueueSize (MS.cfg st))) st3).
  { unfold st3. destruct (Js.eqb _ MS.high); (split; [exact Hc2|]); intros s';
      unfold MS.queue, MS.set_queue; cbn;
      (destruct (decide (s = s')) as [<-|Hne];
       [rewrite lookup_insert_eq; cbn; try rewrite length_app; cbn;
        fold (MS.queue st2 s); rewrite Hq2; rewrite Hq1 in Hfull; lia
       |rewrite lookup_insert_ne by assumption; fold (MS.queue st2 s');
        rewrite Hq2; apply H]). }
  destruct H3 as [Hc3 H3].
  set (st4 := MS.emit _ st3).
  assert (H5 : forall X : CM.t * MS.t,
            queues_shrink st4 (snd X) ->
            MS.cfg (snd X) = MS.cfg st /\
            queues_within (Z.max 0 (MS.maxQueueSize (MS.cfg st))) (snd X)).
  { intros X [C Hs]. split; [rewrite C; exact Hc3|].
    intros s'. specialize (Hs s'). specialize (H3 s').
    change (MS.queue st4 s') with (MS.queue st3 s') in Hs. lia. }
  destruct (MS.processingStatus st4 !! s) as [p|].
  - destruct (MS.active p).
    + cbn. apply (H5 (cm, st4)). apply shrink_refl.
    + pose proof (H5 _ (shrink_startProcessing cm st4 s now)) as H6.
      destruct (MS.startProcessing cm st4 s now). exact H6.
  - pose proof (H5 _ (shrink_startProcessing cm st4 s now)) as H6.
    destruct (MS.startProcessing cm st4 s now). exact H6.
Qed.

Lemma within_shrink max st st' :
  queues_shrink st st' -> queues_within max st -> queues_within max st'.
Proof. intros [_ Hs] H s. specialize (Hs s). specialize (H s). lia. Qed.

Lemma within_step now a w :
  queues_within (Z.max 0 (MS.maxQueueSize (MS.cfg (snd w)))) (snd w) ->
  MS.cfg (snd (System.step now a w)) = MS.cfg (snd w) /\
  queues_within (Z.max 0 (MS.maxQueueSize (MS.cfg (snd w)))) (snd (System.step now a w)).
Proof.
  destruct w as [cm st]. cbn [snd]. intros H.
  assert (Hs : forall st', queues_shrink st st' ->
            MS.cfg st' = MS.cfg st /\
            queues_within (Z.max 0 (MS.maxQueueSize (MS.cfg st))) st').
  { intros st' Hs. split; [apply Hs | now apply within_shrink with st]. }
  destruct a as [a|sessionId to message o rnd|sessionId to message skip a|s ans|s|s|s|s f|];
    cbn.
  - apply Hs, shrink_refl.
  - now apply within_sendMessage.
  - apply Hs, shrink_sendImmediateMessage.
  - apply Hs, shrink_send_done.
  - apply Hs, shrink_timer_fired.
  - apply Hs. unfold MS.pauseSession.
    destruct (MS.processingStatus st !! s); cbn; [now apply shrink_same | apply shrink_refl].
  - apply Hs, shrink_resumeSession.
  - apply Hs, shrink_clearQueue.
  - apply Hs, shrink_cleanupExpiredMessages.
Qed.

Lemma within_run l : forall w,
  queues_within (Z.max 0 (MS.maxQueueSize (MS.cfg (snd w)))) (snd w) ->
  MS.cfg (snd (System.run l w)) = MS.cfg (snd w) /\
  queues_within (Z.max 0 (MS.maxQueueSize (MS.cfg (snd w)))) (snd (System.run l w)).
Proof.
  induction l as [|[now a] l IH]; intros w H; [now split|].
  cbn. unfold System.run in IH.
  destruct (within_step now a w H) as [C H1].
  rewrite <- C in H1. destruct (IH _ H1) as [C2 H2].
  split; [congruence|]. now rewrite <- C.
Qed.

End Queues.

(** X11: no queue ever holds more than [maxQueueSize] messages.  Along
    every run of the system from its start (calls of [sendMessage] and
    [sendImmediateMessage], answers of the transport, timers, pauses,
    [clearQueue], the sweep of expired messages), the queue of every
    session has at most [maxQueueSize] messages (none when that
    setting is negative). *)
Theorem queues_never_exceed_maxQueueSize l c sc s :
  Z.of_nat (length (MS.queue (snd (System.run l (System.boot c sc))) s))
    <= Z.max 0 (MS.maxQueueSize sc).
Proof.
  assert (H0 : Spec.queues_within
                 (Z.max 0 (MS.maxQueueSize (MS.cfg (snd (System.boot c sc)))))
                 (snd (System.boot c sc))).
  { intros s'. unfold MS.queue. cbn. rewrite lookup_empty. cbn. lia. }
  destruct (within_run l _ H0) as [_ H]. exact (H s).
Qed.

Section SendMessageFailure.

(** X12: a call of [sendMessage] that throws has queued nothing and
    has not touched the transport: the connection manager, the queues,
    the message objects and the trace of the drain loops are as they
    were, [messageError] is emitted with the arguments of the call, and
    the error is one of [sendMessage]'s own (not initialized, one of the
    four input errors, session not found, queue full), never an error
    of the transport. *)
Theorem sendMessage_failure_queues_nothing cm st sessionId to message o now rnd e :
  snd (MS.sendMessage cm st sessionId to message o now rnd) = Throw e ->
  let cm' := fst (fst (MS.sendMessage cm st sessionId to message o now rnd)) in
  let st' := snd (fst (MS.sendMessage cm st sessionId to message o now rnd)) in
  cm' = cm /\
  (forall s, MS.queue st' s = MS.queue st s) /\
  MS.store st' = MS.store st /\
  MS.trace st' = MS.trace st /\
  MS.events st' = MS.events st ++ [MS.MessageError sessionId to e] /\
  (e = ErrNotInitialized \/ e = ErrSessionIdRequired \/ e = ErrRecipientRequired \/
   e = ErrMessageRequired \/ e = ErrMessageTooLong \/ e = ErrSessionNotFound \/
   e = ErrQueueFull).
Proof.
  cbn zeta. unfold MS.sendMessage.
  destruct (MS.isInitialized st); cbn [negb].
  2:{ cbn. intros [= <-]. repeat split; auto. }
  destruct (MS.validateInputs sessionId to message) as [[[s number] text]|e'] eqn:Hv.
  2:{ cbn. intros [= <-]. repeat split; auto.
      revert Hv. unfold MS.validateInputs.
      destruct sessionId as [| | | | |[|? ?]|]; try (intros [= <-]; auto 8).
      destruct to as [| | | | |[|? ?]|]; try (intros [= <-]; auto 8).
      destruct message as [| | | | |[|? ?]|]; try (intros [= <-]; auto 8).
      destruct (_ >? 4096); intros [= <-]; auto 8. }
  destruct (CM.hasSession cm s); cbn [negb].
  2:{ cbn. intros [= <-]. repeat split; auto 8. }
  destruct (Z.of_nat (length (MS.queue (MS.set_queue s (MS.queue st s) st) s))
            >=? MS.maxQueueSize (MS.cfg (MS.set_queue s (MS.queue st s) st))).
  { cbn. intros [= <-]. repeat split; auto 8.
    intros s'. unfold MS.queue. cbn.
    destruct (decide (s = s')) as [<-|Hne].
    - now rewrite lookup_insert_eq.
    - now rewrite lookup_insert_ne. }
  destruct (MS.alloc _ _) as [r st2].
  match goal with
  | |- context [let '(cm5, st5) := ?X in _] => destruct X as [cm5 st5]
  end.
  discriminate.
Qed.

Lemma sendMessage_failure_queues_nothing_witness :
  fst (fst (MS.sendMessage (fst Scenario.world1) (snd Scenario.world1)
              (Js.Str (Js.lit "nobody")) Scenario.recipient Scenario.hello
              MS.no_options 2000 11))
  = fst Scenario.world1.
Proof.
  assert (H : snd (MS.sendMessage (fst Scenario.world1) (snd Scenario.world1)
                     (Js.Str (Js.lit "nobody")) Scenario.recipient Scenario.hello
                     MS.no_options 2000 11) = Throw ErrSessionNotFound)
    by (vm_compute; reflexivity).
  exact (proj1 (sendMessage_failure_queues_nothing _ _ _ _ _ _ _ _ _ H)).
Defined.

End SendMessageFailure.


(** ** Pausing a session *)

Section Pause.

Import VenomBotAdapter.

Lemma drain_paused q cm st s now :
  MS.is_paused st s = true -> MS.drain q cm st s now = (cm, MS.leave s now st).
Proof. intros H. destruct q as [|r q]; cbn; [reflexivity | now rewrite H]. Qed.

Lemma dispatched_same st st' :
  MS.trace st' = MS.trace st -> System.dispatched st' = System.dispatched st.
Proof. unfold System.dispatched. now intros ->. Qed.

Lemma sendMessage_end_wire cm s number text now a :
  wire (CM.adapter (fst (CM.sendMessage_end cm s number text now a)))
    = wire (CM.adapter cm).
Proof. unfold CM.sendMessage_end, sendMessage_end. now destruct a. Qed.

(** The session is still paused after an assignment that leaves the
    flag alone. *)
Lemma is_paused_alter f s st :
  (forall p, MS.paused (f p) = MS.paused p) ->
  MS.is_paused (MS.with_processing (alter f s) st) s = MS.is_paused st s.
Proof.
  intros Hf. unfold MS.is_paused. cbn. rewrite lookup_alter_eq.
  destruct (MS.processingStatus st !! s); cbn; [apply Hf | reflexivity].
Qed.

Lemma is_paused_leave s now st : MS.is_paused (MS.leave s now st) s = MS.is_paused st s.
Proof. unfold MS.leave. apply (is_paused_alter (MS.finished now)). reflexivity. Qed.

Lemma pc_leave s now st :
  MS.is_paused st s = true ->
  MS.pc_of (MS.leave s now st) s = MS.Idle /\
  MS.active <$> MS.processingStatus (MS.leave s now st) !! s = Some false.
Proof.
  unfold MS.is_paused, MS.pc_of, MS.leave. cbn. rewrite lookup_alter_eq.
  destruct (MS.processingStatus st !! s); [|discriminate]. now cbn.
Qed.

Ltac same_dispatched :=
  unfold System.dispatched; cbn; rewrite ?omap_app; cbn; rewrite ?app_nil_r; reflexivity.

Ltac still_paused H :=
  revert H; unfold MS.is_paused; cbn; rewrite ?lookup_alter_eq;
  match goal with
  | |- context [MS.processingStatus ?st !! ?s] =>
      destruct (MS.processingStatus st !! s); cbn; [auto | discriminate]
  end.

(** X13: a paused session hands nothing to the transport.  While the
    flag [paused] of a session is set, the resumption of its drain loop
    after the answer to the message in flight, the resumption after a
    wait and a call of [sendMessage] for the session add no message to
    those handed to [_sendQueuedMessage] and no call to the venom-bot
    client, and they leave the session paused; the loop that resumes
    after a wait stops ([active] becomes [false]). *)
Theorem paused_session_dispatches_nothing cm st s now :
  MS.is_paused st s = true ->
  (forall ans,
     let out := MS.send_done cm st s now ans in
     System.dispatched (snd out) = System.dispatched st /\
     wire (CM.adapter (fst out)) = wire (CM.adapter cm) /\
     MS.is_paused (snd out) s = true) /\
  (let out := MS.timer_fired cm st s now in
   System.dispatched (snd out) = System.dispatched st /\
   wire (CM.adapter (fst out)) = wire (CM.adapter cm) /\
   MS.is_paused (snd out) s = true /\
   (MS.pc_of st s = MS.AwaitTimer ->
    MS.pc_of (snd out) s = MS.Idle /\
    MS.active <$> MS.processingStatus (snd out) !! s = Some false)) /\
  (forall to message o rnd,
     let out := fst (MS.sendMessage cm st (Js.Str s) to message o now rnd) in
     System.dispatched (snd out) = System.dispatched st /\
     fst out = cm /\
     MS.is_paused (snd out) s = true).
Proof.
  intros H. split; [|split].
  - intros ans. cbn zeta. unfold MS.send_done.
    destruct (MS.pc_of st s) as [|r settled|] eqn:Hpc; try (cbn; now auto).
    destruct (MS.store st !! r) as [m|] eqn:Hm; [|cbn; now auto].
    match goal with
    | |- context [let '(cm1, out) := ?X in _] => set (X0 := X)
    end.
    assert (HX : wire (CM.adapter (fst X0)) = wire (CM.adapter cm)).
    { unfold X0. destruct settled; [reflexivity|].
      destruct ans; [apply sendMessage_end_wire | reflexivity]. }
    destruct X0 as [cm1 out]. cbn in HX.
    destruct out as [[]|e].
    + destruct (MS.skipRateLimit m); destruct (MS.delay m >? 0);
        rewrite ?drain_paused by exact H; cbn [fst snd];
        (split; [same_dispatched | split; [exact HX | still_paused H]]).
    + destruct (MS.attempts m + 1 >=? MS.maxRetries m);
        rewrite ?drain_paused by exact H; cbn [fst snd];
        (split; [same_dispatched | split; [exact HX | still_paused H]]).
  - cbn zeta. unfold MS.timer_fired.
    destruct (MS.pc_of st s) eqn:Hpc; cbn [fst snd];
      try (repeat split; first [reflexivity | assumption | discriminate]).
    rewrite drain_paused by exact H. cbn [fst snd].
    split; [same_dispatched|]. split; [reflexivity|].
    split; [now rewrite is_paused_leave|]. intros _. now apply pc_leave.
  - intros to message o rnd. cbn zeta. unfold MS.sendMessage.
    destruct (MS.isInitialized st); cbn [negb]; [|cbn; now auto].
    destruct (MS.validateInputs (Js.Str s) to message) as [[[s' number] text]|e] eqn:Hv;
      [|cbn; now auto].
    apply validateInputs_strings in Hv as Hv'. destruct Hv' as ([= <-] & _ & _).
    destruct (CM.hasSession cm s); cbn [negb]; [|cbn; now auto].
    destruct (Z.of_nat _ >=? _); [cbn; now auto|].
    destruct (MS.alloc _ _) as [r st2] eqn:Ea.
    unfold MS.alloc in Ea. injection Ea as Er Est.
    assert (Hp2 : MS.processingStatus st2 = MS.processingStatus st)
      by (now rewrite <- Est).
    match goal with
    | |- context [MS.emit ?e ?X] => set (st4 := MS.emit e X)
    end.
    assert (Hp4 : MS.processingStatus st4 = MS.processingStatus st).
    { unfold st4. now destruct (Js.eqb _ MS.high). }
    assert (Ht4 : MS.trace st4 = MS.trace st).
    { unfold st4. destruct (Js.eqb _ MS.high); cbn; now rewrite <- Est. }
    assert (H4 : MS.is_paused st4 s = true).
    { revert H. unfold MS.is_paused. now rewrite Hp4. }
    assert (Hout : (match MS.processingStatus st4 !! s with
                    | Some p => if MS.active p then (cm, st4)
                                else MS.startProcessing cm st4 s now
                    | None => MS.startProcessing cm st4 s now
                    end) = (cm, st4)).
    { revert H4. unfold MS.is_paused.
      destruct (MS.processingStatus st4 !! s) as [p|] eqn:Hp; [|discriminate].
      intros Hpa. destruct (MS.active p) eqn:Ha; [reflexivity|].
      unfold MS.startProcessing. rewrite Hp. cbn zeta. now rewrite Hp, Ha, Hpa. }
    rewrite Hout. cbn [fst snd].
    split; [now apply dispatched_same|]. split; [reflexivity | exact H4].
Qed.

Lemma paused_session_dispatches_nothing_witness :
  System.dispatched
    (snd (MS.timer_fired (fst Scenario.paused_world) (snd Scenario.paused_world)
            Scenario.s1 9000))
    = System.dispatched (snd Scenario.paused_world).
Proof.
  assert (H : MS.is_paused (snd Scenario.paused_world) Scenario.s1 = true)
    by (vm_compute; reflexivity).
  exact (proj1 (proj1 (proj2 (paused_session_dispatches_nothing
                                (fst Scenario.paused_world) (snd Scenario.paused_world)
                                Scenario.s1 9000 H)))).
Defined.

End Pause.


(** ** The cache of pairing codes *)

Section PairingCodes.

(** The formats that have a case in the [switch] get an answer. *)
Lemma select_supported q format :
  QR.supported format = true ->
  exists label a, QR.lowerFormat format = Return label /\ QR.select q label = Return a.
Proof.
  unfold QR.supported. destruct (QR.lowerFormat format) as [label|]; [|discriminate].
  intros H. apply bool_decide_eq_true in H. cbn in H.
  exists label. rewrite !elem_of_cons in H.
  destruct H as [->|[->|[->|[->|[->|[->|[->|H]]]]]]];
    [eexists; split; [reflexivity | vm_compute; reflexivity] .. |].
  now apply elem_of_nil in H.
Qed.

(** The cache after [cleanupExpiredQRs]. *)
Lemma lookup_cleanup h now s :
  QR.qrCache (fst (QR.cleanupExpiredQRs h now)) !! s
    = match QR.qrCache h !! s with
      | Some q => if QR.expired now q then None else Some q
      | None => None
      end.
Proof.
  unfold QR.cleanupExpiredQRs.
  set (P := fun kq : sid * QR.qrRecord => QR.expired now (snd kq) = true).
  set (ks := (map_to_list (filter P (QR.qrCache h))).*1).
  assert (Hks : forall k, k ∈ ks <-> exists q, QR.qrCache h !! k = Some q /\ QR.expired now q = true).
  { intros k. unfold ks. rewrite list_elem_of_fmap. split.
    - intros [[k' q] [-> Hin]]. apply elem_of_map_to_list in Hin.
      apply map_lookup_filter_Some in Hin as [Hq HP]. now exists q.
    - intros [q [Hq HP]]. exists (k, q). split; [reflexivity|].
      apply elem_of_map_to_list, map_lookup_filter_Some. now split. }
  assert (E : QR.qrCache (if Z.of_nat (length ks) >? 0
                          then QR.emit (QR.QrCleanup (Z.of_nat (length ks)))
                                 (QR.with_cache (fun c => foldr delete c ks) h)
                          else QR.with_cache (fun c => foldr delete c ks) h)
              = foldr delete (QR.qrCache h) ks) by (now destruct (_ >? 0)).
  cbn [fst]. rewrite E. clear E.
  destruct (QR.qrCache h !! s) as [q|] eqn:Hq.
  - destruct (QR.expired now q) eqn:He.
    + apply lookup_foldr_delete, Hks. now exists q.
    + apply lookup_foldr_delete_Some. split; [|assumption].
      intros Hin. apply Hks in Hin as [q' [Hq' He']]. congruence.
  - destruct (foldr delete (QR.qrCache h) ks !! s) as [y|] eqn:E; [|reflexivity].
    apply lookup_foldr_delete_Some in E as [_ E]. congruence.
Qed.

Lemma cleanup_filter h now :
  QR.qrCache (fst (QR.cleanupExpiredQRs h now))
    = filter (fun kq : sid * QR.qrRecord => ~ QR.expired now (snd kq) = true) (QR.qrCache h).
Proof.
  apply map_eq. intros s. rewrite lookup_cleanup.
  destruct (QR.qrCache h !! s) as [q|] eqn:Hq.
  - destruct (QR.expired now q) eqn:He.
    + symmetry. apply map_lookup_filter_None. right. intros q' Hq' Hn.
      cbn in Hn. replace q' with q in Hn by congruence. now apply Hn.
    + symmetry. apply map_lookup_filter_Some. split; [assumption|].
      cbn. now rewrite He.
  - symmetry. apply map_lookup_filter_None. now left.
Qed.

Lemma cleanup_count h now :
  snd (QR.cleanupExpiredQRs h now)
    = Z.of_nat (size (QR.qrCache h))
      - Z.of_nat (size (QR.qrCache (fst (QR.cleanupExpiredQRs h now)))).
Proof.
  rewrite cleanup_filter. unfold QR.cleanupExpiredQRs. cbn [snd].
  rewrite length_fmap, length_map_to_list.
  set (P := fun kq : sid * QR.qrRecord => QR.expired now (snd kq) = true).
  rewrite <- (map_filter_union_complement P (QR.qrCache h)) at 2.
  rewrite map_size_disj_union by apply map_disjoint_filter_complement.
  subst P. cbn beta. lia.
Qed.

(** X14: the sweep of the pairing codes removes exactly the records
    that have run out ([now > expiresAt]) and leaves every other record
    as it is; it returns the number of records removed, and emits
    [qrCleanup] with that number when it is not zero and nothing
    otherwise. *)
Theorem cleanupExpiredQRs_removes_the_expired h now :
  let out := QR.cleanupExpiredQRs h now in
  (forall s,
     QR.qrCache (fst out) !! s
       = match QR.qrCache h !! s with
         | Some q => if now >? QR.q_expiresAt q then None else Some q
         | None => None
         end) /\
  snd out = Z.of_nat (size (QR.qrCache h)) - Z.of_nat (size (QR.qrCache (fst out))) /\
  QR.events (fst out)
    = QR.events h ++ (if snd out >? 0 then [QR.QrCleanup (snd out)] else []).
Proof.
  cbn zeta. split; [|split].
  - intros s. apply lookup_cleanup.
  - apply cleanup_count.
  - unfold QR.cleanupExpiredQRs. cbn [fst snd].
    destruct (_ >? 0); cbn; [reflexivity | now rewrite app_nil_r].
Qed.

(** X15: a failed [processQRCode] leaves the cache alone, so that a
    code cached before is still the one that is served.  The call
    fails when the handler is not initialized, when the data hold
    neither a [url] nor a [base64] (an empty string counts as none) or
    when the image cannot be generated; it then emits [qrError] with
    the error it throws. *)
Theorem processQRCode_failure_keeps_the_cache h s q now r e :
  snd (QR.processQRCode h s q now r) = Throw e ->
  QR.qrCache (fst (QR.processQRCode h s q now r)) = QR.qrCache h /\
  QR.events (fst (QR.processQRCode h s q now r)) = QR.events h ++ [QR.QrError s e] /\
  (e = ErrNotInitialized /\ QR.isInitialized h = false \/
   e = ErrQrDataMissing /\
     Js.orStr (VenomBotAdapter.qr_url q) [] = [] /\
     Js.orStr (VenomBotAdapter.qr_base64 q) [] = [] \/
   r = Throw e).
Proof.
  unfold QR.processQRCode.
  destruct (QR.isInitialized h); cbn [negb].
  2:{ cbn. intros [= <-]. auto. }
  destruct (Js.orStr (VenomBotAdapter.qr_url q)
              (Js.orStr (VenomBotAdapter.qr_base64 q) [])) as [|c u] eqn:E.
  { cbn. intros [= <-]. split; [reflexivity|]. split; [reflexivity|].
    right. left. split; [reflexivity|]. revert E. unfold Js.orStr.
    destruct (VenomBotAdapter.qr_url q) as [[|? ?]|];
      destruct (VenomBotAdapter.qr_base64 q) as [[|? ?]|]; now intros. }
  destruct r as [url|e']; cbn; [discriminate|].
  intros [= <-]. auto.
Qed.

Lemma processQRCode_failure_keeps_the_cache_witness :
  QR.qrCache (fst (QR.processQRCode Scenario.qr1 Scenario.s1
                     {| VenomBotAdapter.qr_base64 := None;
                        VenomBotAdapter.qr_ascii := Some (Js.lit "##");
                        VenomBotAdapter.qr_url := Some [];
                        VenomBotAdapter.qr_attempts := 4;
                        VenomBotAdapter.qr_timestamp := 2000 |}
                     2000 (Return (Js.lit "data:image/png;base64,BBBB"))))
    = QR.qrCache Scenario.qr1.
Proof.
  refine (proj1 (processQRCode_failure_keeps_the_cache Scenario.qr1 Scenario.s1
                   _ 2000 _ ErrQrDataMissing _)).
  vm_compute. reflexivity.
Defined.

(** X16: a pairing code that was processed is served until it runs
    out.  After [processQRCode] has returned at [now], [getQRCode] with
    the format ['original'] gives back, at every time up to
    [now + qrTimeout] included, the three strings venom-bot gave, with
    the number of attempts and the two dates, and leaves the cache as it
    is; at every later time it returns [null] for every format and
    takes the record out of the cache. *)
Theorem processed_code_is_served_until_it_expires h s q now r rec :
  snd (QR.processQRCode h s q now r) = Return rec ->
  let h' := fst (QR.processQRCode h s q now r) in
  (forall t,
     t <= now + QR.qrTimeout h ->
     QR.getQRCode h' s (Js.Str (Js.lit "original")) t
       = (h', Return (Some {| QR.a_format := Js.lit "original";
                              QR.a_data :=
                                QR.DataOriginal
                                  {| QR.o_base64 := VenomBotAdapter.qr_base64 q;
                                     QR.o_ascii := VenomBotAdapter.qr_ascii q;
                                     QR.o_url := VenomBotAdapter.qr_url q |};
                              QR.a_attempts := VenomBotAdapter.qr_attempts q;
                              QR.a_timestamp := now;
                              QR.a_expiresAt := now + QR.qrTimeout h |}))) /\
  (forall t format,
     now + QR.qrTimeout h < t ->
     snd (QR.getQRCode h' s format t) = Return None /\
     QR.qrCache (fst (QR.getQRCode h' s format t)) !! s = None).
Proof.
  unfold QR.processQRCode.
  destruct (QR.isInitialized h) eqn:Hi; cbn [negb]; [|discriminate].
  destruct (Js.orStr _ _) as [|c u]; [discriminate|].
  destruct r as [url|e]; [|discriminate].
  cbn. intros _. split.
  - intros t Ht. unfold QR.getQRCode, QR.getQRCode_try. cbn.
    rewrite Hi, lookup_insert_eq. cbn.
    rewrite Z.gtb_ltb. destruct (Z.ltb_spec (now + QR.qrTimeout h) t); [lia|].
    reflexivity.
  - intros t format Ht. unfold QR.getQRCode, QR.getQRCode_try. cbn.
    rewrite Hi, lookup_insert_eq. cbn.
    rewrite Z.gtb_ltb. destruct (Z.ltb_spec (now + QR.qrTimeout h) t); [|lia].
    cbn. split; [reflexivity | apply lookup_delete_eq].
Qed.

Lemma processed_code_is_served_until_it_expires_witness :
  snd (QR.getQRCode Scenario.qr1 Scenario.s1 (Js.Str (Js.lit "base64")) 121001)
    = Return None.
Proof.
  refine (proj1 (proj2 (processed_code_is_served_until_it_expires
                          {| QR.qrCache := ∅; QR.isInitialized := true;
                             QR.qrTimeout := 120000; QR.events := []; QR.log := [] |}
                          Scenario.s1 _ 1000
                          (Return (Js.lit "data:image/png;base64,AAAA")) _ _)
                   121001 (Js.Str (Js.lit "base64")) _)).
  - vm_compute. reflexivity.
  - vm_compute. reflexivity.
Defined.

(** X17: [hasQRCode] and [getQRCode] agree.  On an initialized handler
    and for a format that has a case in the [switch] of [getQRCode],
    [hasQRCode] returns [true] exactly when [getQRCode] returns an
    answer, and both leave the same cache behind (a record that has run
    out is dropped by either). *)
Theorem hasQRCode_agrees_with_getQRCode h s format now :
  QR.isInitialized h = true ->
  QR.supported format = true ->
  (snd (QR.hasQRCode h s now) = true
   <-> exists a, snd (QR.getQRCode h s format now) = Return (Some a)) /\
  QR.qrCache (fst (QR.hasQRCode h s now))
    = QR.qrCache (fst (QR.getQRCode h s format now)).
Proof.
  intros Hi Hf. unfold QR.hasQRCode, QR.getQRCode, QR.getQRCode_try. rewrite Hi. cbn [negb].
  destruct (QR.qrCache h !! s) as [q|] eqn:Hq.
  2:{ cbn. split; [|reflexivity]. split; [discriminate | intros [a [=]]]. }
  destruct (now >? QR.q_expiresAt q).
  { cbn. split; [|reflexivity]. split; [discriminate | intros [a [=]]]. }
  destruct (select_supported q format Hf) as (label & a & -> & ->).
  cbn. split; [|reflexivity]. split; [eauto | reflexivity].
Qed.

Lemma hasQRCode_agrees_with_getQRCode_witness :
  snd (QR.hasQRCode Scenario.qr1 Scenario.s1 5000) = true
  <-> exists a, snd (QR.getQRCode Scenario.qr1 Scenario.s1 (Js.Str (Js.lit "ascii")) 5000)
                = Return (Some a).
Proof.
  assert (H1 : QR.isInitialized Scenario.qr1 = true) by (vm_compute; reflexivity).
  assert (H2 : QR.supported (Js.Str (Js.lit "ascii")) = true) by (vm_compute; reflexivity).
  exact (proj1 (hasQRCode_agrees_with_getQRCode Scenario.qr1 Scenario.s1
                  (Js.Str (Js.lit "ascii")) 5000 H1 H2)).
Defined.

(** X18: [clearQRCode] forgets the code of a session.  It returns
    whether there was one; afterwards [getQRCode] returns [null] for
    every format, [hasQRCode] returns [false], and a second
    [clearQRCode] returns [false] and changes nothing (no second
    [qrCleared] is emitted). *)
Theorem clearQRCode_forgets h s :
  let out := QR.clearQRCode h s in
  snd out = bool_decide (is_Some (QR.qrCache h !! s)) /\
  (forall format now, snd (QR.getQRCode (fst out) s format now) = Return None) /\
  (forall now, snd (QR.hasQRCode (fst out) s now) = false) /\
  QR.clearQRCode (fst out) s = (fst out, false).
Proof.
  cbn zeta. unfold QR.clearQRCode.
  destruct (QR.qrCache h !! s) as [q|] eqn:Hq; cbn [fst snd].
  - split; [symmetry; apply bool_decide_eq_true_2; eauto|].
    split; [|split].
    + intros format now. unfold QR.getQRCode, QR.getQRCode_try. cbn.
      rewrite lookup_delete_eq. now destruct (QR.isInitialized h).
    + intros now. unfold QR.hasQRCode. cbn. now rewrite lookup_delete_eq.
    + cbn. now rewrite lookup_delete_eq.
  - split; [symmetry; apply bool_decide_eq_false_2; intros [? ?]; congruence|].
    split; [|split].
    + intros format now. unfold QR.getQRCode, QR.getQRCode_try.
      rewrite Hq. now destruct (QR.isInitialized h).
    + intros now. unfold QR.hasQRCode. now rewrite Hq.
    + now rewrite Hq.
Qed.

End PairingCodes.


(** ** The validation middleware and the modules behind it *)

Section Middleware.

Lemma test_id_regex_pattern lo hi s :
  1 <= lo ->
  Spec.id_pattern lo hi s = true <->
  lo <= Js.jslength s <= hi /\ Js.test_id_regex s = true.
Proof.
  intros Hlo. unfold Spec.id_pattern, Js.test_id_regex.
  rewrite !andb_true_iff, !Z.leb_le. split.
  - intros [[H1 H2] H3]. repeat split; try assumption.
    destruct s; [unfold Js.jslength in H1; cbn in H1; lia | exact H3].
  - intros [[H1 H2] H3]. repeat split; try assumption.
    destruct s; [discriminate | exact H3].
Qed.

Lemma store_validateSessionId_accepts s :
  s <> [] -> Js.test_id_regex s = true ->
  SessionStore.validateSessionId (Js.Str s) = Return s.
Proof.
  intros Hne Hre. unfold SessionStore.validateSessionId.
  destruct s as [|c s]; [congruence|].
  rewrite trim_idChars by (congruence || exact Hre).
  cbn [Js.truthy negb orb]. unfold Js.eqb.
  rewrite bool_decide_eq_false_2 by discriminate. now rewrite Hre.
Qed.

(** X19: the middleware [validateSessionId] lets a request through
    exactly when the session id it reads ([req.params.sessionId], or
    [req.body.sessionId] when that one is missing) is a string of 3 to
    50 letters, digits, underscores and hyphens; and every id it lets
    through is accepted by [_validateSessionId] of the connection
    manager and of the session store. *)
Theorem middleware_sessionId_is_stricter params body :
  (Validation.validateSessionId params body = Validation.Next tt
   <-> Spec.matches 3 50 (Js.orVal params body) = true) /\
  (Validation.validateSessionId params body = Validation.Next tt ->
   exists s,
     Js.orVal params body = Js.Str s /\
     CM.validateSessionId (Js.Str s) = Return s /\
     SessionStore.validateSessionId (Js.Str s) = Return s).
Proof.
  assert (H : Validation.validateSessionId params body = Validation.Next tt
              <-> exists s, Js.orVal params body = Js.Str s /\
                            3 <= Js.jslength s <= 50 /\ Js.test_id_regex s = true).
  { unfold Validation.validateSessionId.
    destruct (Js.orVal params body) as [| | | | |s|] eqn:E; cbn [Js.truthy negb];
      try (split; [discriminate | intros (s' & [=] & _)]).
    - destruct b; (split; [discriminate | intros (s' & [=] & _)]).
    - destruct (negb (n =? 0)); (split; [discriminate | intros (s' & [=] & _)]).
    - destruct s as [|c s].
      { split; [discriminate|]. intros (s' & [= <-] & Hl & _).
        unfold Js.jslength in Hl. cbn in Hl. lia. }
      destruct (Js.jslength (c :: s) <? 3) eqn:E1; cbn [orb].
      { split; [discriminate|]. intros (s' & [= <-] & Hl & _).
        apply Z.ltb_lt in E1. lia. }
      destruct (Js.jslength (c :: s) >? 50) eqn:E2.
      { split; [discriminate|]. intros (s' & [= <-] & Hl & _).
        rewrite Z.gtb_ltb in E2. apply Z.ltb_lt in E2. lia. }
      apply Z.ltb_ge in E1. rewrite Z.gtb_ltb in E2. apply Z.ltb_ge in E2.
      destruct (Js.test_id_regex (c :: s)) eqn:E3; cbn [negb].
      + split; [|reflexivity]. intros _. exists (c :: s). repeat split; assumption.
      + split; [discriminate|]. intros (s' & [= <-] & _ & Hre). congruence. }
  split.
  - rewrite H. split.
    + intros (s & -> & Hl & Hre). cbn. apply test_id_regex_pattern; [lia | now split].
    + destruct (Js.orVal params body) as [| | | | |s|]; cbn; try discriminate.
      intros Hp. apply test_id_regex_pattern in Hp; [|lia]. exists s. now split.
  - intros Hn. apply H in Hn as (s & E & Hl & Hre). exists s. split; [exact E|]. split.
    + apply validateSessionId_accepts. split; [reflexivity|].
      apply test_id_regex_pattern; [lia|]. split; [lia | exact Hre].
    + apply store_validateSessionId_accepts; [|exact Hre].
      intros ->. unfold Js.jslength in Hl. cbn in Hl. lia.
Qed.

Lemma middleware_sessionId_is_stricter_witness :
  exists s,
    Js.orVal (Js.Str (Js.lit "haby")) Js.Undefined = Js.Str s /\
    CM.validateSessionId (Js.Str s) = Return s /\
    SessionStore.validateSessionId (Js.Str s) = Return s.
Proof.
  assert (H : Validation.validateSessionId (Js.Str (Js.lit "haby")) Js.Undefined
              = Validation.Next tt) by (vm_compute; reflexivity).
  exact (proj2 (middleware_sessionId_is_stricter _ _) H).
Defined.

Lemma filter_all_digits d :
  List.forallb Js.isDigit d = true -> List.filter Js.isDigit d = d.
Proof.
  induction d as [|c d IH]; [reflexivity|]. cbn. intros H.
  apply andb_true_iff in H as [Hc Hd]. rewrite Hc. f_equal. now apply IH.
Qed.

Lemma digits_of_address d :
  List.forallb Js.isDigit d = true ->
  Js.replace_non_digits (d ++ Js.lit "@c.us") = d.
Proof.
  intros H. unfold Js.replace_non_digits. rewrite List.filter_app.
  rewrite filter_all_digits by assumption. cbn. apply app_nil_r.
Qed.

Lemma digits_idem n :
  Js.replace_non_digits (Js.replace_non_digits n) = Js.replace_non_digits n.
Proof. apply filter_all_digits, filter_isDigit. Qed.

Lemma startsWith_app p s : Js.startsWith (p ++ s) p = true.
Proof.
  induction p as [|c p IH]; [now destruct s|]. cbn. now rewrite N.eqb_refl.
Qed.

(** The digits of a normalized address are those in front of "@c.us". *)
Lemma normalized_digits n :
  exists d,
    Spec.normalized n = d ++ Js.lit "@c.us" /\
    List.forallb Js.isDigit d = true /\
    ((Js.jslength d =? 10) && negb (Js.startsWith d (Js.lit "54")) = false).
Proof.
  unfold Spec.normalized.
  set (digits := List.filter Js.isDigit n).
  assert (Hd : List.forallb Js.isDigit digits = true) by apply filter_isDigit.
  destruct ((Js.jslength digits =? 10) && negb (Js.startsWith digits (Js.lit "54"))) eqn:E.
  - exists (Js.lit "54" ++ digits). split; [reflexivity|]. split.
    + rewrite forallb_app, Hd. reflexivity.
    + rewrite startsWith_app. cbn. apply andb_false_r.
  - exists digits. now repeat split.
Qed.

Lemma normalized_of_address d :
  List.forallb Js.isDigit d = true ->
  (Js.jslength d =? 10) && negb (Js.startsWith d (Js.lit "54")) = false ->
  Spec.normalized (d ++ Js.lit "@c.us") = d ++ Js.lit "@c.us".
Proof.
  intros Hd Hc. unfold Spec.normalized.
  change (List.filter Js.isDigit (d ++ Js.lit "@c.us"))
    with (Js.replace_non_digits (d ++ Js.lit "@c.us")).
  rewrite digits_of_address by assumption. now rewrite Hc.
Qed.

Lemma validatePhoneNumber_Next to t' :
  Validation.validatePhoneNumber to = Validation.Next t' ->
  exists t,
    to = Js.Str t /\
    t' = Js.replace_non_digits t ++ Js.lit "@c.us" /\
    8 <= Js.jslength (Js.replace_non_digits t) <= 15.
Proof.
  unfold Validation.validatePhoneNumber.
  destruct to as [| | | | |t|]; cbn [Js.truthy negb]; try discriminate.
  - destruct b; discriminate.
  - destruct (negb (n =? 0)); discriminate.
  - destruct t as [|c t]; [discriminate|].
    destruct (Js.jslength (Js.replace_non_digits (c :: t)) <? 8) eqn:E1;
      [discriminate|].
    destruct (Js.jslength (Js.replace_non_digits (c :: t)) >? 15) eqn:E2;
      [discriminate|].
    cbn [orb]. intros [= <-]. exists (c :: t).
    apply Z.ltb_ge in E1. rewrite Z.gtb_ltb in E2. apply Z.ltb_ge in E2.
    repeat split; assumption.
Qed.

Lemma format_of_rewritten t :
  MS.formatPhoneNumber (Js.replace_non_digits t ++ Js.lit "@c.us") = Spec.normalized t.
Proof.
  rewrite formatPhoneNumber_normalized. unfold Spec.normalized at 1.
  change (List.filter Js.isDigit (Js.replace_non_digits t ++ Js.lit "@c.us"))
    with (Js.replace_non_digits (Js.replace_non_digits t ++ Js.lit "@c.us")).
  rewrite digits_of_address by apply filter_isDigit. reflexivity.
Qed.

(** X20: [_formatPhoneNumber] is idempotent, and the rewriting of
    [req.body.to] by the middleware [validatePhoneNumber] does not
    change the address the sender computes: for a request the
    middleware lets through, [to] was a string with 8 to 15 digits, it
    is replaced by these digits followed by "@c.us", and formatting
    that gives what formatting the original would have given. *)
Theorem formatPhoneNumber_is_stable :
  (forall n, MS.formatPhoneNumber (MS.formatPhoneNumber n) = MS.formatPhoneNumber n) /\
  (forall to t',
     Validation.validatePhoneNumber to = Validation.Next t' ->
     exists t,
       to = Js.Str t /\
       t' = Js.replace_non_digits t ++ Js.lit "@c.us" /\
       8 <= Js.jslength (Js.replace_non_digits t) <= 15 /\
       MS.formatPhoneNumber t' = MS.formatPhoneNumber t).
Proof.
  split.
  - intros n. rewrite !formatPhoneNumber_normalized.
    destruct (normalized_digits n) as (d & -> & Hd & Hc).
    now apply normalized_of_address.
  - intros to t' H. apply validatePhoneNumber_Next in H as (t & -> & -> & Hl).
    exists t. repeat split; try apply Hl.
    now rewrite format_of_rewritten, formatPhoneNumber_normalized.
Qed.

Lemma formatPhoneNumber_is_stable_witness :
  MS.formatPhoneNumber (Js.lit "1123456789@c.us") = MS.formatPhoneNumber (Js.lit "11 2345-6789").
Proof.
  assert (H : Validation.validatePhoneNumber Scenario.recipient
              = Validation.Next (Js.lit "1123456789@c.us")) by (vm_compute; reflexivity).
  destruct (proj2 formatPhoneNumber_is_stable _ _ H) as (t & Ht & _ & _ & E).
  injection Ht as <-. exact E.
Defined.

(** X21: what the middlewares of the message routes let through, the
    sender accepts.  For a session id read from the path (a string that
    is not empty), a [to] rewritten by [validatePhoneNumber] and a
    message accepted by [validateMessage], [_validateInputs] of the
    message sender returns, and the address the sender computes is the
    normalized form of the [to] the client sent. *)
Theorem validated_request_is_accepted_by_the_sender s to t' message :
  s <> [] ->
  Validation.validatePhoneNumber to = Validation.Next t' ->
  Validation.validateMessage message = Validation.Next tt ->
  exists t text,
    to = Js.Str t /\ message = Js.Str text /\
    MS.validateInputs (Js.Str s) (Js.Str t') message = Return (s, t', text) /\
    MS.formatPhoneNumber t' = Spec.normalized t.
Proof.
  intros Hs Ht Hm.
  apply validatePhoneNumber_Next in Ht as (t & -> & -> & Hl).
  assert (Hmsg : exists text, message = Js.Str text /\ text <> [] /\
                              Js.jslength text <= 4096).
  { revert Hm. unfold Validation.validateMessage.
    destruct message as [| | | | |m|]; cbn [Js.truthy negb]; try discriminate.
    - destruct b; discriminate.
    - destruct (negb (n =? 0)); discriminate.
    - destruct m as [|c m]; [discriminate|].
      destruct (Js.jslength (Js.trim (c :: m)) =? 0); [discriminate|].
      destruct (Js.jslength (c :: m) >? 4096) eqn:E; [discriminate|].
      intros _. exists (c :: m). split; [reflexivity|]. split; [discriminate|].
      rewrite Z.gtb_ltb in E. now apply Z.ltb_ge in E. }
  destruct Hmsg as (text & -> & Hne & Hlen).
  exists t, text. split; [reflexivity|]. split; [reflexivity|].
  split; [|apply format_of_rewritten].
  unfold MS.validateInputs.
  destruct s as [|c s]; [congruence|].
  destruct (Js.replace_non_digits t ++ Js.lit "@c.us") as [|d u] eqn:E.
  { apply app_eq_nil in E as [_ E]. discriminate. }
  destruct text as [|x text]; [congruence|].
  rewrite Z.gtb_ltb. destruct (Z.ltb_spec 4096 (Js.jslength (x :: text))); [lia|].
  reflexivity.
Qed.

Lemma validated_request_is_accepted_by_the_sender_witness :
  exists t text,
    Scenario.recipient = Js.Str t /\ Scenario.hello = Js.Str text /\
    MS.validateInputs (Js.Str Scenario.s1) (Js.Str (Js.lit "1123456789@c.us")) Scenario.hello
      = Return (Scenario.s1, Js.lit "1123456789@c.us", text) /\
    MS.formatPhoneNumber (Js.lit "1123456789@c.us") = Spec.normalized t.
Proof.
  assert (H1 : Scenario.s1 <> []) by (vm_compute; discriminate).
  assert (H2 : Validation.validatePhoneNumber Scenario.recipient
               = Validation.Next (Js.lit "1123456789@c.us")) by (vm_compute; reflexivity).
  assert (H3 : Validation.validateMessage Scenario.hello = Validation.Next tt)
    by (vm_compute; reflexivity).
  exact (validated_request_is_accepted_by_the_sender _ _ _ _ H1 H2 H3).
Defined.

End Middleware.


(** ** Phone numbers and users in the message listener *)

Section ListenerHelpers.

Lemma digit_is_not_at c : Js.isDigit c = true -> (c =? 64)%N = false.
Proof.
  unfold Js.isDigit. intros H. apply N.eqb_neq. intros ->. discriminate.
Qed.

Lemma startsWith_digit c s p :
  Js.isDigit c = true -> Js.startsWith (c :: s) (64%N :: p) = false.
Proof. intros H. cbn [Js.startsWith]. now rewrite (digit_is_not_at c H). Qed.

(** Taking "@c.us" out of digits followed by "@c.us" leaves the digits. *)
Lemma remove_first_suffix d :
  List.forallb Js.isDigit d = true ->
  Js.remove_first (d ++ Js.lit "@c.us") (Js.lit "@c.us") = d.
Proof.
  induction d as [|c d IH]; [reflexivity|].
  intros H. cbn in H. apply andb_true_iff in H as [Hc Hd].
  cbn [app Js.remove_first].
  replace (Js.startsWith (c :: d ++ Js.lit "@c.us") (Js.lit "@c.us")) with false.
  - f_equal. now apply IH.
  - symmetry. exact (startsWith_digit c _ (Js.lit "c.us") Hc).
Qed.

(** There is no "@g.us" to take out of digits. *)
Lemma remove_first_absent d :
  List.forallb Js.isDigit d = true -> Js.remove_first d (Js.lit "@g.us") = d.
Proof.
  induction d as [|c d IH]; [reflexivity|].
  intros H. cbn in H. apply andb_true_iff in H as [Hc Hd].
  cbn [Js.remove_first].
  replace (Js.startsWith (c :: d) (Js.lit "@g.us")) with false.
  - f_equal. now apply IH.
  - symmetry. exact (startsWith_digit c _ (Js.lit "g.us") Hc).
Qed.

Lemma extractPhoneNumber_digits d :
  List.forallb Js.isDigit d = true ->
  MessageListener.extractPhoneNumber (d ++ Js.lit "@c.us")
    = if (Js.jslength d =? 10) && negb (Js.startsWith d (Js.lit "54"))
      then Js.lit "54" ++ d else d.
Proof.
  intros H. unfold MessageListener.extractPhoneNumber.
  now rewrite remove_first_suffix, remove_first_absent.
Qed.

(** X22: the listener and the sender agree on phone numbers.  For an
    address made of digits followed by "@c.us", [_extractPhoneNumber]
    gives the digits, with 54 in front when there are exactly ten of
    them that do not start with 54; so the number under which the
    listener files a message that comes from the address
    [_formatPhoneNumber] computed for [n] is that address without its
    "@c.us", and formatting the number the listener extracted gives the
    address the sender uses for these digits. *)
Theorem extractPhoneNumber_inverts_formatPhoneNumber :
  (forall n,
     MessageListener.extractPhoneNumber (MS.formatPhoneNumber n) ++ Js.lit "@c.us"
       = MS.formatPhoneNumber n) /\
  (forall d,
     List.forallb Js.isDigit d = true ->
     MessageListener.extractPhoneNumber (d ++ Js.lit "@c.us")
       = (if (Js.jslength d =? 10) && negb (Js.startsWith d (Js.lit "54"))
          then Js.lit "54" ++ d else d) /\
     MS.formatPhoneNumber (MessageListener.extractPhoneNumber (d ++ Js.lit "@c.us"))
       = MS.formatPhoneNumber d).
Proof.
  split.
  - intros n. rewrite formatPhoneNumber_normalized.
    destruct (normalized_digits n) as (d & -> & Hd & Hc).
    rewrite extractPhoneNumber_digits by assumption. now rewrite Hc.
  - intros d Hd. split; [now apply extractPhoneNumber_digits|].
    rewrite extractPhoneNumber_digits by assumption.
    rewrite !formatPhoneNumber_normalized. unfold Spec.normalized.
    rewrite (filter_all_digits d Hd).
    destruct ((Js.jslength d =? 10) && negb (Js.startsWith d (Js.lit "54"))) eqn:E.
    + rewrite filter_all_digits by (rewrite forallb_app, Hd; reflexivity).
      rewrite startsWith_app. cbn [negb]. now rewrite andb_false_r.
    + rewrite (filter_all_digits d Hd). now rewrite E.
Qed.

Lemma extractPhoneNumber_inverts_formatPhoneNumber_witness :
  MessageListener.extractPhoneNumber (Js.lit "1123456789@c.us") = Js.lit "541123456789".
Proof.
  assert (H : List.forallb Js.isDigit (Js.lit "1123456789") = true)
    by (vm_compute; reflexivity).
  exact (proj1 (proj2 extractPhoneNumber_inverts_formatPhoneNumber _ H)).
Defined.

End ListenerHelpers.

Section UsersCache.

Context {A : Type}.

Implicit Types (c : MessageListener.usersCache A) (key k : Js.jsstring).

Lemma cache_get_set c key v :
  MessageListener.cache_get (MessageListener.cache_set c key v) key = Some v.
Proof.
  induction c as [|[k w] c IH]; cbn.
  - unfold Js.eqb. now rewrite bool_decide_eq_true_2.
  - destruct (Js.eqb k key) eqn:E; cbn; now rewrite E.
Qed.

Lemma cache_get_set_other c key v k :
  k <> key ->
  MessageListener.cache_get (MessageListener.cache_set c key v) k
    = MessageListener.cache_get c k.
Proof.
  intros Hne. induction c as [|[k' w] c IH]; cbn.
  - unfold Js.eqb. rewrite bool_decide_eq_false_2 by congruence. reflexivity.
  - destruct (Js.eqb k' key) eqn:E; cbn.
    + apply bool_decide_eq_true in E. subst k'.
      unfold Js.eqb. now rewrite !bool_decide_eq_false_2 by congruence.
    + destruct (Js.eqb k' k); [reflexivity | exact IH].
Qed.

Lemma cache_get_delete_other c key k :
  k <> key ->
  MessageListener.cache_get (MessageListener.cache_delete c key) k
    = MessageListener.cache_get c k.
Proof.
  intros Hne. induction c as [|[k' w] c IH]; cbn; [reflexivity|].
  destruct (Js.eqb k' key) eqn:E; cbn.
  - apply bool_decide_eq_true in E. subst k'.
    unfold Js.eqb. now rewrite bool_decide_eq_false_2 by congruence.
  - destruct (Js.eqb k' k); [reflexivity | exact IH].
Qed.

Lemma length_cache_set c key v :
  (length (MessageListener.cache_set c key v) <= S (length c))%nat.
Proof.
  induction c as [|[k w] c IH]; cbn; [lia|].
  destruct (Js.eqb k key); cbn; lia.
Qed.

(** X23: the cache of users is bounded.  [_cacheUser] leaves a cache
    of at most [maxCacheSize] entries (at most one when that setting is
    below one) within that bound; the entry of the key it was called
    with is the user it was given, with the time of the call; when the
    cache is full it drops the oldest entry, and only that one: every
    key other than the oldest one and the one being cached keeps its
    entry. *)
Theorem users_cache_is_bounded maxCacheSize c key (userData : A) now :
  let c' := MessageListener.cacheUser maxCacheSize c key userData now in
  (Z.of_nat (length c) <= Z.max 1 maxCacheSize ->
   Z.of_nat (length c') <= Z.max 1 maxCacheSize) /\
  MessageListener.cache_get c' key
    = Some {| MessageListener.cu_data := userData; MessageListener.cu_cachedAt := now |} /\
  (forall k,
     k <> key ->
     (Z.of_nat (length c) < maxCacheSize \/ head (c.*1) <> Some k) ->
     MessageListener.cache_get c' k = MessageListener.cache_get c k).
Proof.
  cbn zeta. unfold MessageListener.cacheUser.
  split; [|split].
  - intros Hb.
    destruct (Z.of_nat (length c) >=? maxCacheSize) eqn:E.
    + destruct c as [|[k w] c]; [cbn; lia|].
      cbn [MessageListener.cache_delete]. unfold Js.eqb at 1.
      rewrite bool_decide_eq_true_2 by reflexivity.
      pose proof (length_cache_set c key
                    {| MessageListener.cu_data := userData;
                       MessageListener.cu_cachedAt := now |}) as Hl.
      cbn [length] in Hb. lia.
    + rewrite Z.geb_leb in E. apply Z.leb_gt in E.
      pose proof (length_cache_set c key
                    {| MessageListener.cu_data := userData;
                       MessageListener.cu_cachedAt := now |}) as Hl.
      lia.
  - apply cache_get_set.
  - intros k Hne Hk. rewrite cache_get_set_other by assumption.
    destruct (Z.of_nat (length c) >=? maxCacheSize) eqn:E; [|reflexivity].
    destruct c as [|[k0 w] c]; [reflexivity|].
    apply cache_get_delete_other.
    destruct Hk as [Hk|Hk].
    + rewrite Z.geb_leb in E. apply Z.leb_le in E. lia.
    + cbn in Hk. congruence.
Qed.

End UsersCache.

Lemma users_cache_is_bounded_witness :
  Z.of_nat (length (MessageListener.cacheUser 2
                      [(Js.lit "user_541100000001",
                        {| MessageListener.cu_data := 1%nat;
                           MessageListener.cu_cachedAt := 1000 |});
                       (Js.lit "user_541100000002",
                        {| MessageListener.cu_data := 2%nat;
                           MessageListener.cu_cachedAt := 2000 |})]
                      (Js.lit "user_541100000003") 3%nat 3000))
    <= Z.max 1 2.
Proof.
  refine (proj1 (users_cache_is_bounded 2 _ _ _ _) _).
  apply Z.leb_le. vm_compute. reflexivity.
Defined.


(** ** The session store *)

Section Store.

Lemma applyActivity_counts a d :
  SessionStore.totalMessages (SessionStore.sd_stats (SessionStore.applyActivity a d))
  - SessionStore.totalMessages (SessionStore.sd_stats d)
  = (SessionStore.totalMessagesSent (SessionStore.sd_stats (SessionStore.applyActivity a d))
     - SessionStore.totalMessagesSent (SessionStore.sd_stats d))
    + (SessionStore.totalMessagesReceived
         (SessionStore.sd_stats (SessionStore.applyActivity a d))
       - SessionStore.totalMessagesReceived (SessionStore.sd_stats d)).
Proof.
  unfold SessionStore.applyActivity.
  repeat match goal with
         | |- context [if ?b then _ else _] => destruct b
         end; cbn; lia.
Qed.

Lemma recordActivity_cache x s a now io :
  SessionStore.sessionsCache (fst (SessionStore.recordActivity x s a now io))
    = alter (fun d => SessionStore.applyActivity a (SessionStore.set_lastUsed now d)) s
        (SessionStore.sessionsCache x).
Proof.
  unfold SessionStore.recordActivity.
  destruct (SessionStore.sessionsCache x !! s) as [d|] eqn:Hd.
  - destruct (_ || _); [destruct io|]; reflexivity.
  - cbn. symmetry. apply map_eq. intros s'.
    destruct (decide (s = s')) as [<-|Hne].
    + now rewrite lookup_alter_eq, Hd.
    + now rewrite lookup_alter_ne.
Qed.

(** X24: [recordActivity] keeps the counters of a session consistent.
    For a session of the store, whatever the kind of activity and
    whether or not the metadata file could be written, the total of
    messages grows by what the counters of messages sent and received
    grow together (so that a total that is their sum stays their sum),
    [lastUsed] becomes the time of the call, and no other session is
    touched; for a session the store does not have, the cache is left
    as it is. *)
Theorem recordActivity_keeps_the_counters x s activityType now io :
  let x' := fst (SessionStore.recordActivity x s activityType now io) in
  (forall d,
     SessionStore.sessionsCache x !! s = Some d ->
     exists d',
       SessionStore.sessionsCache x' !! s = Some d' /\
       SessionStore.sd_lastUsed d' = now /\
       SessionStore.totalMessages (SessionStore.sd_stats d')
       - SessionStore.totalMessages (SessionStore.sd_stats d)
       = (SessionStore.totalMessagesSent (SessionStore.sd_stats d')
          - SessionStore.totalMessagesSent (SessionStore.sd_stats d))
         + (SessionStore.totalMessagesReceived (SessionStore.sd_stats d')
            - SessionStore.totalMessagesReceived (SessionStore.sd_stats d)) /\
       (SessionStore.totalMessages (SessionStore.sd_stats d)
        = SessionStore.totalMessagesSent (SessionStore.sd_stats d)
          + SessionStore.totalMessagesReceived (SessionStore.sd_stats d) ->
        SessionStore.totalMessages (SessionStore.sd_stats d')
        = SessionStore.totalMessagesSent (SessionStore.sd_stats d')
          + SessionStore.totalMessagesReceived (SessionStore.sd_stats d'))) /\
  (forall s', s' <> s ->
     SessionStore.sessionsCache x' !! s' = SessionStore.sessionsCache x !! s') /\
  (SessionStore.sessionsCache x !! s = None ->
   SessionStore.sessionsCache x' = SessionStore.sessionsCache x).
Proof.
  cbn zeta. rewrite recordActivity_cache. split; [|split].
  - intros d Hd. rewrite lookup_alter_eq, Hd. cbn. eexists. split; [reflexivity|].
    pose proof (applyActivity_counts activityType (SessionStore.set_lastUsed now d)) as H.
    cbn in H. split; [|split].
    + unfold SessionStore.applyActivity.
      repeat match goal with
             | |- context [if ?b then _ else _] => destruct b
             end; reflexivity.
    + exact H.
    + intros E. lia.
  - intros s' Hne. now rewrite lookup_alter_ne by congruence.
  - intros Hd. apply map_eq. intros s'.
    destruct (decide (s = s')) as [<-|Hne].
    + now rewrite lookup_alter_eq, Hd.
    + now rewrite lookup_alter_ne.
Qed.

Lemma recordActivity_keeps_the_counters_witness :
  exists d',
    SessionStore.sessionsCache
      (fst (SessionStore.recordActivity (WA.sessionStore Scenario.service1) Scenario.s1
              (Js.lit "message_sent") 2000 (Return tt))) !! Scenario.s1 = Some d' /\
    SessionStore.totalMessages (SessionStore.sd_stats d')
    = SessionStore.totalMessagesSent (SessionStore.sd_stats d')
      + SessionStore.totalMessagesReceived (SessionStore.sd_stats d').
Proof.
  assert (H : SessionStore.sessionsCache (WA.sessionStore Scenario.service1) !! Scenario.s1
              = Some {| SessionStore.sd_createdAt := 1000; SessionStore.sd_lastUsed := 1000;
                        SessionStore.sd_status := Js.lit "created";
                        SessionStore.sd_stats :=
                          {| SessionStore.totalMessages := 0;
                             SessionStore.totalMessagesSent := 0;
                             SessionStore.totalMessagesReceived := 0 |} |})
    by (vm_compute; reflexivity).
  destruct (proj1 (recordActivity_keeps_the_counters
                     (WA.sessionStore Scenario.service1) Scenario.s1
                     (Js.lit "message_sent") 2000 (Return tt)) _ H)
    as (d' & E1 & _ & _ & E2).
  exists d'. split; [exact E1 | apply E2; reflexivity].
Defined.

(** X25: deleting a session from the store frees its id.  On an
    initialized store [deleteSession] returns [true] for a session the
    store has, whether or not its files could be removed, and [false]
    for one it does not have; afterwards [hasSession] is [false], a
    second [deleteSession] returns [false], and [createSession] with the
    same (well-formed) id goes through when the file system does. *)
Theorem deleteSession_frees_the_id x s deleteFiles io :
  SessionStore.isInitialized x = true ->
  let out := SessionStore.deleteSession x s deleteFiles io in
  let x' := fst (fst out) in
  snd out = Return (bool_decide (is_Some (SessionStore.sessionsCache x !! s))) /\
  SessionStore.sessionsCache x' = delete s (SessionStore.sessionsCache x) /\
  SessionStore.hasSession x' s = Return false /\
  (forall deleteFiles' io',
     snd (SessionStore.deleteSession x' s deleteFiles' io') = Return false) /\
  (SessionStore.validateSessionId (Js.Str s) = Return s ->
   forall now,
     snd (SessionStore.createSession x' (Js.Str s) now (Return tt) (Return tt)) = Return s).
Proof.
  intros Hi. cbn zeta. unfold SessionStore.deleteSession. rewrite Hi. cbn [negb].
  destruct (SessionStore.sessionsCache x !! s) as [d|] eqn:Hd.
  - assert (E : forall y : SessionStore.t,
              SessionStore.isInitialized y = true ->
              SessionStore.sessionsCache y = delete s (SessionStore.sessionsCache x) ->
              SessionStore.hasSession y s = Return false /\
              (forall deleteFiles' io',
                 snd (SessionStore.deleteSession y s deleteFiles' io') = Return false) /\
              (SessionStore.validateSessionId (Js.Str s) = Return s ->
               forall now,
                 snd (SessionStore.createSession y (Js.Str s) now (Return tt) (Return tt))
                   = Return s)).
    { intros y Hy Ec.
      assert (Hn : SessionStore.sessionsCache y !! s = None)
        by (rewrite Ec; apply lookup_delete_eq).
      split; [|split].
      - unfold SessionStore.hasSession. now rewrite Hy, Hn.
      - intros deleteFiles' io'. unfold SessionStore.deleteSession. now rewrite Hy, Hn.
      - intros Hv now. unfold SessionStore.createSession. now rewrite Hy, Hv, Hn. }
    cbn [fst snd]. split; [now rewrite bool_decide_eq_true_2 by eauto|].
    destruct deleteFiles; [destruct io|]; cbn; (split; [reflexivity|]);
      apply E; cbn; auto.
  - cbn [fst snd]. split; [rewrite bool_decide_eq_false_2; [reflexivity|now intros [? ?]]|].
    split; [cbn; now rewrite delete_id|].
    split; [|split].
    + unfold SessionStore.hasSession. cbn. now rewrite Hi, Hd.
    + intros deleteFiles' io'. unfold SessionStore.deleteSession. cbn. now rewrite Hi, Hd.
    + intros Hv now. unfold SessionStore.createSession, SessionStore.logged.
      cbn [SessionStore.isInitialized SessionStore.sessionsCache].
      now rewrite Hi, Hv, Hd.
Qed.

Lemma deleteSession_frees_the_id_witness :
  snd (SessionStore.createSession
         (fst (fst (SessionStore.deleteSession (WA.sessionStore Scenario.service1)
                      Scenario.s1 true (Throw (ErrExternal 2)))))
         (Js.Str Scenario.s1) 3000 (Return tt) (Return tt))
    = Return Scenario.s1.
Proof.
  assert (H1 : SessionStore.isInitialized (WA.sessionStore Scenario.service1) = true)
    by (vm_compute; reflexivity).
  assert (H2 : SessionStore.validateSessionId (Js.Str Scenario.s1) = Return Scenario.s1)
    by (vm_compute; reflexivity).
  exact (proj2 (proj2 (proj2 (proj2 (deleteSession_frees_the_id
                                       (WA.sessionStore Scenario.service1) Scenario.s1
                                       true (Throw (ErrExternal 2)) H1)))) H2 3000).
Defined.

End Store.


(** ** [reconnectSession] across its wait *)

Section ReconnectAwait.

Import VenomBotAdapter.

Lemma alter_absent {A} (f : A -> A) (m : gmap sid A) s :
  m !! s = None -> alter f s m = m.
Proof.
  intros H. apply map_eq. intros j. destruct (decide (j = s)) as [->|Hne].
  - now rewrite lookup_alter_eq, H.
  - now rewrite lookup_alter_ne.
Qed.

(** [reconnectSession] is its two halves, whatever [held] is, when
    nothing runs during the wait. *)
Lemma reconnectSession_halves m s held now1 now2 rc r :
  CM.reconnectSession m s now1 now2 rc r
    = match CM.reconnect_until_wait m s now1 rc with
      | (m1, Throw e) => (m1, Throw e)
      | (m1, Return _) => CM.reconnect_after_wait m1 s held now2 r
      end.
Proof.
  unfold CM.reconnectSession, CM.reconnect_until_wait, CM.reconnect_after_wait.
  destruct (CM.reconnect_begin m s) as [m1 [u|e]] eqn:Eb; [|reflexivity].
  assert (Hin : is_Some (CM.connections m1 !! s)).
  { revert Eb. unfold CM.reconnect_begin, CM.reconnect_check.
    destruct (CM.connections m !! s) as [c|] eqn:Hc; [|discriminate].
    destruct (CM.c_reconnectAttempts c >=? CM.reconnectAttempts (CM.cfg m));
      [discriminate|].
    intros [= <-]. cbn. rewrite lookup_alter_eq, Hc. now eexists. }
  destruct (closeInstance (CM.adapter m1) s rc) as [[a2 evs2] b].
  set (m2 := CM.dispatch now1 (CM.with_adapter a2 m1) evs2).
  assert (Hin2 : is_Some (CM.connections m2 !! s)).
  { apply elem_of_dom. subst m2. rewrite dom_dispatch. now apply elem_of_dom. }
  destruct (createInstance (CM.adapter m2) s now2 r) as [[a3 evs3] [cl|e]];
    [|reflexivity].
  set (m3 := CM.dispatch now2 (CM.with_adapter a3 m2) evs3).
  assert (Hin3 : is_Some (CM.connections m3 !! s)).
  { apply elem_of_dom. subst m3. rewrite dom_dispatch. now apply elem_of_dom. }
  destruct Hin3 as [c3 Hc3]. cbn. now rewrite lookup_alter_eq, Hc3.
Qed.

(** The first half on a session that may be reconnected: the counter
    is one up, the instance is gone, the call waits. *)
Lemma reconnect_until_wait_ok m s c now rc :
  CM.connections m !! s = Some c ->
  CM.c_reconnectAttempts c < CM.reconnectAttempts (CM.cfg m) ->
  snd (CM.reconnect_until_wait m s now rc) = Return tt /\
  CM.connections (fst (CM.reconnect_until_wait m s now rc)) !! s
    = Some (CM.set_status CM.Reconnecting
              (CM.set_reconnectAttempts (CM.c_reconnectAttempts c + 1) c)) /\
  instances (CM.adapter (fst (CM.reconnect_until_wait m s now rc))) !! s = None.
Proof.
  intros Hc Hlt. unfold CM.reconnect_until_wait.
  destruct (reconnect_begin_increments m s c Hc Hlt) as (m1 & -> & Ha & Hc1).
  destruct (closeInstance_removes (CM.adapter m1) s rc) as (a2 & evs & b & -> & Ha2 & Hd).
  rewrite Hd. cbn. now repeat split.
Qed.

(** [closeSession] on a session whose instance is gone. *)
Lemma closeSession_without_instance m s c now rc :
  CM.connections m !! s = Some c ->
  instances (CM.adapter m) !! s = None ->
  snd (CM.closeSession m s now rc) = Return true /\
  CM.connections (fst (CM.closeSession m s now rc)) = delete s (CM.connections m) /\
  instances (CM.adapter (fst (CM.closeSession m s now rc))) = instances (CM.adapter m) /\
  wire (CM.adapter (fst (CM.closeSession m s now rc))) = wire (CM.adapter m).
Proof.
  intros Hc Hi. destruct (closeSession_known m s c now rc Hc) as [H1 H2].
  split; [exact H1|]. split; [exact H2|].
  unfold CM.closeSession, CM.closeSession_begin. rewrite Hc.
  unfold closeInstance. cbn. rewrite Hi. cbn. now split.
Qed.

(** The second half on a manager that has neither the session nor an
    instance for it. *)
Lemma reconnect_after_wait_detached m s held now cl :
  CM.connections m !! s = None ->
  instances (CM.adapter m) !! s = None ->
  let out := CM.reconnect_after_wait m s held now (Return cl) in
  snd out = Return true /\
  CM.connections (fst out) = CM.connections m /\
  instances (CM.adapter (fst out))
    = <[s := {| i_client := Some cl; i_status := connected_str; i_qrCode := None;
                i_lastActivity := now; i_attempts := 0 |}]> (instances (CM.adapter m)) /\
  wire (CM.adapter (fst out)) = wire (CM.adapter m) ++ [WCreate s] /\
  CM.events (fst out)
    = CM.events m ++ [CM.SessionConnected s;
                      CM.SessionReconnected s (CM.c_reconnectAttempts held)].
Proof.
  intros Hc Hi. cbn zeta.
  unfold CM.reconnect_after_wait, createInstance, createInstance_begin. rewrite Hi.
  cbn -[connected_str Js.lit].
  rewrite (alter_absent _ (CM.connections m)) by assumption.
  rewrite (alter_absent _ (CM.connections m)) by assumption.
  rewrite Hc. cbn -[connected_str Js.lit].
  split; [reflexivity|]. split; [reflexivity|]. split.
  - apply map_eq. intros j. destruct (decide (j = s)) as [->|Hne].
    + now rewrite lookup_alter_eq, !lookup_insert_eq.
    + now rewrite lookup_alter_ne, !lookup_insert_ne by congruence.
  - split; [reflexivity|]. now rewrite <- app_assoc.
Qed.

(** X26: [closeSession] does not stop a reconnection that is waiting.
    [reconnectSession] has closed the instance of a session and waits
    [reconnectDelay]; [closeSession] is called for the session
    meanwhile and returns [true], the session is out of the map; the
    reconnection then resumes, gets a client from venom-bot and returns
    [true] as well, announcing [sessionReconnected].  The adapter now
    holds a connected client for a session the manager does not have:
    [sendMessage] for it throws 'Sesión ... no encontrada', and
    [closeSession] returns [false] without reaching the adapter, so
    that this client is not closed by it. *)
Theorem closeSession_does_not_stop_a_reconnection
  m s c held now1 rc1 now2 rc2 now3 cl :
  CM.connections m !! s = Some c ->
  CM.c_reconnectAttempts c < CM.reconnectAttempts (CM.cfg m) ->
  let m1 := fst (CM.reconnect_until_wait m s now1 rc1) in
  let m2 := fst (CM.closeSession m1 s now2 rc2) in
  let m3 := fst (CM.reconnect_after_wait m2 s held now3 (Return cl)) in
  snd (CM.reconnect_until_wait m s now1 rc1) = Return tt /\
  snd (CM.closeSession m1 s now2 rc2) = Return true /\
  snd (CM.reconnect_after_wait m2 s held now3 (Return cl)) = Return true /\
  CM.connections m3 = delete s (CM.connections m1) /\
  instances (CM.adapter m3) !! s
    = Some {| i_client := Some cl; i_status := connected_str; i_qrCode := None;
              i_lastActivity := now3; i_attempts := 0 |} /\
  CM.events m3
    = CM.events m2 ++ [CM.SessionConnected s;
                       CM.SessionReconnected s (CM.c_reconnectAttempts held)] /\
  ~ Spec.no_orphan m3 /\
  (forall number message now,
     snd (CM.sendMessage_begin m3 s number message now) = Throw ErrSessionNotFound) /\
  (forall now rc,
     snd (CM.closeSession m3 s now rc) = Return false /\
     CM.adapter (fst (CM.closeSession m3 s now rc)) = CM.adapter m3).
Proof.
  intros Hc Hlt m1 m2 m3.
  destruct (reconnect_until_wait_ok m s c now1 rc1 Hc Hlt) as (R1 & Hc1 & Hi1).
  fold m1 in Hc1, Hi1.
  destruct (closeSession_without_instance m1 s _ now2 rc2 Hc1 Hi1) as (R2 & Hc2 & Hi2 & _).
  fold m2 in Hc2, Hi2.
  assert (Hn2 : CM.connections m2 !! s = None) by (rewrite Hc2; apply lookup_delete_eq).
  assert (Ha2 : instances (CM.adapter m2) !! s = None) by now rewrite Hi2.
  destruct (reconnect_after_wait_detached m2 s held now3 cl Hn2 Ha2)
    as (R3 & Hc3 & Hi3 & _ & He3).
  fold m3 in Hc3, Hi3, He3.
  assert (Hn3 : CM.connections m3 !! s = None) by now rewrite Hc3.
  split; [exact R1|]. split; [exact R2|]. split; [exact R3|].
  split; [now rewrite Hc3|]. split; [now rewrite Hi3, lookup_insert_eq|].
  split; [exact He3|]. split; [|split].
  - intros Hsub. apply not_elem_of_dom in Hn3. apply Hn3, Hsub.
    apply elem_of_dom. rewrite Hi3, lookup_insert_eq. now eexists.
  - intros number message now. unfold CM.sendMessage_begin. now rewrite Hn3.
  - intros now rc. now rewrite closeSession_unknown.
Qed.

(** [s1] is connected with the client 7.  A reconnection starts at
    2000, [closeSession('s1')] is called at 10000, and the reconnection
    resumes at 32000 with the client 8: the manager has no session,
    the adapter holds the client 8. *)
Lemma closeSession_does_not_stop_a_reconnection_witness :
  CM.connections
    (fst (CM.reconnect_after_wait
            (fst (CM.closeSession
                    (fst (CM.reconnect_until_wait Scenario.manager1 Scenario.s1 2000
                            (Return tt)))
                    Scenario.s1 10000 (Return tt)))
            Scenario.s1
            {| CM.c_status := CM.Closing; CM.c_createdAt := 1000;
               CM.c_lastActivity := 1000; CM.c_reconnectAttempts := 1;
               CM.c_client := Some 7%N; CM.c_qrCode := None |}
            32000 (Return 8%N))) !! Scenario.s1 = None /\
  i_client <$>
    instances
      (CM.adapter
         (fst (CM.reconnect_after_wait
                 (fst (CM.closeSession
                         (fst (CM.reconnect_until_wait Scenario.manager1 Scenario.s1 2000
                                 (Return tt)))
                         Scenario.s1 10000 (Return tt)))
                 Scenario.s1
                 {| CM.c_status := CM.Closing; CM.c_createdAt := 1000;
                    CM.c_lastActivity := 1000; CM.c_reconnectAttempts := 1;
                    CM.c_client := Some 7%N; CM.c_qrCode := None |}
                 32000 (Return 8%N)))) !! Scenario.s1 = Some (Some 8%N).
Proof.
  assert (Hc : CM.connections Scenario.manager1 !! Scenario.s1
               = Some {| CM.c_status := CM.Connected; CM.c_createdAt := 1000;
                         CM.c_lastActivity := 1000; CM.c_reconnectAttempts := 0;
                         CM.c_client := Some 7%N; CM.c_qrCode := None |})
    by (vm_compute; reflexivity).
  assert (Hlt : 0 < CM.reconnectAttempts (CM.cfg Scenario.manager1))
    by (vm_compute; reflexivity).
  destruct (closeSession_does_not_stop_a_reconnection Scenario.manager1 Scenario.s1 _
              {| CM.c_status := CM.Closing; CM.c_createdAt := 1000;
                 CM.c_lastActivity := 1000; CM.c_reconnectAttempts := 1;
                 CM.c_client := Some 7%N; CM.c_qrCode := None |}
              2000 (Return tt) 10000 (Return tt) 32000 8%N Hc Hlt)
    as (_ & _ & _ & H4 & H5 & _).
  split.
  - rewrite H4. apply lookup_delete_eq.
  - rewrite H5. reflexivity.
Defined.

End ReconnectAwait.
